(** * NEMO/utilities.py: request-parameter and time-window helpers

    A shallow embedding of the time-window part of [NEMO/utilities.py]
    (parsing, localisation, validation and enumeration of time ranges)
    together with the two "quiet" request helpers, and the proofs of the
    properties stated for them.

    Python values are embedded as follows.
    - Exceptions are explicit: a computation returns [Ok v] or [Raise e].
    - Strings are [string] (sequences of 8-bit characters); the embedding
      covers ASCII text.
    - A float is the rational number it denotes; where the library
      multiplies two floats the product is rounded to binary64.
    - A [datetime] is a record of its calendar fields with an optional
      UTC offset ([None] for a naive value).
    - A request dictionary is a [gmap string pyvalue].
    - The platform pieces the module reads (process timezone, clock,
      builtin [float], the free-text date parser) are gathered in [env]. *)

From Stdlib Require Import ZArith QArith Qpower Lia Lqa Bool List String Ascii DecimalString.
From Stdlib Require Import DecimalPos.
From stdpp Require Import base option list gmap strings.
Import ListNotations.

Close Scope Q_scope.
Open Scope string_scope.
Open Scope Z_scope.

(** ** Exceptions and results *)

Inductive exn : Type :=
| Exception (msg : string)      (* raise Exception("...")                 *)
| KeyError (key : string)       (* d[k] on an absent key                  *)
| ValueError
| TypeError
| AttributeError
| IndexError
| OverflowError
| InvalidTimeError.             (* pytz: non-existent or ambiguous reading *)

Inductive result (A : Type) : Type :=
| Ok (a : A)
| Raise (e : exn).
Arguments Ok {A} a.
Arguments Raise {A} e.

Definition bind {A B : Type} (r : result A) (k : A -> result B) : result B :=
  match r with
  | Ok a => k a
  | Raise e => Raise e
  end.

Notation "x <- e ;; k" := (bind e (fun x => k))
  (at level 100, e at next level, k at level 200, right associativity).

(** [try: body / except: handler] -- a bare [except] (and [except Exception])
    catches every exception of the embedding. *)
Definition try_except {A : Type} (body : result A) (handler : exn -> result A) : result A :=
  match body with
  | Ok a => Ok a
  | Raise e => handler e
  end.

Fixpoint mapM {A B : Type} (f : A -> result B) (l : list A) : result (list B) :=
  match l with
  | [] => Ok []
  | x :: xs => y <- f x ;; ys <- mapM f xs ;; Ok (y :: ys)
  end.

(** ** Values found in a request dictionary *)

Inductive pyvalue : Type :=
| VNone
| VInt (n : Z)
| VFloat (q : Q)      (* a finite float, by its exact value *)
| VStr (s : string).

(** [d[k]] *)
Definition dict_getitem (d : gmap string pyvalue) (k : string) : result pyvalue :=
  match d !! k with
  | Some v => Ok v
  | None => Raise (KeyError k)
  end.

(** ** Characters and strings *)

Definition code (c : ascii) : Z := Z.of_N (N_of_ascii c).

(** [str.isspace] on ASCII: TAB, LF, VT, FF, CR, FS, GS, RS, US, SPACE. *)
Definition is_space (c : ascii) : bool :=
  let n := code c in
  ((9 <=? n) && (n <=? 13)) || ((28 <=? n) && (n <=? 32)).

(** C [isspace], used by [int()] on ASCII text. *)
Definition is_cspace (c : ascii) : bool :=
  let n := code c in
  ((9 <=? n) && (n <=? 13)) || (n =? 32).

Definition digit_of (c : ascii) : option Z :=
  let n := code c in
  if (48 <=? n) && (n <=? 57) then Some (n - 48) else None.

Fixpoint lstrip_with (p : ascii -> bool) (l : list ascii) : list ascii :=
  match l with
  | [] => []
  | c :: r => if p c then lstrip_with p r else l
  end.

Definition rstrip_with (p : ascii -> bool) (l : list ascii) : list ascii :=
  rev (lstrip_with p (rev l)).

(** [s.strip()] *)
Definition str_strip (s : string) : string :=
  string_of_list_ascii
    (rstrip_with is_space (lstrip_with is_space (list_ascii_of_string s))).

(** [s.lstrip('0')] *)
Definition str_lstrip_zero (s : string) : string :=
  string_of_list_ascii
    (lstrip_with (fun c => code c =? 48) (list_ascii_of_string s)).

(** [len(s)] *)
Definition str_len (s : string) : Z := Z.of_nat (String.length s).

(** The decimal text of an integer: [str(n)], for an integer that the
    interpreter converts (see [format_int] below). *)
Definition str_of_int (n : Z) : string := NilZero.string_of_int (Z.to_int n).

(** Two-digit zero-padded rendering ([%d], [%m], [%M], [%I]). *)
Definition pad2 (n : Z) : string :=
  if n <? 10 then "0" +:+ str_of_int n else str_of_int n.

(** Digits of an integer literal after the sign: a digit, then digits
    with single underscores allowed between them. Returns the value and
    the unread rest. *)
Fixpoint int_digits (acc : Z) (l : list ascii) : Z * list ascii :=
  match l with
  | c :: r =>
      match digit_of c with
      | Some d => int_digits (10 * acc + d) r
      | None =>
          if code c =? 95 then
            match r with
            | c' :: r' =>
                match digit_of c' with
                | Some d => int_digits (10 * acc + d) r'
                | None => (acc, l)
                end
            | [] => (acc, l)
            end
          else (acc, l)
      end
  | [] => (acc, l)
  end.

(** [sys.int_max_str_digits], by default: [int()] refuses a decimal
    text of more digits (interpreters from 3.11 on, and the security
    releases of the earlier ones). *)
Definition int_max_str_digits : Z := 4300.

(** The number of digits in a text; underscores and whitespace do not
    count. *)
Fixpoint digit_count (l : list ascii) : Z :=
  match l with
  | [] => 0
  | c :: r => (match digit_of c with Some _ => 1 | None => 0 end) + digit_count r
  end.

(** ['{}'.format(n)] for an integer, which is [str(n)]: the conversion
    of an integer of more digits than the limit is refused. *)
Definition format_int (n : Z) : result string :=
  if int_max_str_digits <? str_len (str_of_int (Z.abs n)) then Raise ValueError
  else Ok (str_of_int n).

(** [int(s)] for a string, base 10. *)
Definition int_of_string (s : string) : result Z :=
  let l := lstrip_with is_cspace (list_ascii_of_string s) in
  let '(neg, l) :=
    match l with
    | c :: r => if code c =? 45 then (true, r)
                else if code c =? 43 then (false, r) else (false, l)
    | [] => (false, l)
    end in
  match l with
  | c :: r =>
      match digit_of c with
      | Some d =>
          let '(n, rest) := int_digits d r in
          match lstrip_with is_cspace rest with
          | [] =>
              if int_max_str_digits <? digit_count l
              then Raise ValueError   (* exceeds the limit for integer string conversion *)
              else Ok (if neg then - n else n)
          | _ :: _ => Raise ValueError
          end
      | None => Raise ValueError
      end
  | [] => Raise ValueError
  end.

(** [int(v)] *)
Definition py_int (v : pyvalue) : result Z :=
  match v with
  | VInt n => Ok n
  | VFloat q => Ok (Z.quot (Qnum q) (Z.pos (Qden q)))
  | VStr s => int_of_string s
  | VNone => Raise TypeError
  end.

(** [v.strip()]: only strings have the method. *)
Definition py_strip (v : pyvalue) : result string :=
  match v with
  | VStr s => Ok (str_strip s)
  | _ => Raise AttributeError
  end.

(** [xs[i]] on a list, with Python's negative indices. *)
Definition list_getitem {A : Type} (xs : list A) (i : Z) : result A :=
  let n := Z.of_nat (length xs) in
  let j := if i <? 0 then i + n else i in
  if (0 <=? j) && (j <? n) then
    match xs !! Z.to_nat j with
    | Some x => Ok x
    | None => Raise IndexError
    end
  else Raise IndexError.

(** ** The proleptic Gregorian calendar of [datetime] and [calendar] *)

Definition MINYEAR : Z := 1.
Definition MAXYEAR : Z := 9999.
Definition MAXORDINAL : Z := 3652059.   (* date.max.toordinal() *)

(** [calendar.isleap] / [datetime._is_leap] *)
Definition is_leap (year : Z) : bool :=
  (year mod 4 =? 0) && (negb (year mod 100 =? 0) || (year mod 400 =? 0)).

Definition DAYS_IN_MONTH (month : Z) : Z :=
  match month with
  | 1 => 31 | 2 => 28 | 3 => 31 | 4 => 30 | 5 => 31 | 6 => 30
  | 7 => 31 | 8 => 31 | 9 => 30 | 10 => 31 | 11 => 30 | 12 => 31
  | _ => -1
  end.

Definition DAYS_BEFORE_MONTH (month : Z) : Z :=
  match month with
  | 1 => 0 | 2 => 31 | 3 => 59 | 4 => 90 | 5 => 120 | 6 => 151
  | 7 => 181 | 8 => 212 | 9 => 243 | 10 => 273 | 11 => 304 | 12 => 334
  | _ => -1
  end.

Definition days_before_year (year : Z) : Z :=
  let y := year - 1 in y * 365 + y / 4 - y / 100 + y / 400.

Definition days_in_month (year month : Z) : Z :=
  if (month =? 2) && is_leap year then 29 else DAYS_IN_MONTH month.

Definition days_before_month (year month : Z) : Z :=
  DAYS_BEFORE_MONTH month + (if (2 <? month) && is_leap year then 1 else 0).

(** [datetime._ymd2ord]: 0001-01-01 is day 1. *)
Definition ymd2ord (year month day : Z) : Z :=
  days_before_year year + days_before_month year month + day.

(** The month and day of the [n]-th day (from 0) of a year. *)
Definition ord2md (leapyear : bool) (n : Z) : Z * Z :=
  let month := Z.shiftr (n + 50) 5 in
  let preceding :=
    DAYS_BEFORE_MONTH month + (if (2 <? month) && leapyear then 1 else 0) in
  let '(month, preceding) :=
    if n <? preceding
    then (month - 1,
          preceding - (DAYS_IN_MONTH (month - 1)
                       + (if (month - 1 =? 2) && leapyear then 1 else 0)))
    else (month, preceding) in
  (month, n - preceding + 1).

(** [datetime._ord2ymd] *)
Definition ord2ymd (n : Z) : Z * Z * Z :=
  let n := n - 1 in
  let n400 := n / 146097 in let n := n mod 146097 in
  let year := n400 * 400 + 1 in
  let n100 := n / 36524 in let n := n mod 36524 in
  let n4 := n / 1461 in let n := n mod 1461 in
  let n1 := n / 365 in let n := n mod 365 in
  let year := year + n100 * 100 + n4 * 4 + n1 in
  if (n1 =? 4) || (n100 =? 4) then (year - 1, 12, 31)
  else
    let leapyear := (n1 =? 3) && (negb (n4 =? 24) || (n100 =? 3)) in
    let '(m, d) := ord2md leapyear n in (year, m, d).

Definition date_valid (year month day : Z) : bool :=
  (MINYEAR <=? year) && (year <=? MAXYEAR) &&
  (1 <=? month) && (month <=? 12) &&
  (1 <=? day) && (day <=? days_in_month year month).

(** [calendar.monthrange(year, month)]: weekday of the first day
    (Monday is 0) and number of days of the month. The month must be in
    1..12; the year is that of a [datetime] wherever the module calls
    it, and a year outside [MINYEAR..MAXYEAR] is refused here. *)
Definition monthrange (year month : Z) : result (Z * Z) :=
  if (1 <=? month) && (month <=? 12) then
    if (MINYEAR <=? year) && (year <=? MAXYEAR) then
      Ok ((ymd2ord year month 1 + 6) mod 7,
          DAYS_IN_MONTH month + (if (month =? 2) && is_leap year then 1 else 0))
    else Raise ValueError
  else Raise ValueError.

(** ** datetime and timedelta *)

(** [tzinfo] is the UTC offset, in seconds, of the fixed-offset tzinfo
    that pytz attaches to a localized value; [None] for a naive value. *)
Record datetime : Type := mkdatetime {
  year : Z; month : Z; day : Z;
  hour : Z; minute : Z; second : Z; microsecond : Z;
  tzinfo : option Z
}.

Definition time_valid (h mi s us : Z) : bool :=
  (0 <=? h) && (h <? 24) && (0 <=? mi) && (mi <? 60) &&
  (0 <=? s) && (s <? 60) && (0 <=? us) && (us <? 1000000).

Definition datetime_valid (dt : datetime) : bool :=
  date_valid (year dt) (month dt) (day dt) &&
  time_valid (hour dt) (minute dt) (second dt) (microsecond dt).

(** [datetime(year, month, day, hour, minute, second, microsecond)] *)
Definition datetime_new (y m d h mi s us : Z) : result datetime :=
  if date_valid y m d && time_valid h mi s us
  then Ok (mkdatetime y m d h mi s us None)
  else Raise ValueError.

(** [dt.replace(hour=.., minute=.., second=.., microsecond=.., tzinfo=None)] *)
Definition replace_time (dt : datetime) (h mi s us : Z) : datetime :=
  mkdatetime (year dt) (month dt) (day dt) h mi s us None.

Definition toordinal (dt : datetime) : Z := ymd2ord (year dt) (month dt) (day dt).

Definition US_PER_SECOND : Z := 1000000.
Definition US_PER_DAY : Z := 86400 * 1000000.

(** The wall-clock reading as microseconds counted from ordinal day 0. *)
Definition wall_micros (dt : datetime) : Z :=
  (((toordinal dt * 24 + hour dt) * 60 + minute dt) * 60 + second dt) * US_PER_SECOND
  + microsecond dt.

(** The instant an aware value denotes: its reading minus its offset. *)
Definition utc_micros (dt : datetime) (offset : Z) : Z :=
  wall_micros dt - offset * US_PER_SECOND.

(** The value with the given reading, or an error outside
    0001-01-01 .. 9999-12-31. *)
Definition of_wall_micros (us : Z) (tz : option Z) : result datetime :=
  let ord := us / US_PER_DAY in
  let r := us mod US_PER_DAY in
  if (1 <=? ord) && (ord <=? MAXORDINAL) then
    let '(y, m, d) := ord2ymd ord in
    let secs := r / US_PER_SECOND in
    Ok (mkdatetime y m d (secs / 3600) (secs mod 3600 / 60) (secs mod 60)
                   (r mod US_PER_SECOND) tz)
  else Raise OverflowError.

(** A normalized [timedelta]: 0 <= seconds < 86400, 0 <= microseconds < 10^6. *)
Record timedelta_t : Type := mktimedelta {
  td_days : Z; td_seconds : Z; td_microseconds : Z
}.

(** [timedelta(days=.., seconds=.., microseconds=..)] on integers. *)
Definition timedelta (days seconds microseconds : Z) : timedelta_t :=
  let total := (days * 86400 + seconds) * US_PER_SECOND + microseconds in
  let r := total mod US_PER_DAY in
  mktimedelta (total / US_PER_DAY) (r / US_PER_SECOND) (r mod US_PER_SECOND).

Definition timedelta_add (a b : timedelta_t) : timedelta_t :=
  timedelta (td_days a + td_days b) (td_seconds a + td_seconds b)
            (td_microseconds a + td_microseconds b).

(** [dt + delta]: the reading moves, the tzinfo is kept as it is. *)
Definition datetime_add (dt : datetime) (other : timedelta_t) : result datetime :=
  let delta :=
    timedelta_add
      (timedelta (toordinal dt)
                 (hour dt * 3600 + minute dt * 60 + second dt) (microsecond dt))
      other in
  let hh := td_seconds delta / 3600 in
  let rem := td_seconds delta mod 3600 in
  if (0 <? td_days delta) && (td_days delta <=? MAXORDINAL) then
    let '(y, m, d) := ord2ymd (td_days delta) in
    Ok (mkdatetime y m d hh (rem / 60) (rem mod 60) (td_microseconds delta) (tzinfo dt))
  else Raise OverflowError.

(** [a < b]: two aware values compare as instants, two naive values as
    readings, and a naive value does not compare with an aware one. *)
Definition datetime_lt (a b : datetime) : result bool :=
  match tzinfo a, tzinfo b with
  | Some oa, Some ob => Ok (utc_micros a oa <? utc_micros b ob)
  | None, None => Ok (wall_micros a <? wall_micros b)
  | _, _ => Raise TypeError
  end.

Definition datetime_le (a b : datetime) : result bool :=
  match tzinfo a, tzinfo b with
  | Some oa, Some ob => Ok (utc_micros a oa <=? utc_micros b ob)
  | None, None => Ok (wall_micros a <=? wall_micros b)
  | _, _ => Raise TypeError
  end.

(** Round to the nearest integer, ties to even. *)
Definition round_half_even (q : Q) : Z :=
  let n := Qnum q in
  let d := Z.pos (Qden q) in
  let f := n / d in
  let r2 := 2 * (n mod d) in
  if r2 <? d then f
  else if d <? r2 then f + 1
  else if Z.even f then f else f + 1.

Definition EPOCH_ORDINAL : Z := 719163.   (* 1970-01-01 *)

(** The binary exponent of a positive rational: the integer part of its
    logarithm in base 2. *)
Definition binade (q : Q) : Z :=
  let k := Z.log2 (Qnum q) - Z.log2 (Z.pos (Qden q)) in
  if Qle_bool (Qpower 2 k) q then k else k - 1.

(** The binary64 float nearest to a positive rational, ties to the even
    significand: 53 significant bits, the last of them of exponent -1074
    at least. (Values beyond the range of a float do not arise where
    the rounding is used: the products are below 10^6 in magnitude.) *)
Definition double_round_pos (q : Q) : Q :=
  let e := Z.max (binade q - 52) (-1074) in
  Qmult (inject_Z (round_half_even (Qmult q (Qpower 2 (- e))))) (Qpower 2 e).

Definition double_round (q : Q) : Q :=
  match Qnum q with
  | 0 => 0%Q
  | Z.pos _ => double_round_pos q
  | Z.neg _ => Qopp (double_round_pos (Qopp q))
  end.

(** The microseconds of a timestamp, as CPython converts a float
    ([_PyTime_ObjectToTimeval] with [ROUND_HALF_EVEN]): [modf] splits
    the float into its integral and fractional parts, both of the sign
    of the float; the fractional part is multiplied by the float 1e6,
    and this product, a float, is rounded to an integer, ties to even. *)
Definition timestamp_micros (t : Q) : Z :=
  let intpart := Z.quot (Qnum t) (Z.pos (Qden t)) in
  let floatpart := Qmake (Z.rem (Qnum t) (Z.pos (Qden t))) (Qden t) in
  let floatpart := double_round (Qmult floatpart (inject_Z US_PER_SECOND)) in
  intpart * US_PER_SECOND + round_half_even floatpart.

(** [datetime.utcfromtimestamp(t)]: the naive UTC reading of a POSIX
    timestamp, rounded to the microsecond. *)
Definition utcfromtimestamp (t : Q) : result datetime :=
  try_except (of_wall_micros (timestamp_micros t + EPOCH_ORDINAL * US_PER_DAY) None)
             (fun _ => Raise ValueError).

(** ** Time zones (pytz)

    A pytz zone is seen through what [localize] decides for a naive
    reading: [tz_offset] is the offset picked with [is_dst=False] (the
    default, used by [tz.localize(dt)]), [tz_offset_strict] the one
    picked with [is_dst=None] (used by django's [make_aware]), which
    raises on readings that do not exist or are ambiguous; and
    [tz_offset_at_utc] is the offset in force at a UTC instant
    (microseconds), used by [astimezone]. *)
Record timezone : Type := mktimezone {
  tz_offset : datetime -> result Z;
  tz_offset_strict : datetime -> result Z;
  tz_offset_at_utc : Z -> Z
}.

Definition with_tzinfo (dt : datetime) (o : option Z) : datetime :=
  mkdatetime (year dt) (month dt) (day dt)
             (hour dt) (minute dt) (second dt) (microsecond dt) o.

(** [tz.localize(dt)]: refuses a value that already has a tzinfo. *)
Definition tz_localize (tz : timezone) (dt : datetime) : result datetime :=
  match tzinfo dt with
  | Some _ => Raise ValueError
  | None => o <- tz_offset tz dt ;; Ok (with_tzinfo dt (Some o))
  end.

(** [django.utils.timezone.make_aware(value, tz)] with a pytz zone:
    [tz.localize(value, is_dst=None)]. *)
Definition make_aware (value : datetime) (tz : timezone) : result datetime :=
  match tzinfo value with
  | Some _ => Raise ValueError
  | None => o <- tz_offset_strict tz value ;; Ok (with_tzinfo value (Some o))
  end.

(** [dt.astimezone(tz)] for an aware value. (For a naive value CPython
    presumes the system zone, which the embedding leaves out.) *)
Definition astimezone (dt : datetime) (tz : timezone) : result datetime :=
  match tzinfo dt with
  | Some o =>
      let u := utc_micros dt o in
      let o' := tz_offset_at_utc tz u in
      of_wall_micros (u + o' * US_PER_SECOND) (Some o')
  | None => Raise ValueError
  end.

(** UTC and the other fixed-offset zones. *)
Definition fixed_offset (seconds : Z) : timezone :=
  mktimezone (fun _ => Ok seconds) (fun _ => Ok seconds) (fun _ => seconds).

Definition utc : timezone := fixed_offset 0.

(** America/New_York as pytz resolves readings of the year 2024:
    clocks go from 02:00 EST to 03:00 EDT on March 10th and from
    02:00 EDT back to 01:00 EST on November 3rd. With [is_dst=False] a
    reading in the skipped hour keeps the EST offset and a reading in
    the repeated hour is taken as EST. *)
Definition reading (y m d h mi : Z) : Z :=
  wall_micros (mkdatetime y m d h mi 0 0 None).

Definition EST : Z := -18000.
Definition EDT : Z := -14400.

Definition new_york_2024 : timezone :=
  mktimezone
    (fun dt =>
       let w := wall_micros dt in
       if w <? reading 2024 3 10 3 0 then Ok EST
       else if w <? reading 2024 11 3 1 0 then Ok EDT
       else Ok EST)
    (fun dt =>
       let w := wall_micros dt in
       if w <? reading 2024 3 10 2 0 then Ok EST
       else if w <? reading 2024 3 10 3 0 then Raise InvalidTimeError
       else if w <? reading 2024 11 3 1 0 then Ok EDT
       else if w <? reading 2024 11 3 2 0 then Raise InvalidTimeError
       else Ok EST)
    (fun u =>
       if u <? reading 2024 3 10 7 0 then EST
       else if u <? reading 2024 11 3 6 0 then EDT
       else EST).

(** ** [datetime.strptime(s, '%Y-%m-%d')]

    The format compiles to the regular expression
    [(\d\d\d\d)-(1[0-2]|0[1-9]|[1-9])-(3[0-1]|[1-2]\d|0[1-9]|[1-9]| [1-9])],
    matched at the start of the text, alternatives tried in order with
    backtracking; text left after the match is an error, and so is a
    date that does not exist. *)

Definition in_range (lo hi : Z) (c : ascii) : bool :=
  (lo <=? code c) && (code c <=? hi).

Definition digit_val (c : ascii) : Z := code c - 48.

(** All the ways the month group matches a prefix, in order of preference. *)
Definition month_alts (l : list ascii) : list (Z * list ascii) :=
  (match l with
   | a :: b :: r =>
       if (code a =? 49) && in_range 48 50 b then [(10 + digit_val b, r)] else []
   | _ => []
   end) ++
  (match l with
   | a :: b :: r =>
       if (code a =? 48) && in_range 49 57 b then [(digit_val b, r)] else []
   | _ => []
   end) ++
  (match l with
   | a :: r => if in_range 49 57 a then [(digit_val a, r)] else []
   | _ => []
   end).

(** All the ways the day group matches a prefix, in order of preference. *)
Definition day_alts (l : list ascii) : list (Z * list ascii) :=
  (match l with
   | a :: b :: r =>
       if (code a =? 51) && in_range 48 49 b then [(30 + digit_val b, r)] else []
   | _ => []
   end) ++
  (match l with
   | a :: b :: r =>
       if in_range 49 50 a && in_range 48 57 b
       then [(10 * digit_val a + digit_val b, r)] else []
   | _ => []
   end) ++
  (match l with
   | a :: b :: r =>
       if (code a =? 48) && in_range 49 57 b then [(digit_val b, r)] else []
   | _ => []
   end) ++
  (match l with
   | a :: r => if in_range 49 57 a then [(digit_val a, r)] else []
   | _ => []
   end) ++
  (match l with
   | a :: b :: r =>
       if (code a =? 32) && in_range 49 57 b then [(digit_val b, r)] else []
   | _ => []
   end).

(** The rest of the expression after a month alternative: a hyphen,
    then the first day alternative that matches. *)
Definition match_day (l : list ascii) : option (Z * list ascii) :=
  match l with
  | c :: r => if code c =? 45 then head (day_alts r) else None
  | [] => None
  end.

Fixpoint first_month (alts : list (Z * list ascii)) : option (Z * Z * list ascii) :=
  match alts with
  | [] => None
  | (m, r) :: more =>
      match match_day r with
      | Some (d, rest) => Some (m, d, rest)
      | None => first_month more
      end
  end.

Definition strptime_ymd (s : string) : result datetime :=
  match list_ascii_of_string s with
  | y1 :: y2 :: y3 :: y4 :: c :: r =>
      if in_range 48 57 y1 && in_range 48 57 y2 && in_range 48 57 y3
         && in_range 48 57 y4 && (code c =? 45)
      then
        match first_month (month_alts r) with
        | Some (m, d, []) =>
            datetime_new
              (1000 * digit_val y1 + 100 * digit_val y2 + 10 * digit_val y3 + digit_val y4)
              m d 0 0 0 0
        | Some (_, _, _ :: _) => Raise ValueError   (* unconverted data remains *)
        | None => Raise ValueError
        end
      else Raise ValueError
  | _ => Raise ValueError
  end.

(** [datetime.strptime(v, '%Y-%m-%d')] on a request value: the argument
    must be a string. *)
Definition strptime_value (v : pyvalue) : result datetime :=
  match v with
  | VStr s => strptime_ymd s
  | _ => Raise TypeError
  end.

(** ** [strftime] directives used by the formatter (C locale) *)

Definition weekday (dt : datetime) : Z := (toordinal dt + 6) mod 7.

Definition day_name (w : Z) : string :=
  match w with
  | 0 => "Monday" | 1 => "Tuesday" | 2 => "Wednesday" | 3 => "Thursday"
  | 4 => "Friday" | 5 => "Saturday" | _ => "Sunday"
  end.

Definition month_name (m : Z) : string :=
  match m with
  | 1 => "January" | 2 => "February" | 3 => "March" | 4 => "April"
  | 5 => "May" | 6 => "June" | 7 => "July" | 8 => "August"
  | 9 => "September" | 10 => "October" | 11 => "November" | _ => "December"
  end.

(** ["%A, %B "] *)
Definition strftime_A_B (dt : datetime) : string :=
  day_name (weekday dt) +:+ ", " +:+ month_name (month dt) +:+ " ".

(** ["%d"] *)
Definition strftime_d (dt : datetime) : string := pad2 (day dt).

(** [", %Y @ "] (the year is not padded by the C library) *)
Definition strftime_Y (dt : datetime) : string :=
  ", " +:+ str_of_int (year dt) +:+ " @ ".

(** ["%I:%M %p"] *)
Definition strftime_I_M_p (dt : datetime) : string :=
  let h12 := if hour dt mod 12 =? 0 then 12 else hour dt mod 12 in
  pad2 h12 +:+ ":" +:+ pad2 (minute dt) +:+ " "
  +:+ (if hour dt <? 12 then "AM" else "PM").

(** ** [dateutil.rrule.rrule(MONTHLY, dtstart=.., count=..)]

    One occurrence per month on the day of [dtstart], at its time of day
    with the microsecond dropped; months that lack the day are passed
    over; the iteration stops after [count] occurrences or when the
    year passes [MAXYEAR] (a [count] of zero or less gives no
    occurrence). [steps] is the number of months left up to December of
    [MAXYEAR]. *)
Definition next_month (y m : Z) : Z * Z :=
  let m := m + 1 in
  if 12 <? m then
    let d := m / 12 in
    let r := m mod 12 in
    if r =? 0 then (y + d - 1, 12) else (y + d, r)
  else (y, m).

Fixpoint rrule_monthly_from (steps : nat) (y m : Z) (dtstart : datetime) (count : Z)
  : list datetime :=
  match steps with
  | O => []
  | S k =>
      if count <=? 0 then []
      else
        let '(y', m') := next_month y m in
        if day dtstart <=? days_in_month y m then
          mkdatetime y m (day dtstart) (hour dtstart) (minute dtstart) (second dtstart)
                     0 (tzinfo dtstart)
          :: rrule_monthly_from k y' m' dtstart (count - 1)
        else rrule_monthly_from k y' m' dtstart count
  end.

Definition rrule_monthly (dtstart : datetime) (count : Z) : list datetime :=
  rrule_monthly_from
    (Z.to_nat ((MAXYEAR - year dtstart) * 12 + (12 - month dtstart) + 1))
    (year dtstart) (month dtstart) dtstart count.

(** ** The platform the module reads

    - [current_timezone]: [timezone.get_current_timezone()];
    - [now]: the reading of [timezone.now()], an aware value in UTC;
    - [py_float]: the builtin [float(v)], by the exact value of its
      result ([Raise] also stands for a result that is not finite,
      which the conversion that follows in the same [try] rejects);
    - [dateutil_parse]: [dateutil.parser.parse(text)]. *)
Record env : Type := mkenv {
  current_timezone : timezone;
  now : datetime;
  py_float : pyvalue -> result Q;
  dateutil_parse : string -> result datetime
}.

(** * NEMO/utilities.py *)

(** [localize(dt, tz=None)], for a single value. *)
Definition localize (E : env) (dt : datetime) (tz : option timezone) : result datetime :=
  let tz := match tz with Some z => z | None => current_timezone E end in
  tz_localize tz dt.

(** [localize(dt, tz=None)], for a list of values. *)
Definition localize_list (E : env) (dt : list datetime) (tz : option timezone)
  : result (list datetime) :=
  let tz := match tz with Some z => z | None => current_timezone E end in
  mapM (tz_localize tz) dt.

Definition parse_start_and_end_date (E : env) (start end_ : string)
  : result (datetime * datetime) :=
  start <- (d <- dateutil_parse E start ;; make_aware d (current_timezone E)) ;;
  end_ <- (d <- dateutil_parse E end_ ;; make_aware d (current_timezone E)) ;;
  end_ <- datetime_add end_ (timedelta 1 (-1) 0) ;;
  Ok (start, end_).

Definition quiet_int (value_to_convert : pyvalue) (default_upon_failure : pyvalue)
  : result pyvalue :=
  let result := default_upon_failure in
  result <- try_except (n <- py_int value_to_convert ;; Ok (VInt n))
                       (fun _ => Ok result) ;;
  Ok result.

(** The message of the length error: [str.format] on the key, the
    length and the limit. *)
Definition too_long_message (parameter_key : string) (len maximum_length : Z)
  : result string :=
  len <- format_int len ;;
  maximum_length <- format_int maximum_length ;;
  Ok ("The parameter named " +:+ parameter_key +:+ " is " +:+ len
      +:+ " characters long, exceeding the maximum length of "
      +:+ maximum_length +:+ " characters.").

Definition parse_parameter_string (parameter_dictionary : gmap string pyvalue)
    (parameter_key : string) (maximum_length : Z) (raise_on_error : bool)
    (default_return : pyvalue) : result pyvalue :=
  try_except
    (v <- dict_getitem parameter_dictionary parameter_key ;;
     parameter <- py_strip v ;;
     if raise_on_error && (maximum_length <? str_len parameter)
     then message <- too_long_message parameter_key (str_len parameter) maximum_length ;;
          Raise (Exception message)
     else Ok (VStr parameter))
    (fun e => if raise_on_error then Raise e else Ok default_return).

(** Both readings of the clock in the first line are taken to be the
    same reading [now E]. *)
Definition month_list (E : env) (since : datetime) : result (list datetime) :=
  let month_count :=
    (year (now E) - year since) * 12 + (month (now E) - month since) + 1 in
  let result := rrule_monthly since month_count in
  result <- localize_list E result None ;;
  Ok (rev result).

Definition get_month_timeframe (E : env) (date : option string)
  : result (datetime * datetime) :=
  start <- match date with
           | None | Some "" => Ok (now E)
           | Some text => dateutil_parse E text
           end ;;
  first_of_the_month <-
    (d <- datetime_new (year start) (month start) 1 0 0 0 0 ;; localize E d None) ;;
  last_of_the_month <-
    (r <- monthrange (year start) (month start) ;;
     d <- datetime_new (year start) (month start) (snd r) 23 59 59 0 ;;
     localize E d None) ;;
  Ok (first_of_the_month, last_of_the_month).

Definition extract_times (E : env) (parameters : gmap string pyvalue)
    (input_timezone : option timezone) : result (datetime * datetime) :=
  start <- try_except (dict_getitem parameters "start")
             (fun _ => Raise (Exception "The request parameters did not contain a start time.")) ;;
  end_ <- try_except (dict_getitem parameters "end")
             (fun _ => Raise (Exception "The request parameters did not contain an end time.")) ;;
  start <- try_except
             (start <- py_float E start ;;
              start <- utcfromtimestamp start ;;
              localize E start input_timezone)
             (fun _ => Raise (Exception "The request parameters did not have a valid start time.")) ;;
  end_ <- try_except
             (end_ <- py_float E end_ ;;
              end_ <- utcfromtimestamp end_ ;;
              localize E end_ input_timezone)
             (fun _ => Raise (Exception "The request parameters did not have a valid end time.")) ;;
  before <- datetime_lt end_ start ;;
  if before
  then Raise (Exception "The request parameters have an end time that precedes the start time.")
  else Ok (start, end_).

Definition extract_date (E : env) (date : pyvalue) : result datetime :=
  d <- strptime_value date ;; localize E d None.

Definition extract_dates (E : env) (parameters : gmap string pyvalue)
  : result (datetime * datetime) :=
  start <- try_except (dict_getitem parameters "start")
             (fun _ => Raise (Exception "The request parameters did not contain a start time.")) ;;
  end_ <- try_except (dict_getitem parameters "end")
             (fun _ => Raise (Exception "The request parameters did not contain an end time.")) ;;
  start <- try_except (extract_date E start)
             (fun _ => Raise (Exception "The request parameters did not have a valid start time.")) ;;
  end_ <- try_except (extract_date E end_)
             (fun _ => Raise (Exception "The request parameters did not have a valid end time.")) ;;
  before <- datetime_lt end_ start ;;
  if before
  then Raise (Exception "The request parameters have an end time that precedes the start time.")
  else Ok (start, end_).

(** The suffix chosen in [format_datetime] for a day of the month. *)
Definition day_suffix (day : Z) : result string :=
  if ((4 <=? day) && (day <=? 20)) || ((24 <=? day) && (day <=? 30))
  then Ok "th"
  else list_getitem ["st"; "nd"; "rd"] (day mod 10 - 1).

Definition format_datetime (E : env) (universal_time : datetime) : result string :=
  local_time <- astimezone universal_time (current_timezone E) ;;
  day <- int_of_string (strftime_d local_time) ;;
  suffix <- day_suffix day ;;
  Ok (strftime_A_B local_time +:+ str_of_int day +:+ suffix
      +:+ strftime_Y local_time +:+ str_lstrip_zero (strftime_I_M_p local_time)).

Definition beginning_of_the_day (E : env) (t : datetime) (in_local_timezone : bool)
  : result datetime :=
  let midnight := replace_time t 0 0 0 0 in
  if in_local_timezone then localize E midnight None else Ok midnight.

Definition end_of_the_day (E : env) (t : datetime) (in_local_timezone : bool)
  : result datetime :=
  let midnight := replace_time t 23 59 59 999999 in
  if in_local_timezone then localize E midnight None else Ok midnight.

(** ** The other helpers of the module *)

(** [bootstrap_primary_color(color_type)]: [None] is Python's [None];
    a value that is not a string equals none of the four names. *)
Definition bootstrap_primary_color (color_type : pyvalue) : option string :=
  match color_type with
  | VStr s =>
      if String.eqb s "success" then Some "#5cb85c"
      else if String.eqb s "info" then Some "#5bc0de"
      else if String.eqb s "warning" then Some "#f0ad4e"
      else if String.eqb s "danger" then Some "#d9534f"
      else None
  | _ => None
  end.

(** [django.utils.timezone.localtime(value)]: the aware value converted
    to the process timezone; a naive value is refused. *)
Definition localtime (E : env) (value : datetime) : result datetime :=
  astimezone value (current_timezone E).

Definition naive_local_current_datetime (E : env) : result datetime :=
  t <- localtime E (now E) ;; Ok (with_tzinfo t None).

(** * The vocabulary of the specification *)

(** The two endpoints of a range and the request keys that hold them. *)
Inductive endpoint : Type := EndpointStart | EndpointEnd.

Definition key_name (k : endpoint) : string :=
  match k with
  | EndpointStart => "start"
  | EndpointEnd => "end"
  end.

(** The failure kinds of the range extractors. *)
Inductive failure : Type :=
| MissingParameter (k : endpoint)
| InvalidParameter (k : endpoint)
| InvertedRange.

(** The exception by which the code reports each kind. *)
Definition raised (f : failure) : exn :=
  match f with
  | MissingParameter EndpointStart =>
      Exception "The request parameters did not contain a start time."
  | MissingParameter EndpointEnd =>
      Exception "The request parameters did not contain an end time."
  | InvalidParameter EndpointStart =>
      Exception "The request parameters did not have a valid start time."
  | InvalidParameter EndpointEnd =>
      Exception "The request parameters did not have a valid end time."
  | InvertedRange =>
      Exception "The request parameters have an end time that precedes the start time."
  end.

(** The validation chain as the specification words it: a missing
    [start], then a missing [end], then an invalid [start], then an
    invalid [end], then the order of the two validated instants. *)
Definition validation_chain (validate : pyvalue -> result datetime)
    (parameters : gmap string pyvalue) : result (datetime * datetime) :=
  match parameters !! "start" with
  | None => Raise (raised (MissingParameter EndpointStart))
  | Some s =>
      match parameters !! "end" with
      | None => Raise (raised (MissingParameter EndpointEnd))
      | Some e =>
          match validate s with
          | Raise _ => Raise (raised (InvalidParameter EndpointStart))
          | Ok start =>
              match validate e with
              | Raise _ => Raise (raised (InvalidParameter EndpointEnd))
              | Ok end_ =>
                  before <- datetime_lt end_ start ;;
                  if before then Raise (raised InvertedRange) else Ok (start, end_)
              end
          end
      end
  end.

(** How [extract_times] validates one endpoint. *)
Definition validate_timestamp (E : env) (input_timezone : option timezone)
    (v : pyvalue) : result datetime :=
  t <- py_float E v ;; d <- utcfromtimestamp t ;; localize E d input_timezone.

(** The instant of an aware value; a naive value is read as UTC. *)
Definition instant (dt : datetime) : Z :=
  utc_micros dt (match tzinfo dt with Some o => o | None => 0 end).

(** The English ordinal suffix of a number: "th" for 11, 12 and 13 (and
    all numbers ending so), else by the last digit. *)
Definition english_ordinal_suffix (n : Z) : string :=
  if (11 <=? n mod 100) && (n mod 100 <=? 13) then "th"
  else match n mod 10 with
       | 1 => "st"
       | 2 => "nd"
       | 3 => "rd"
       | _ => "th"
       end.

(** The text of a calendar date in the form YYYY-MM-DD. *)
Definition pad4 (n : Z) : string :=
  (if n <? 1000 then "0" else "") +:+ (if n <? 100 then "0" else "")
  +:+ (if n <? 10 then "0" else "") +:+ str_of_int n.

Definition iso_date (y m d : Z) : string :=
  pad4 y +:+ "-" +:+ pad2 m +:+ "-" +:+ pad2 d.





(** * Concrete platforms, for examples *)

(** [float] on integers and integer literals, where it is exact (below
    2^53 in magnitude); other text is not covered and raises. *)
Definition float_of_integer (v : pyvalue) : result Q :=
  match v with
  | VInt n => Ok (inject_Z n)
  | VFloat q => Ok q
  | VStr s => n <- int_of_string s ;; Ok (inject_Z n)
  | VNone => Raise TypeError
  end.

(** A platform in UTC, at noon of March 15th 2024, whose free-text
    parser reads calendar dates YYYY-MM-DD (as dateutil does). *)
Definition noon_2024_03_15 : datetime := mkdatetime 2024 3 15 12 0 0 0 (Some 0).

Definition env_utc : env :=
  mkenv utc noon_2024_03_15 float_of_integer strptime_ymd.

(** The same platform with New York as the process timezone. *)
Definition env_new_york : env :=
  mkenv new_york_2024 noon_2024_03_15 float_of_integer strptime_ymd.

Definition request (start end_ : string) : gmap string pyvalue :=
  <["start" := VStr start]> (<["end" := VStr end_]> ∅).

(** * Notions used in the proofs *)

(** Position of a year in the 400-year cycle: [b] centuries, [c]
    four-year groups and [e] years into it. *)
Definition cycle_leap (b c e : Z) : bool :=
  (e =? 3) && (negb (c =? 24) || (b =? 3)).

(** [R] is [n/d] rounded to the nearest integer, ties to even. *)
Definition rounds_to (n d R : Z) : Prop :=
  exists f r, n = d * f + r /\ 0 <= r < d /\
    ((2 * r < d /\ R = f) \/ (d < 2 * r /\ R = f + 1) \/
     (2 * r = d /\ Z.even f = true /\ R = f) \/
     (2 * r = d /\ Z.even f = false /\ R = f + 1)).


(** [pad4 y] is four digits that read as [y]. *)
Definition pad4_reads (y : Z) : bool :=
  match list_ascii_of_string (pad4 y) with
  | [a; b; c; d] =>
      in_range 48 57 a && in_range 48 57 b && in_range 48 57 c && in_range 48 57 d
      && (1000 * digit_val a + 100 * digit_val b + 10 * digit_val c + digit_val d =? y)
  | _ => false
  end.

(** The month and day groups read [pad2 m] and [pad2 d] back. *)
Definition month_day_reads (m d : Z) : bool :=
  match first_month (month_alts (list_ascii_of_string (pad2 m +:+ "-" +:+ pad2 d))) with
  | Some (m', d', []) => (m' =? m) && (d' =? d)
  | _ => false
  end.



(** [str.strip] on the characters of a text. *)
Definition strip_list (l : list ascii) : list ascii :=
  rstrip_with is_space (lstrip_with is_space l).

(** A text without whitespace at either end. *)
Definition trimmed (l : list ascii) : Prop :=
  match l with [] => True | c :: _ => is_space c = false end /\
  match rev l with [] => True | c :: _ => is_space c = false end.

(** The value of a decimal numeral read after the digits worth [acc]. *)
Fixpoint decimal_value (u : Decimal.uint) (acc : Z) : Z :=
  match u with
  | Decimal.Nil => acc
  | Decimal.D0 l => decimal_value l (10 * acc + 0)
  | Decimal.D1 l => decimal_value l (10 * acc + 1)
  | Decimal.D2 l => decimal_value l (10 * acc + 2)
  | Decimal.D3 l => decimal_value l (10 * acc + 3)
  | Decimal.D4 l => decimal_value l (10 * acc + 4)
  | Decimal.D5 l => decimal_value l (10 * acc + 5)
  | Decimal.D6 l => decimal_value l (10 * acc + 6)
  | Decimal.D7 l => decimal_value l (10 * acc + 7)
  | Decimal.D8 l => decimal_value l (10 * acc + 8)
  | Decimal.D9 l => decimal_value l (10 * acc + 9)
  end.

(** Calendar order of two dates: by year, then month, then day. *)
Definition date_before (y1 m1 d1 y2 m2 d2 : Z) : bool :=
  (y1 <? y2) || ((y1 =? y2) && ((m1 <? m2) || ((m1 =? m2) && (d1 <? d2)))).

(** The text of a date with month and day not padded, as in 2024-1-5. *)
Definition short_date (y m d : Z) : string :=
  pad4 y +:+ "-" +:+ str_of_int m +:+ "-" +:+ str_of_int d.

(** The month and day groups read the unpadded [m] and [d] back. *)
Definition short_month_day_reads (m d : Z) : bool :=
  match first_month (month_alts (list_ascii_of_string
                                   (str_of_int m +:+ "-" +:+ str_of_int d))) with
  | Some (m', d', []) => (m' =? m) && (d' =? d)
  | _ => false
  end.


(** * Proofs *)

(** ** Results *)

Lemma bind_ok_inv {A B : Type} (r : result A) (k : A -> result B) (b : B) :
  bind r k = Ok b -> exists a, r = Ok a /\ k a = Ok b.
Proof. destruct r as [a|e]; simpl; [eauto | discriminate]. Qed.

(** ** The calendar: ordinals and dates are in bijection *)

Ltac euclid := Z.to_euclidean_division_equations; lia.

Lemma cycle_leap_true b c e :
  cycle_leap b c e = true -> e = 3 /\ (c <> 24 \/ b = 3).
Proof.
  unfold cycle_leap.
  destruct (Z.eqb_spec e 3), (Z.eqb_spec c 24), (Z.eqb_spec b 3);
    simpl; intros; try discriminate; lia.
Qed.

Lemma cycle_leap_false b c e :
  cycle_leap b c e = false -> e <> 3 \/ (c = 24 /\ b <> 3).
Proof.
  unfold cycle_leap.
  destruct (Z.eqb_spec e 3), (Z.eqb_spec c 24), (Z.eqb_spec b 3);
    simpl; intros; try discriminate; lia.
Qed.

Lemma year_of_cycle a b c e :
  0 <= a -> 0 <= b < 4 -> 0 <= c < 25 -> 0 <= e < 4 ->
  let y := 400 * a + 100 * b + 4 * c + e + 1 in
  days_before_year y = 146097 * a + 36524 * b + 1461 * c + 365 * e /\
  is_leap y = cycle_leap b c e.
Proof.
  intros Ha Hb Hc He y. subst y. split.
  - unfold days_before_year. euclid.
  - unfold is_leap, cycle_leap.
    destruct (Z.eqb_spec ((400 * a + 100 * b + 4 * c + e + 1) mod 4) 0),
      (Z.eqb_spec ((400 * a + 100 * b + 4 * c + e + 1) mod 100) 0),
      (Z.eqb_spec ((400 * a + 100 * b + 4 * c + e + 1) mod 400) 0),
      (Z.eqb_spec e 3), (Z.eqb_spec c 24), (Z.eqb_spec b 3);
      cbn; try reflexivity; exfalso; euclid.
Qed.

Lemma year_decomp y :
  1 <= y ->
  exists a b c e, 0 <= a /\ 0 <= b < 4 /\ 0 <= c < 25 /\ 0 <= e < 4 /\
    y = 400 * a + 100 * b + 4 * c + e + 1.
Proof.
  intros Hy.
  exists ((y - 1) / 400), ((y - 1) mod 400 / 100), ((y - 1) mod 100 / 4), ((y - 1) mod 4).
  repeat split; euclid.
Qed.

Lemma ord2md_ok (leap : bool) m d :
  1 <= m <= 12 ->
  1 <= d <= DAYS_IN_MONTH m + (if (m =? 2) && leap then 1 else 0) ->
  ord2md leap (DAYS_BEFORE_MONTH m + (if (2 <? m) && leap then 1 else 0) + d - 1) = (m, d).
Proof.
  intros Hm Hd.
  assert (Hc : m = 1 \/ m = 2 \/ m = 3 \/ m = 4 \/ m = 5 \/ m = 6 \/
               m = 7 \/ m = 8 \/ m = 9 \/ m = 10 \/ m = 11 \/ m = 12) by lia.
  assert (Hdd : 1 <= d <= 31).
  { destruct Hc as [->|[->|[->|[->|[->|[->|[->|[->|[->|[->|[->| ->]]]]]]]]]]];
      destruct leap; simpl in Hd; lia. }
  assert (Hk : exists k : nat, (k < 31)%nat /\ d = Z.of_nat k + 1).
  { exists (Z.to_nat (d - 1)). lia. }
  destruct Hk as (k & Hk & ->).
  do 31 (destruct k as [|k];
         [ destruct Hc as [->|[->|[->|[->|[->|[->|[->|[->|[->|[->|[->| ->]]]]]]]]]]];
           destruct leap; simpl in Hd; first [ lia | reflexivity ] | ]).
  lia.
Qed.

(** Every day of a year falls in exactly one month. *)
Lemma day_of_year_month (leap : bool) k :
  0 <= k < 365 + (if leap then 1 else 0) ->
  exists m d, 1 <= m <= 12 /\
    1 <= d <= DAYS_IN_MONTH m + (if (m =? 2) && leap then 1 else 0) /\
    k = DAYS_BEFORE_MONTH m + (if (2 <? m) && leap then 1 else 0) + d - 1.
Proof.
  intros Hk.
  destruct leap.
  - destruct (Z_lt_dec k 31); [exists 1, (k + 1); cbn; lia|].
    destruct (Z_lt_dec k 60); [exists 2, (k - 30); cbn; lia|].
    destruct (Z_lt_dec k 91); [exists 3, (k - 59); cbn; lia|].
    destruct (Z_lt_dec k 121); [exists 4, (k - 90); cbn; lia|].
    destruct (Z_lt_dec k 152); [exists 5, (k - 120); cbn; lia|].
    destruct (Z_lt_dec k 182); [exists 6, (k - 151); cbn; lia|].
    destruct (Z_lt_dec k 213); [exists 7, (k - 181); cbn; lia|].
    destruct (Z_lt_dec k 244); [exists 8, (k - 212); cbn; lia|].
    destruct (Z_lt_dec k 274); [exists 9, (k - 243); cbn; lia|].
    destruct (Z_lt_dec k 305); [exists 10, (k - 273); cbn; lia|].
    destruct (Z_lt_dec k 335); [exists 11, (k - 304); cbn; lia|].
    exists 12, (k - 334); cbn; lia.
  - destruct (Z_lt_dec k 31); [exists 1, (k + 1); cbn; lia|].
    destruct (Z_lt_dec k 59); [exists 2, (k - 30); cbn; lia|].
    destruct (Z_lt_dec k 90); [exists 3, (k - 58); cbn; lia|].
    destruct (Z_lt_dec k 120); [exists 4, (k - 89); cbn; lia|].
    destruct (Z_lt_dec k 151); [exists 5, (k - 119); cbn; lia|].
    destruct (Z_lt_dec k 181); [exists 6, (k - 150); cbn; lia|].
    destruct (Z_lt_dec k 212); [exists 7, (k - 180); cbn; lia|].
    destruct (Z_lt_dec k 243); [exists 8, (k - 211); cbn; lia|].
    destruct (Z_lt_dec k 273); [exists 9, (k - 242); cbn; lia|].
    destruct (Z_lt_dec k 304); [exists 10, (k - 272); cbn; lia|].
    destruct (Z_lt_dec k 334); [exists 11, (k - 303); cbn; lia|].
    exists 12, (k - 333); cbn; lia.
Qed.

Lemma ord2ymd_cycle a b c e k :
  0 <= a -> 0 <= b < 4 -> 0 <= c < 25 -> 0 <= e < 4 ->
  0 <= k < 365 + (if cycle_leap b c e then 1 else 0) ->
  ord2ymd (146097 * a + 36524 * b + 1461 * c + 365 * e + k + 1) =
  (400 * a + 100 * b + 4 * c + e + 1,
   fst (ord2md (cycle_leap b c e) k), snd (ord2md (cycle_leap b c e) k)).
Proof.
  intros Ha Hb Hc He Hk.
  assert (Hk' : 0 <= k < 366) by (destruct (cycle_leap b c e); lia).
  assert (Hleap : k = 365 -> cycle_leap b c e = true).
  { intros ->. destruct (cycle_leap b c e); [reflexivity | lia]. }
  pose proof (cycle_leap_true b c e) as Hl3.
  pose proof (cycle_leap_false b c e) as Hl4.
  unfold ord2ymd.
  replace (146097 * a + 36524 * b + 1461 * c + 365 * e + k + 1 - 1)
    with ((36524 * b + 1461 * c + 365 * e + k) + a * 146097) by ring.
  assert (Hr : 0 <= 36524 * b + 1461 * c + 365 * e + k < 146097).
  { destruct (cycle_leap b c e); [ specialize (Hl3 eq_refl) | specialize (Hl4 eq_refl) ]; lia. }
  rewrite Z.div_add, Z.mod_add by lia.
  rewrite (Z.div_small _ 146097), (Z.mod_small _ 146097) by lia. rewrite ?Z.add_0_l.
  destruct (Z.eq_dec (36524 * b + 1461 * c + 365 * e + k) 146096) as [Elast|NE].
  - (* the last day of a 400-year cycle *)
    rewrite Elast.
    assert (b = 3 /\ c = 24 /\ e = 3 /\ k = 365) as (-> & -> & -> & ->).
    { destruct (cycle_leap b c e); [ specialize (Hl3 eq_refl) | specialize (Hl4 eq_refl) ]; lia. }
    change (146096 / 36524) with 4. change (4 =? 4) with true. rewrite orb_true_r.
    change (146096 mod 36524) with 0. change (0 mod 1461) with 0.
    change (0 / 1461) with 0. change (0 / 365) with 0.
    change (ord2md (cycle_leap 3 24 3) 365) with (12, 31). cbn [fst snd].
    repeat first [reflexivity | lia | f_equal].
  - assert (Hr1 : 0 <= 1461 * c + 365 * e + k < 36524).
    { destruct (cycle_leap b c e); [ specialize (Hl3 eq_refl) | specialize (Hl4 eq_refl) ]; lia. }
    replace (36524 * b + 1461 * c + 365 * e + k)
      with ((1461 * c + 365 * e + k) + b * 36524) by ring.
    rewrite Z.div_add, Z.mod_add by lia.
    rewrite (Z.div_small _ 36524), (Z.mod_small _ 36524) by lia. rewrite ?Z.add_0_l.
    assert (Hr2 : 0 <= 365 * e + k < 1461).
    { destruct (cycle_leap b c e); [ specialize (Hl3 eq_refl) | specialize (Hl4 eq_refl) ]; lia. }
    replace (1461 * c + 365 * e + k) with ((365 * e + k) + c * 1461) by ring.
    rewrite Z.div_add, Z.mod_add by lia.
    rewrite (Z.div_small _ 1461), (Z.mod_small _ 1461) by lia. rewrite ?Z.add_0_l.
    destruct (Z.eq_dec k 365) as [->|Nk].
    + (* the last day of a leap year *)
      specialize (Hleap eq_refl). destruct (Hl3 Hleap) as [-> _].
      change ((365 * 3 + 365) / 365) with 4. rewrite Hleap.
      change (4 =? 4) with true. cbn [orb].
      change (ord2md true 365) with (12, 31). cbn [fst snd].
      repeat first [reflexivity | lia | f_equal].
    + assert (Hk2 : 0 <= k < 365) by lia.
      replace (365 * e + k) with (k + e * 365) by ring.
      rewrite Z.div_add, Z.mod_add by lia.
      rewrite (Z.div_small _ 365), (Z.mod_small _ 365) by lia. rewrite ?Z.add_0_l.
      replace (e =? 4) with false by (symmetry; apply Z.eqb_neq; lia).
      replace (b =? 4) with false by (symmetry; apply Z.eqb_neq; lia).
      cbn [orb]. fold (cycle_leap b c e).
      destruct (ord2md (cycle_leap b c e) k) as [m d]. cbn [fst snd].
      repeat first [reflexivity | lia | f_equal].
Qed.

Lemma days_in_month_bounds y m : 1 <= m <= 12 -> 28 <= days_in_month y m <= 31.
Proof.
  intros Hm. unfold days_in_month.
  assert (Hc : m = 1 \/ m = 2 \/ m = 3 \/ m = 4 \/ m = 5 \/ m = 6 \/
               m = 7 \/ m = 8 \/ m = 9 \/ m = 10 \/ m = 11 \/ m = 12) by lia.
  destruct Hc as [->|[->|[->|[->|[->|[->|[->|[->|[->|[->|[->| ->]]]]]]]]]]];
    destruct (is_leap y); cbn; lia.
Qed.

Lemma days_in_month_alt y m :
  days_in_month y m = DAYS_IN_MONTH m + (if (m =? 2) && is_leap y then 1 else 0).
Proof.
  unfold days_in_month. destruct (Z.eqb_spec m 2) as [->|]; cbn; [|lia].
  destruct (is_leap y); reflexivity.
Qed.

(** [date.fromordinal(date(y, m, d).toordinal())] is the date itself. *)
Lemma ord2ymd_ymd2ord y m d :
  1 <= y -> 1 <= m <= 12 -> 1 <= d <= days_in_month y m ->
  ord2ymd (ymd2ord y m d) = (y, m, d).
Proof.
  intros Hy Hm Hd.
  destruct (year_decomp y Hy) as (a & b & c & e & Ha & Hb & Hc & He & ->).
  destruct (year_of_cycle a b c e Ha Hb Hc He) as [Hdby Hleap].
  cbv zeta in Hdby, Hleap.
  rewrite days_in_month_alt, Hleap in Hd.
  unfold ymd2ord, days_before_month. rewrite Hdby, Hleap.
  set (L := cycle_leap b c e) in *.
  set (k := DAYS_BEFORE_MONTH m + (if (2 <? m) && L then 1 else 0) + d - 1).
  replace (146097 * a + 36524 * b + 1461 * c + 365 * e +
           (DAYS_BEFORE_MONTH m + (if (2 <? m) && L then 1 else 0)) + d)
    with (146097 * a + 36524 * b + 1461 * c + 365 * e + k + 1) by (subst k; ring).
  assert (Hk : 0 <= k < 365 + (if L then 1 else 0)).
  { subst k.
    assert (Hcs : m = 1 \/ m = 2 \/ m = 3 \/ m = 4 \/ m = 5 \/ m = 6 \/
                  m = 7 \/ m = 8 \/ m = 9 \/ m = 10 \/ m = 11 \/ m = 12) by lia.
    destruct Hcs as [->|[->|[->|[->|[->|[->|[->|[->|[->|[->|[->| ->]]]]]]]]]]];
      destruct L; cbn in Hd |- *; lia. }
  subst L. rewrite (ord2ymd_cycle a b c e k Ha Hb Hc He Hk).
  subst k. rewrite (ord2md_ok _ m d Hm Hd). reflexivity.
Qed.

(** [date.fromordinal(n)] is a date whose ordinal is [n]. *)
Lemma ymd2ord_ord2ymd n :
  1 <= n ->
  exists y m d, ord2ymd n = (y, m, d) /\
    1 <= y /\ 1 <= m <= 12 /\ 1 <= d <= days_in_month y m /\ ymd2ord y m d = n.
Proof.
  intros Hn.
  assert (Hex : exists a b c e k,
             0 <= a /\ 0 <= b < 4 /\ 0 <= c < 25 /\ 0 <= e < 4 /\
             0 <= k < 365 + (if cycle_leap b c e then 1 else 0) /\
             n = 146097 * a + 36524 * b + 1461 * c + 365 * e + k + 1).
  { set (r := (n - 1) mod 146097).
    destruct (Z.eq_dec r 146096) as [E|NE].
    - exists ((n - 1) / 146097), 3, 24, 3, 365. cbn. subst r. repeat split; euclid.
    - set (r1 := r mod 36524).
      destruct (Z.eq_dec (r1 mod 1461) 1460) as [E1|NE1].
      + exists ((n - 1) / 146097), (r / 36524), (r1 / 1461), 3, 365.
        assert (Hc : r1 / 1461 <> 24) by (subst r1 r; euclid).
        unfold cycle_leap. change (3 =? 3) with true.
        replace (r1 / 1461 =? 24) with false by (symmetry; apply Z.eqb_neq; exact Hc).
        cbn. subst r1 r. repeat split; euclid.
      + exists ((n - 1) / 146097), (r / 36524), (r1 / 1461),
          (r1 mod 1461 / 365), ((r1 mod 1461) mod 365).
        assert (Hk : 0 <= (r1 mod 1461) mod 365 < 365) by (apply Z.mod_pos_bound; lia).
        destruct (cycle_leap _ _ _); subst r1 r; repeat split; euclid. }
  destruct Hex as (a & b & c & e & k & Ha & Hb & Hc & He & Hk & ->).
  destruct (year_of_cycle a b c e Ha Hb Hc He) as [Hdby Hleap].
  cbv zeta in Hdby, Hleap.
  rewrite (ord2ymd_cycle a b c e k Ha Hb Hc He Hk).
  destruct (day_of_year_month _ k Hk) as (m & d & Hm & Hd & Ek).
  rewrite Ek, (ord2md_ok _ m d Hm Hd). cbn [fst snd].
  exists (400 * a + 100 * b + 4 * c + e + 1), m, d.
  repeat split; try lia.
  - rewrite days_in_month_alt, Hleap. lia.
  - unfold ymd2ord, days_before_month. rewrite Hdby, Hleap. lia.
Qed.

(** ** The two range extractors run the validation chain *)

Lemma extract_times_chain E parameters input_timezone :
  extract_times E parameters input_timezone =
  validation_chain (validate_timestamp E input_timezone) parameters.
Proof.
  unfold extract_times, validation_chain, validate_timestamp, dict_getitem.
  destruct (parameters !! "start") as [s|]; [|reflexivity].
  destruct (parameters !! "end") as [e|]; [|reflexivity].
  cbn [try_except bind].
  destruct (py_float E s) as [ts|x]; [|reflexivity]. cbn [bind].
  destruct (utcfromtimestamp ts) as [ds|x]; [|reflexivity]. cbn [bind].
  destruct (localize E ds input_timezone) as [start|x]; [|reflexivity].
  cbn [try_except bind].
  destruct (py_float E e) as [te|x]; [|reflexivity]. cbn [bind].
  destruct (utcfromtimestamp te) as [de|x]; [|reflexivity]. cbn [bind].
  destruct (localize E de input_timezone) as [end_|x]; reflexivity.
Qed.

Lemma extract_dates_chain E parameters :
  extract_dates E parameters = validation_chain (extract_date E) parameters.
Proof.
  unfold extract_dates, validation_chain, dict_getitem.
  destruct (parameters !! "start") as [s|]; [|reflexivity].
  destruct (parameters !! "end") as [e|]; [|reflexivity].
  cbn [try_except bind].
  destruct (extract_date E s) as [start|x]; [|reflexivity].
  cbn [try_except bind].
  destruct (extract_date E e) as [end_|x]; reflexivity.
Qed.

Lemma raised_inj f g : raised f = raised g -> f = g.
Proof.
  destruct f as [[]|[]|], g as [[]|[]|]; cbn; intros H;
    first [ reflexivity | discriminate H ].
Qed.

(** A localized value is aware and keeps the reading it was given. *)
Lemma tz_localize_ok tz d r :
  tz_localize tz d = Ok r ->
  exists o, tz_offset tz d = Ok o /\ tzinfo d = None /\ r = with_tzinfo d (Some o).
Proof.
  unfold tz_localize. destruct (tzinfo d); [discriminate|].
  destruct (tz_offset tz d) as [o|x]; cbn; [|discriminate].
  intros [= <-]. eauto.
Qed.

Lemma localize_ok E d tz r :
  localize E d tz = Ok r ->
  exists o, tzinfo r = Some o /\ tzinfo d = None /\ r = with_tzinfo d (Some o).
Proof.
  unfold localize. intros H. apply tz_localize_ok in H as (o & _ & Hn & ->).
  exists o. auto.
Qed.

Lemma wall_micros_with_tzinfo d o : wall_micros (with_tzinfo d o) = wall_micros d.
Proof. reflexivity. Qed.

(** The outcome of the chain once both endpoints validate to aware values. *)
Lemma validation_chain_ordered validate parameters s e start end_ os oe :
  parameters !! "start" = Some s -> parameters !! "end" = Some e ->
  validate s = Ok start -> validate e = Ok end_ ->
  tzinfo start = Some os -> tzinfo end_ = Some oe ->
  validation_chain validate parameters =
  if instant end_ <? instant start then Raise (raised InvertedRange) else Ok (start, end_).
Proof.
  intros Hs He Vs Ve Ts Te.
  unfold validation_chain, datetime_lt, instant. rewrite Hs, He, Vs, Ve, Ts, Te.
  cbn [bind]. reflexivity.
Qed.

(** ** Readings and calendar fields *)

Lemma date_valid_spec y m d :
  date_valid y m d = true <->
  1 <= y <= 9999 /\ 1 <= m <= 12 /\ 1 <= d <= days_in_month y m.
Proof.
  unfold date_valid, MINYEAR, MAXYEAR.
  rewrite !andb_true_iff, !Z.leb_le. lia.
Qed.

Lemma time_valid_spec h mi s us :
  time_valid h mi s us = true <->
  0 <= h < 24 /\ 0 <= mi < 60 /\ 0 <= s < 60 /\ 0 <= us < 1000000.
Proof.
  unfold time_valid.
  rewrite !andb_true_iff, !Z.leb_le, !Z.ltb_lt. lia.
Qed.

Lemma datetime_valid_spec dt :
  datetime_valid dt = true <->
  (1 <= year dt <= 9999 /\ 1 <= month dt <= 12 /\
   1 <= day dt <= days_in_month (year dt) (month dt)) /\
  (0 <= hour dt < 24 /\ 0 <= minute dt < 60 /\ 0 <= second dt < 60 /\
   0 <= microsecond dt < 1000000).
Proof.
  unfold datetime_valid.
  rewrite andb_true_iff, date_valid_spec, time_valid_spec. reflexivity.
Qed.

Lemma days_before_month_bounds y m d :
  1 <= m <= 12 -> 1 <= d <= days_in_month y m ->
  1 <= days_before_month y m + d <= 365 + (if is_leap y then 1 else 0).
Proof.
  intros Hm Hd. rewrite days_in_month_alt in Hd. unfold days_before_month.
  assert (Hc : m = 1 \/ m = 2 \/ m = 3 \/ m = 4 \/ m = 5 \/ m = 6 \/
               m = 7 \/ m = 8 \/ m = 9 \/ m = 10 \/ m = 11 \/ m = 12) by lia.
  destruct Hc as [->|[->|[->|[->|[->|[->|[->|[->|[->|[->|[->| ->]]]]]]]]]]];
    destruct (is_leap y); cbn in Hd |- *; lia.
Qed.

(** The ordinal of a valid date is within [1, MAXORDINAL]. *)
Lemma ymd2ord_bounds y m d :
  1 <= y <= 9999 -> 1 <= m <= 12 -> 1 <= d <= days_in_month y m ->
  1 <= ymd2ord y m d <= MAXORDINAL.
Proof.
  intros Hy Hm Hd.
  pose proof (days_before_month_bounds y m d Hm Hd) as Hb.
  destruct (year_decomp y ltac:(lia)) as (a & b & c & e & Ha & Hbb & Hc & He & Ey).
  destruct (year_of_cycle a b c e Ha Hbb Hc He) as [Hdby Hleap].
  cbv zeta in Hdby, Hleap. rewrite <- Ey in Hdby, Hleap.
  unfold ymd2ord, MAXORDINAL. rewrite Hdby. rewrite Hleap in Hb.
  destruct (cycle_leap b c e) eqn:El.
  - apply cycle_leap_true in El. lia.
  - apply cycle_leap_false in El. lia.
Qed.

Lemma wall_micros_split dt :
  wall_micros dt =
  toordinal dt * US_PER_DAY
  + ((hour dt * 3600 + minute dt * 60 + second dt) * US_PER_SECOND + microsecond dt).
Proof. unfold wall_micros, US_PER_DAY, US_PER_SECOND. ring. Qed.

(** Reading a value back from its reading gives the value. *)
Lemma of_wall_micros_wall_micros dt tz :
  datetime_valid dt = true ->
  of_wall_micros (wall_micros dt) tz = Ok (with_tzinfo dt tz).
Proof.
  intros Hv. apply datetime_valid_spec in Hv as [(Hy & Hm & Hd) (Hh & Hmi & Hs & Hus)].
  pose proof (ymd2ord_bounds _ _ _ Hy Hm Hd) as Hord.
  unfold of_wall_micros. rewrite wall_micros_split.
  set (t := (hour dt * 3600 + minute dt * 60 + second dt) * US_PER_SECOND + microsecond dt).
  assert (Ht : 0 <= t < US_PER_DAY) by (subst t; unfold US_PER_DAY, US_PER_SECOND; lia).
  replace (toordinal dt * US_PER_DAY + t) with (t + toordinal dt * US_PER_DAY) by ring.
  rewrite Z.div_add, Z.mod_add by (unfold US_PER_DAY; lia).
  rewrite (Z.div_small t), (Z.mod_small t) by exact Ht. rewrite Z.add_0_l.
  unfold toordinal in *.
  replace ((1 <=? _) && (_ <=? MAXORDINAL)) with true
    by (symmetry; apply andb_true_iff; rewrite !Z.leb_le; lia).
  rewrite ord2ymd_ymd2ord by lia.
  subst t. unfold US_PER_SECOND.
  set (secs := hour dt * 3600 + minute dt * 60 + second dt).
  replace (secs * 1000000 + microsecond dt) with (microsecond dt + secs * 1000000) by ring.
  rewrite Z.div_add, Z.mod_add by lia.
  rewrite (Z.div_small (microsecond dt)), (Z.mod_small (microsecond dt)) by lia.
  rewrite Z.add_0_l.
  assert (E1 : secs / 3600 = hour dt) by (subst secs; euclid).
  assert (E2 : secs mod 3600 / 60 = minute dt) by (subst secs; euclid).
  assert (E3 : secs mod 60 = second dt) by (subst secs; euclid).
  rewrite E1, E2, E3. destruct dt; reflexivity.
Qed.

(** A value read from a reading is valid and has that reading. *)
Lemma wall_micros_of_wall_micros us tz dt :
  of_wall_micros us tz = Ok dt ->
  wall_micros dt = us /\ datetime_valid dt = true /\ tzinfo dt = tz.
Proof.
  unfold of_wall_micros.
  destruct ((1 <=? us / US_PER_DAY) && (us / US_PER_DAY <=? MAXORDINAL)) eqn:Hr;
    [|discriminate].
  apply andb_true_iff in Hr as [Hlo Hhi]. apply Z.leb_le in Hlo, Hhi.
  destruct (ymd2ord_ord2ymd (us / US_PER_DAY) Hlo) as (y & m & d & -> & Hy & Hm & Hd & Eo).
  intros [= <-].
  assert (Hy' : y <= 9999).
  { destruct (Z_le_gt_dec y 9999) as [|Hbig]; [assumption|]. exfalso.
    assert (Hdb : days_before_year 10000 <= days_before_year y)
      by (unfold days_before_year; euclid).
    change (days_before_year 10000) with 3652059 in Hdb.
    pose proof (days_before_month_bounds y m d Hm Hd).
    unfold ymd2ord, MAXORDINAL in *. lia. }
  split; [|split; [|reflexivity]].
  - rewrite wall_micros_split. unfold toordinal. cbn [year month day hour minute second microsecond].
    rewrite Eo. unfold US_PER_DAY, US_PER_SECOND in *. euclid.
  - apply datetime_valid_spec. cbn [year month day hour minute second microsecond].
    unfold US_PER_DAY, US_PER_SECOND. repeat split; try lia; euclid.
Qed.

(** ** Adding a timedelta moves the reading *)

Lemma timedelta_normal d s us :
  0 <= s < 86400 -> 0 <= us < 1000000 ->
  timedelta d s us = mktimedelta d s us.
Proof.
  intros Hs Hus. unfold timedelta, US_PER_DAY, US_PER_SECOND.
  f_equal; euclid.
Qed.

Lemma datetime_add_reading dt td :
  0 <= hour dt < 24 -> 0 <= minute dt < 60 -> 0 <= second dt < 60 ->
  0 <= microsecond dt < 1000000 ->
  datetime_add dt td =
  of_wall_micros
    (wall_micros dt
     + ((td_days td * 86400 + td_seconds td) * US_PER_SECOND + td_microseconds td))
    (tzinfo dt).
Proof.
  intros Hh Hmi Hs Hus.
  unfold datetime_add. rewrite timedelta_normal by lia.
  unfold timedelta_add, timedelta. cbn [td_days td_seconds td_microseconds].
  unfold of_wall_micros. rewrite wall_micros_split.
  match goal with |- context [ (?a + td_days td) * 86400 + ?b ] =>
    set (T := ((a + td_days td) * 86400 + b) * US_PER_SECOND
              + (microsecond dt + td_microseconds td)) end.
  replace (toordinal dt * US_PER_DAY +
           ((hour dt * 3600 + minute dt * 60 + second dt) * US_PER_SECOND + microsecond dt) +
           ((td_days td * 86400 + td_seconds td) * US_PER_SECOND + td_microseconds td))
    with T by (subst T; unfold US_PER_DAY, US_PER_SECOND; ring).
  replace (0 <? T / US_PER_DAY) with (1 <=? T / US_PER_DAY)
    by (destruct (Z.leb_spec 1 (T / US_PER_DAY)), (Z.ltb_spec 0 (T / US_PER_DAY));
        first [reflexivity | lia]).
  destruct ((1 <=? T / US_PER_DAY) && (T / US_PER_DAY <=? MAXORDINAL)); [|reflexivity].
  destruct (ord2ymd (T / US_PER_DAY)) as [[y m] d].
  replace ((T mod US_PER_DAY / US_PER_SECOND) mod 3600 mod 60)
    with ((T mod US_PER_DAY / US_PER_SECOND) mod 60); [reflexivity|].
  generalize (T mod US_PER_DAY / US_PER_SECOND). intros z. euclid.
Qed.

Lemma make_aware_ok value tz r :
  make_aware value tz = Ok r ->
  exists o, tz_offset_strict tz value = Ok o /\ tzinfo value = None /\
            r = with_tzinfo value (Some o).
Proof.
  unfold make_aware. destruct (tzinfo value); [discriminate|].
  destruct (tz_offset_strict tz value) as [o|x]; cbn; [|discriminate].
  intros [= <-]. eauto.
Qed.

Lemma timedelta_day_minus_second : timedelta 1 (-1) 0 = mktimedelta 0 86399 0.
Proof. reflexivity. Qed.

Lemma day_of_reading_after (ord t : Z) :
  0 <= t < US_PER_DAY ->
  (ord * US_PER_DAY + t + 86399 * US_PER_SECOND) / US_PER_DAY
  = ord + (if t <? US_PER_SECOND then 0 else 1).
Proof.
  intros Ht. unfold US_PER_DAY, US_PER_SECOND in *.
  destruct (Z.ltb_spec t 1000000).
  - symmetry. apply (Z.div_unique _ _ _ (t + 86399 * 1000000)); lia.
  - symmetry. apply (Z.div_unique _ _ _ (t + 86399 * 1000000 - 86400 * 1000000)); lia.
Qed.

Lemma time_of_day_bounds h mi s us :
  0 <= h < 24 -> 0 <= mi < 60 -> 0 <= s < 60 -> 0 <= us < 1000000 ->
  0 <= (h * 3600 + mi * 60 + s) * US_PER_SECOND + us < US_PER_DAY.
Proof. unfold US_PER_DAY, US_PER_SECOND. lia. Qed.

(** The day reached 86399 seconds after a reading is representable,
    unless the reading is on the last day and past its first second. *)
Lemma day_after_in_range dt :
  datetime_valid dt = true ->
  toordinal dt < MAXORDINAL \/ (hour dt = 0 /\ minute dt = 0 /\ second dt = 0) ->
  1 <= (wall_micros dt + 86399 * US_PER_SECOND) / US_PER_DAY <= MAXORDINAL.
Proof.
  intros Hv Hroom.
  pose proof Hv as Hv'.
  apply datetime_valid_spec in Hv' as [(Hy & Hm & Hd) (Hh & Hmi & Hs & Hus)].
  pose proof (ymd2ord_bounds _ _ _ Hy Hm Hd) as Hord. fold (toordinal dt) in Hord.
  pose proof (time_of_day_bounds _ _ _ _ Hh Hmi Hs Hus) as Ht.
  rewrite wall_micros_split, day_of_reading_after by exact Ht.
  destruct (Z.ltb_spec ((hour dt * 3600 + minute dt * 60 + second dt) * US_PER_SECOND
                        + microsecond dt) US_PER_SECOND) as [|Hge]; [lia|].
  destruct Hroom as [|(Hh0 & Hm0 & Hs0)]; [lia|].
  exfalso. rewrite Hh0, Hm0, Hs0 in Hge. unfold US_PER_SECOND in Hge. lia.
Qed.

Lemma of_wall_micros_in_range us tz :
  1 <= us / US_PER_DAY <= MAXORDINAL ->
  exists r, of_wall_micros us tz = Ok r.
Proof.
  intros [Hc1 Hc2]. unfold of_wall_micros.
  apply Z.leb_le in Hc1, Hc2. rewrite Hc1, Hc2. cbn [andb].
  destruct (ord2ymd _) as [[? ?] ?]. eauto.
Qed.

Lemma add_day_minus_second_reading dt :
  0 <= hour dt < 24 -> 0 <= minute dt < 60 -> 0 <= second dt < 60 ->
  0 <= microsecond dt < 1000000 ->
  datetime_add dt (timedelta 1 (-1) 0)
  = of_wall_micros (wall_micros dt + 86399 * US_PER_SECOND) (tzinfo dt).
Proof.
  intros Hh Hmi Hs Hus.
  rewrite datetime_add_reading by assumption.
  rewrite timedelta_day_minus_second.
  cbn [td_days td_seconds td_microseconds].
  rewrite Z.mul_0_l, Z.add_0_l, Z.add_0_r. reflexivity.
Qed.

(** One day less one second after a reading that is not on the last
    representable day. *)
Lemma add_day_minus_second dt :
  datetime_valid dt = true ->
  toordinal dt < MAXORDINAL \/ (hour dt = 0 /\ minute dt = 0 /\ second dt = 0) ->
  exists r, datetime_add dt (timedelta 1 (-1) 0) = Ok r /\
    wall_micros r = wall_micros dt + 86399 * US_PER_SECOND /\
    tzinfo r = tzinfo dt /\ datetime_valid r = true.
Proof.
  intros Hv Hroom.
  destruct (of_wall_micros_in_range _ (tzinfo dt) (day_after_in_range dt Hv Hroom))
    as (r & Hr).
  apply datetime_valid_spec in Hv as [_ (Hh & Hmi & Hs & Hus)].
  rewrite add_day_minus_second_reading by assumption.
  exists r. split; [exact Hr|].
  apply wall_micros_of_wall_micros in Hr as (Hw & Hvr & Htz). auto.
Qed.

(** After a reading at midnight it is 23:59:59 of the same day. *)
Lemma add_day_minus_second_midnight dt :
  datetime_valid dt = true ->
  hour dt = 0 -> minute dt = 0 -> second dt = 0 ->
  datetime_add dt (timedelta 1 (-1) 0) =
  Ok (mkdatetime (year dt) (month dt) (day dt) 23 59 59 (microsecond dt) (tzinfo dt)).
Proof.
  intros Hv Hh Hmi Hs.
  pose proof Hv as Hv'.
  apply datetime_valid_spec in Hv' as [Hdate (_ & _ & _ & Hus)].
  rewrite add_day_minus_second_reading by lia.
  set (r := mkdatetime (year dt) (month dt) (day dt) 23 59 59 (microsecond dt) None).
  replace (wall_micros dt + 86399 * US_PER_SECOND) with (wall_micros r).
  - rewrite of_wall_micros_wall_micros; [reflexivity|].
    apply datetime_valid_spec. subst r. cbn. lia.
  - subst r. unfold wall_micros, toordinal, US_PER_SECOND. cbn.
    rewrite Hh, Hmi, Hs. ring.
Qed.

(** ** C3: the free-text range *)

(** C3, as the code has it: for two texts that the parser reads and the
    process timezone can make aware, [parse_start_and_end_date] returns
    the aware start and the aware end moved forward by one day less one
    SECOND of wall-clock time (86399 s), with its offset unchanged; when
    the end was read at 00:00:00 this is 23:59:59 of the same day, with
    the microsecond as parsed. The pair is returned whatever the order
    of its two instants. *)
Theorem parse_start_and_end_date_end_of_day E start end_ ds de a b :
  dateutil_parse E start = Ok ds ->
  dateutil_parse E end_ = Ok de ->
  make_aware ds (current_timezone E) = Ok a ->
  make_aware de (current_timezone E) = Ok b ->
  datetime_valid de = true ->
  toordinal de < MAXORDINAL \/ (hour de = 0 /\ minute de = 0 /\ second de = 0) ->
  exists r,
    parse_start_and_end_date E start end_ = Ok (a, r) /\
    (exists oa, tzinfo a = Some oa) /\
    (exists ob, tzinfo b = Some ob /\ tzinfo r = Some ob) /\
    wall_micros r = wall_micros de + 86399 * US_PER_SECOND /\
    (hour de = 0 -> minute de = 0 -> second de = 0 ->
     r = mkdatetime (year de) (month de) (day de) 23 59 59 (microsecond de) (tzinfo b)).
Proof.
  intros Ps Pe Ma Mb Hv Hroom.
  destruct (make_aware_ok _ _ _ Ma) as (oa & _ & _ & Ea).
  destruct (make_aware_ok _ _ _ Mb) as (ob & _ & _ & Eb).
  assert (Hvb : datetime_valid b = true) by (rewrite Eb; exact Hv).
  assert (Hroomb : toordinal b < MAXORDINAL \/ (hour b = 0 /\ minute b = 0 /\ second b = 0))
    by (rewrite Eb; exact Hroom).
  destruct (add_day_minus_second b Hvb Hroomb) as (r & Hr & Hw & Ht & _).
  exists r. repeat split.
  - unfold parse_start_and_end_date. rewrite Ps, Pe. cbn [bind].
    rewrite Ma, Mb. cbn [bind]. rewrite Hr. reflexivity.
  - exists oa. rewrite Ea. reflexivity.
  - exists ob. rewrite Ht, Eb. auto.
  - rewrite Hw, Eb. reflexivity.
  - intros Hh Hmi Hs.
    rewrite add_day_minus_second_midnight in Hr by (rewrite ?Eb; assumption).
    injection Hr as <-. rewrite Eb. reflexivity.
Qed.

(** The theorem at the texts "2024-01-05" and "2024-01-01", in UTC: the
    end is 2024-01-01 23:59:59.000000 and precedes the start. *)
Lemma parse_start_and_end_date_end_of_day_witness :
  exists r,
    parse_start_and_end_date env_utc "2024-01-05" "2024-01-01"
    = Ok (mkdatetime 2024 1 5 0 0 0 0 (Some 0), r) /\
    r = mkdatetime 2024 1 1 23 59 59 0 (Some 0) /\
    instant r < instant (mkdatetime 2024 1 5 0 0 0 0 (Some 0)).
Proof.
  destruct (parse_start_and_end_date_end_of_day env_utc "2024-01-05" "2024-01-01"
              (mkdatetime 2024 1 5 0 0 0 0 None) (mkdatetime 2024 1 1 0 0 0 0 None)
              (mkdatetime 2024 1 5 0 0 0 0 (Some 0)) (mkdatetime 2024 1 1 0 0 0 0 (Some 0))
              eq_refl eq_refl eq_refl eq_refl eq_refl
              (or_intror (conj eq_refl (conj eq_refl eq_refl))))
    as (r & Hr & _ & _ & _ & Hmid).
  exists r. split; [exact Hr|].
  specialize (Hmid eq_refl eq_refl eq_refl). split; [exact Hmid|].
  rewrite Hmid. reflexivity.
Defined.

(** The end returned for the texts "2024-01-01" and "2024-01-05" has
    microsecond 0: it is 23:59:59.000000, not 23:59:59.999999 of the
    parsed day. *)
Lemma parse_start_and_end_date_not_last_microsecond :
  parse_start_and_end_date env_utc "2024-01-01" "2024-01-05"
  = Ok (mkdatetime 2024 1 1 0 0 0 0 (Some 0), mkdatetime 2024 1 5 23 59 59 0 (Some 0))
  /\ mkdatetime 2024 1 5 23 59 59 0 (Some 0)
     <> mkdatetime 2024 1 5 23 59 59 999999 (Some 0)
  /\ end_of_the_day env_utc (mkdatetime 2024 1 5 0 0 0 0 None) true
     = Ok (mkdatetime 2024 1 5 23 59 59 999999 (Some 0)).
Proof.
  split; [reflexivity|]. split; [|reflexivity]. intros H. discriminate H.
Qed.

(** ** C8: the end of the day *)

Lemma with_tzinfo_same dt : with_tzinfo dt (tzinfo dt) = dt.
Proof. destruct dt; reflexivity. Qed.

(** C8, as the code has it: for a value whose time of day is already
    23:59:59.999999, [end_of_the_day] returns the same calendar date and
    time of day -- as a naive value when [in_local_timezone] is false,
    and localized to the process timezone when it is true. The result is
    the value itself when the value is naive (flag false) or already
    carries the offset that the process timezone gives to its reading
    (flag true); and [end_of_the_day] maps each of its results to
    itself. *)
Theorem end_of_the_day_at_end_of_day E t o :
  hour t = 23 -> minute t = 59 -> second t = 59 -> microsecond t = 999999 ->
  tz_offset (current_timezone E) (with_tzinfo t None) = Ok o ->
  end_of_the_day E t false = Ok (with_tzinfo t None) /\
  end_of_the_day E t true = Ok (with_tzinfo t (Some o)) /\
  (tzinfo t = None -> end_of_the_day E t false = Ok t) /\
  (tzinfo t = Some o -> end_of_the_day E t true = Ok t) /\
  end_of_the_day E (with_tzinfo t None) false = Ok (with_tzinfo t None) /\
  end_of_the_day E (with_tzinfo t (Some o)) true = Ok (with_tzinfo t (Some o)).
Proof.
  intros Hh Hmi Hs Hus Ho.
  assert (Hrep : replace_time t 23 59 59 999999 = with_tzinfo t None).
  { unfold replace_time, with_tzinfo. rewrite Hh, Hmi, Hs, Hus. reflexivity. }
  assert (Hfalse : end_of_the_day E t false = Ok (with_tzinfo t None)).
  { unfold end_of_the_day. rewrite Hrep. reflexivity. }
  assert (Htrue : end_of_the_day E t true = Ok (with_tzinfo t (Some o))).
  { unfold end_of_the_day, localize, tz_localize. rewrite Hrep.
    cbn [tzinfo with_tzinfo]. rewrite Ho. reflexivity. }
  repeat split.
  - exact Hfalse.
  - exact Htrue.
  - intros Hn. rewrite Hfalse, <- Hn. f_equal. apply with_tzinfo_same.
  - intros Hn. rewrite Htrue, <- Hn. f_equal. apply with_tzinfo_same.
  - unfold end_of_the_day.
    change (replace_time (with_tzinfo t None) 23 59 59 999999)
      with (replace_time t 23 59 59 999999).
    rewrite Hrep. reflexivity.
  - unfold end_of_the_day.
    change (replace_time (with_tzinfo t (Some o)) 23 59 59 999999)
      with (replace_time t 23 59 59 999999).
    rewrite Hrep. unfold localize, tz_localize. cbn [tzinfo with_tzinfo].
    rewrite Ho. reflexivity.
Qed.

(** The theorem at 2024-01-01 23:59:59.999999 read in New York
    (offset -05:00), with New York as the process timezone. *)
Lemma end_of_the_day_at_end_of_day_witness :
  end_of_the_day env_new_york (mkdatetime 2024 1 1 23 59 59 999999 (Some EST)) true
  = Ok (mkdatetime 2024 1 1 23 59 59 999999 (Some EST)) /\
  end_of_the_day env_new_york (mkdatetime 2024 1 1 23 59 59 999999 (Some EST)) false
  = Ok (mkdatetime 2024 1 1 23 59 59 999999 None).
Proof.
  destruct (end_of_the_day_at_end_of_day env_new_york
              (mkdatetime 2024 1 1 23 59 59 999999 (Some EST)) EST
              eq_refl eq_refl eq_refl eq_refl eq_refl)
    as (Hfalse & _ & _ & Hsame & _).
  split; [exact (Hsame eq_refl) | exact Hfalse].
Defined.

(** An instant read in UTC at 23:59:59.999999, with New York as the
    process timezone: the result is the same reading in New York, an
    instant five hours later. *)
Lemma end_of_the_day_moves_utc_instant :
  end_of_the_day env_new_york (mkdatetime 2024 1 1 23 59 59 999999 (Some 0)) true
  = Ok (mkdatetime 2024 1 1 23 59 59 999999 (Some EST)) /\
  instant (mkdatetime 2024 1 1 23 59 59 999999 (Some EST))
  = instant (mkdatetime 2024 1 1 23 59 59 999999 (Some 0)) + 5 * 3600 * US_PER_SECOND /\
  mkdatetime 2024 1 1 23 59 59 999999 (Some EST)
  <> mkdatetime 2024 1 1 23 59 59 999999 (Some 0).
Proof.
  split; [reflexivity|]. split; [reflexivity|]. intros H. discriminate H.
Qed.

(** ** C5: the month of a date *)

Lemma days_before_year_succ y :
  1 <= y ->
  days_before_year (y + 1) = days_before_year y + 365 + (if is_leap y then 1 else 0).
Proof.
  intros Hy.
  destruct (year_decomp y Hy) as (a & b & c & e & Ha & Hb & Hc & He & ->).
  destruct (year_of_cycle a b c e Ha Hb Hc He) as [Hdby Hleap].
  cbv zeta in Hdby, Hleap. rewrite Hdby, Hleap.
  unfold days_before_year, cycle_leap.
  destruct (Z.eqb_spec e 3), (Z.eqb_spec c 24), (Z.eqb_spec b 3); cbn; euclid.
Qed.

(** The day after the last day of a month is the first of the next one. *)
Lemma last_day_of_month y m :
  1 <= y -> 1 <= m <= 12 ->
  ymd2ord y m (days_in_month y m) + 1 =
  ymd2ord (fst (next_month y m)) (snd (next_month y m)) 1.
Proof.
  intros Hy Hm.
  destruct (Z.eq_dec m 12) as [->|Hne].
  - change (next_month y 12) with (y + 1, 1). cbn [fst snd].
    unfold ymd2ord, days_before_month, days_in_month.
    rewrite days_before_year_succ by lia.
    generalize (days_before_year y). intros D.
    destruct (is_leap y), (is_leap (y + 1)); cbn; lia.
  - assert (En : next_month y m = (y, m + 1)).
    { unfold next_month. destruct (Z.ltb_spec 12 (m + 1)); [lia | reflexivity]. }
    rewrite En. cbn [fst snd].
    unfold ymd2ord, days_before_month. rewrite days_in_month_alt.
    generalize (days_before_year y). intros D.
    assert (Hc : m = 1 \/ m = 2 \/ m = 3 \/ m = 4 \/ m = 5 \/ m = 6 \/
                 m = 7 \/ m = 8 \/ m = 9 \/ m = 10 \/ m = 11) by lia.
    destruct Hc as [->|[->|[->|[->|[->|[->|[->|[->|[->|[->| ->]]]]]]]]]];
      destruct (is_leap y);
      match goal with
      | |- context [DAYS_BEFORE_MONTH (?a + 1)] =>
          let v := eval vm_compute in (a + 1) in change (a + 1) with v
      end; cbn; lia.
Qed.

(** C5: for a text that the parser reads as a date, the month timeframe
    runs from the first of the month at 00:00:00 to the last day of the
    month at 23:59:59, both localized to the process timezone; the last
    day is the exact length of the month (29 for February of a leap
    year, 28 otherwise), the day before the first of the next month. *)
Theorem get_month_timeframe_spans_month E text ds o1 o2 :
  text <> "" ->
  dateutil_parse E text = Ok ds ->
  1 <= year ds <= 9999 -> 1 <= month ds <= 12 ->
  let y := year ds in
  let m := month ds in
  let last := days_in_month y m in
  tz_offset (current_timezone E) (mkdatetime y m 1 0 0 0 0 None) = Ok o1 ->
  tz_offset (current_timezone E) (mkdatetime y m last 23 59 59 0 None) = Ok o2 ->
  get_month_timeframe E (Some text)
  = Ok (mkdatetime y m 1 0 0 0 0 (Some o1), mkdatetime y m last 23 59 59 0 (Some o2)) /\
  ymd2ord y m last + 1 = ymd2ord (fst (next_month y m)) (snd (next_month y m)) 1 /\
  last = (if (m =? 2) && is_leap y then 29 else DAYS_IN_MONTH m) /\
  is_leap y = (y mod 4 =? 0) && (negb (y mod 100 =? 0) || (y mod 400 =? 0)).
Proof.
  intros Hne Hp Hy Hm y m last Ho1 Ho2. subst y m last.
  pose proof (days_in_month_bounds (year ds) (month ds) Hm) as Hdim.
  repeat split.
  - unfold get_month_timeframe.
    destruct text as [|c text']; [contradiction|].
    rewrite Hp. cbn [bind].
    unfold datetime_new.
    replace (date_valid (year ds) (month ds) 1) with true
      by (symmetry; apply date_valid_spec; lia).
    change (time_valid 0 0 0 0) with true. cbn [andb bind].
    unfold localize, tz_localize. cbn [tzinfo]. rewrite Ho1. cbn [bind with_tzinfo].
    unfold monthrange.
    replace ((1 <=? month ds) && (month ds <=? 12)) with true
      by (symmetry; apply andb_true_iff; rewrite !Z.leb_le; lia).
    replace ((MINYEAR <=? year ds) && (year ds <=? MAXYEAR)) with true
      by (symmetry; apply andb_true_iff; unfold MINYEAR, MAXYEAR; rewrite !Z.leb_le; lia).
    cbn [bind snd]. rewrite <- days_in_month_alt.
    replace (date_valid (year ds) (month ds) (days_in_month (year ds) (month ds))) with true
      by (symmetry; apply date_valid_spec; lia).
    change (time_valid 23 59 59 0) with true.
    cbn [andb bind tzinfo]. rewrite Ho2. reflexivity.
  - apply last_day_of_month; lia.
Qed.

(** The theorem at the text "2024-02-10", in UTC: February 2024 has 29
    days. *)
Lemma get_month_timeframe_spans_month_witness :
  get_month_timeframe env_utc (Some "2024-02-10")
  = Ok (mkdatetime 2024 2 1 0 0 0 0 (Some 0), mkdatetime 2024 2 29 23 59 59 0 (Some 0)).
Proof.
  refine (proj1 (get_month_timeframe_spans_month env_utc "2024-02-10"
                   (mkdatetime 2024 2 10 0 0 0 0 None) 0 0 _ eq_refl _ _ eq_refl eq_refl)).
  - intros H. discriminate H.
  - cbn. lia.
  - cbn. lia.
Defined.

(** ** C9: the quiet integer conversion *)

(** C9: [quiet_int] never raises; it returns the integer when [int()]
    converts the value and the caller's default when [int()] raises,
    whatever the error. In particular quiet_int("abc", 5) is 5 and
    quiet_int("42", 5) is 42. *)
Theorem quiet_int_never_raises :
  (forall v default,
     quiet_int v default
     = Ok (match py_int v with Ok n => VInt n | Raise _ => default end)) /\
  quiet_int (VStr "abc") (VInt 5) = Ok (VInt 5) /\
  quiet_int (VStr "42") (VInt 5) = Ok (VInt 42).
Proof.
  split; [|split; reflexivity].
  intros v default. unfold quiet_int.
  destruct (py_int v) as [n|x]; reflexivity.
Qed.

(** ** Stripping whitespace *)

Lemma lstrip_with_head p l :
  match lstrip_with p l with [] => True | c :: _ => p c = false end.
Proof.
  induction l as [|c l IH]; cbn; [exact I|].
  destruct (p c) eqn:Hc; [exact IH | exact Hc].
Qed.

Lemma lstrip_with_fixed p c l : p c = false -> lstrip_with p (c :: l) = c :: l.
Proof. intros H. cbn. rewrite H. reflexivity. Qed.

Lemma lstrip_with_length p l : (length (lstrip_with p l) <= length l)%nat.
Proof.
  induction l as [|c l IH]; cbn; [lia|].
  destruct (p c); cbn; lia.
Qed.

Lemma lstrip_with_app_stop p l c :
  p c = false -> lstrip_with p (l ++ [c])%list = (lstrip_with p l ++ [c])%list.
Proof.
  intros Hc. induction l as [|a l IH]; cbn.
  - rewrite Hc. reflexivity.
  - destruct (p a); [exact IH | reflexivity].
Qed.

Lemma rstrip_with_cons_stop p c l :
  p c = false -> rstrip_with p (c :: l) = c :: rstrip_with p l.
Proof.
  intros Hc. unfold rstrip_with. cbn [rev].
  rewrite lstrip_with_app_stop by exact Hc.
  rewrite rev_app_distr. reflexivity.
Qed.

Lemma rstrip_with_length p l : (length (rstrip_with p l) <= length l)%nat.
Proof.
  unfold rstrip_with. rewrite length_rev.
  pose proof (lstrip_with_length p (rev l)) as H. rewrite length_rev in H. exact H.
Qed.

Lemma rstrip_with_last p l :
  match rev (rstrip_with p l) with [] => True | c :: _ => p c = false end.
Proof. unfold rstrip_with. rewrite rev_involutive. apply lstrip_with_head. Qed.

Lemma strip_list_trimmed l : trimmed (strip_list l).
Proof.
  unfold trimmed, strip_list. split; [|apply rstrip_with_last].
  pose proof (lstrip_with_head is_space l) as Hh.
  destruct (lstrip_with is_space l) as [|c m]; [exact I|].
  rewrite rstrip_with_cons_stop by exact Hh. exact Hh.
Qed.

Lemma strip_list_of_trimmed l : trimmed l -> strip_list l = l.
Proof.
  intros [Hh Hl]. unfold strip_list.
  assert (E1 : lstrip_with is_space l = l).
  { destruct l as [|c m]; [reflexivity | apply lstrip_with_fixed, Hh]. }
  rewrite E1. unfold rstrip_with.
  destruct (rev l) as [|c m] eqn:Er.
  - apply (f_equal (@rev ascii)) in Er. rewrite rev_involutive in Er. subst l. reflexivity.
  - rewrite lstrip_with_fixed by exact Hl. rewrite <- Er. apply rev_involutive.
Qed.

Lemma str_strip_list s :
  list_ascii_of_string (str_strip s) = strip_list (list_ascii_of_string s).
Proof. unfold str_strip. apply list_ascii_of_string_of_list_ascii. Qed.

Lemma str_len_list s : str_len s = Z.of_nat (length (list_ascii_of_string s)).
Proof.
  unfold str_len. f_equal. induction s as [|c s IH]; cbn; [reflexivity | f_equal; exact IH].
Qed.

Lemma str_strip_idempotent s : str_strip (str_strip s) = str_strip s.
Proof.
  unfold str_strip at 1. fold (strip_list (list_ascii_of_string (str_strip s))).
  rewrite str_strip_list, strip_list_of_trimmed by apply strip_list_trimmed.
  rewrite <- str_strip_list. apply string_of_list_ascii_of_string.
Qed.






(** ** C10: the quiet string parameter *)


(** A string of five characters passes a maximum length of three when
    errors are quiet, and is refused when they are not. *)
Example parse_parameter_string_long :
  parse_parameter_string (<["q" := VStr " hello "]> ∅) "q" 3 false (VStr "")
  = Ok (VStr "hello") /\
  parse_parameter_string (<["q" := VStr " hello "]> ∅) "q" 3 true (VStr "")
  = Raise (Exception
      "The parameter named q is 5 characters long, exceeding the maximum length of 3 characters.") /\
  parse_parameter_string (<["q" := VStr " hello "]> ∅) "p" 3 false (VStr "none")
  = Ok (VStr "none").
Proof. repeat split; vm_compute; reflexivity. Qed.

(** ** C6: the ordinal suffix of the day *)

Lemma day_cases (d : Z) :
  1 <= d <= 31 ->
  d = 1 \/ d = 2 \/ d = 3 \/ d = 4 \/ d = 5 \/ d = 6 \/ d = 7 \/ d = 8 \/ d = 9 \/
  d = 10 \/ d = 11 \/ d = 12 \/ d = 13 \/ d = 14 \/ d = 15 \/ d = 16 \/ d = 17 \/
  d = 18 \/ d = 19 \/ d = 20 \/ d = 21 \/ d = 22 \/ d = 23 \/ d = 24 \/ d = 25 \/
  d = 26 \/ d = 27 \/ d = 28 \/ d = 29 \/ d = 30 \/ d = 31.
Proof. lia. Qed.

Ltac each_day H :=
  repeat (destruct H as [H|H]; [subst | ]); [ .. | subst ].

Lemma day_suffix_english d :
  1 <= d <= 31 -> day_suffix d = Ok (english_ordinal_suffix d).
Proof.
  intros H. apply day_cases in H. each_day H; reflexivity.
Qed.

(** [int(local_time.strftime("%d"))] is the day of the month. *)
Lemma int_of_strftime_d dt :
  1 <= day dt <= 31 -> int_of_string (strftime_d dt) = Ok (day dt).
Proof.
  unfold strftime_d. generalize (day dt). intros d H.
  apply day_cases in H. each_day H; reflexivity.
Qed.

(** C6: the formatter renders the day of the month followed by its
    English ordinal suffix: "th" for the days 4 to 20 and 24 to 30, and
    otherwise "st", "nd" or "rd" for a day ending in 1, 2 or 3 (that is
    1, 21, 31; 2, 22; 3, 23). *)
Theorem format_datetime_ordinal_suffix E universal_time local_time :
  astimezone universal_time (current_timezone E) = Ok local_time ->
  let d := day local_time in
  1 <= d <= 31 /\
  format_datetime E universal_time
  = Ok (strftime_A_B local_time +:+ str_of_int d +:+ english_ordinal_suffix d
        +:+ strftime_Y local_time +:+ str_lstrip_zero (strftime_I_M_p local_time)) /\
  day_suffix d = Ok (english_ordinal_suffix d) /\
  english_ordinal_suffix d
  = (if ((4 <=? d) && (d <=? 20)) || ((24 <=? d) && (d <=? 30)) then "th"
     else if d mod 10 =? 1 then "st"
     else if d mod 10 =? 2 then "nd"
     else "rd").
Proof.
  intros Ha d.
  assert (Hd : 1 <= d <= 31).
  { unfold astimezone in Ha. destruct (tzinfo universal_time) as [o|]; [|discriminate].
    apply wall_micros_of_wall_micros in Ha as (_ & Hv & _).
    apply datetime_valid_spec in Hv as [(_ & Hm & Hday) _].
    pose proof (days_in_month_bounds (year local_time) _ Hm). subst d. lia. }
  split; [exact Hd|]. split; [|split].
  - unfold format_datetime. rewrite Ha. cbn [bind].
    rewrite int_of_strftime_d by exact Hd. cbn [bind]. fold d.
    rewrite day_suffix_english by exact Hd. reflexivity.
  - apply day_suffix_english, Hd.
  - clear Ha. generalize dependent d. intros d H.
    apply day_cases in H. each_day H; reflexivity.
Qed.

(** The theorem at the 1st, 11th, 21st, 24th and 31st of January 2024. *)
Lemma format_datetime_ordinal_suffix_witness :
  format_datetime env_utc (mkdatetime 2024 1 1 9 5 0 0 (Some 0))
  = Ok "Monday, January 1st, 2024 @ 9:05 AM" /\
  format_datetime env_utc (mkdatetime 2024 1 11 9 5 0 0 (Some 0))
  = Ok "Thursday, January 11th, 2024 @ 9:05 AM" /\
  format_datetime env_utc (mkdatetime 2024 1 21 9 5 0 0 (Some 0))
  = Ok "Sunday, January 21st, 2024 @ 9:05 AM" /\
  format_datetime env_utc (mkdatetime 2024 1 24 9 5 0 0 (Some 0))
  = Ok "Wednesday, January 24th, 2024 @ 9:05 AM" /\
  format_datetime env_utc (mkdatetime 2024 1 31 21 5 0 0 (Some 0))
  = Ok "Wednesday, January 31st, 2024 @ 9:05 PM".
Proof.
  pose proof (fun t => format_datetime_ordinal_suffix env_utc t) as F.
  refine (conj _ (conj _ (conj _ (conj _ _)))).
  - exact (proj1 (proj2 (F (mkdatetime 2024 1 1 9 5 0 0 (Some 0)) _ eq_refl))).
  - exact (proj1 (proj2 (F (mkdatetime 2024 1 11 9 5 0 0 (Some 0)) _ eq_refl))).
  - exact (proj1 (proj2 (F (mkdatetime 2024 1 21 9 5 0 0 (Some 0)) _ eq_refl))).
  - exact (proj1 (proj2 (F (mkdatetime 2024 1 24 9 5 0 0 (Some 0)) _ eq_refl))).
  - exact (proj1 (proj2 (F (mkdatetime 2024 1 31 21 5 0 0 (Some 0)) _ eq_refl))).
Defined.

(** ** Rounding a timestamp to the microsecond keeps the order *)

Lemma round_half_even_spec q :
  rounds_to (Qnum q) (Z.pos (Qden q)) (round_half_even q).
Proof.
  unfold rounds_to, round_half_even.
  set (n := Qnum q). set (d := Z.pos (Qden q)).
  assert (Hd : 0 < d) by (subst d; lia).
  exists (n / d), (n mod d).
  pose proof (Z.div_mod n d ltac:(lia)) as Hdm.
  pose proof (Z.mod_pos_bound n d Hd) as Hr.
  split; [exact Hdm|]. split; [exact Hr|].
  destruct (Z.ltb_spec (2 * (n mod d)) d); [left; lia|].
  destruct (Z.ltb_spec d (2 * (n mod d))); [right; left; lia|].
  destruct (Z.even (n / d)) eqn:Ev; [right; right; left | right; right; right];
    repeat split; lia.
Qed.

Lemma rounds_to_monotone n1 d1 R1 n2 d2 R2 :
  0 < d1 -> 0 < d2 -> n1 * d2 <= n2 * d1 ->
  rounds_to n1 d1 R1 -> rounds_to n2 d2 R2 -> R1 <= R2.
Proof.
  intros Hd1 Hd2 Hle (f1 & r1 & E1 & Hr1 & C1) (f2 & r2 & E2 & Hr2 & C2).
  destruct (Z_le_gt_dec R1 R2) as [|Hgt]; [assumption|exfalso].
  (* q1 >= R1 - 1/2 and q2 <= R2 + 1/2 *)
  assert (L1 : 2 * d1 * R1 - d1 <= 2 * n1) by (destruct C1 as [?|[?|[?|?]]]; nia).
  assert (U2 : 2 * n2 <= 2 * d2 * R2 + d2) by (destruct C2 as [?|[?|[?|?]]]; nia).
  assert (H1 : (2 * R2 + 1) * (d1 * d2) <= 2 * n1 * d2).
  { assert (2 * d1 * (R2 + 1) - d1 <= 2 * n1) by nia.
    assert ((2 * d1 * (R2 + 1) - d1) * d2 <= 2 * n1 * d2) by nia. nia. }
  assert (H2 : 2 * n2 * d1 <= (2 * R2 + 1) * (d1 * d2)).
  { assert (2 * n2 * d1 <= (2 * d2 * R2 + d2) * d1) by nia. nia. }
  assert (Eq1 : 2 * n1 * d2 = (2 * R2 + 1) * (d1 * d2)) by nia.
  assert (Eq2 : 2 * n2 * d1 = (2 * R2 + 1) * (d1 * d2)) by nia.
  assert (T1 : 2 * n1 = (2 * R2 + 1) * d1) by nia.
  assert (T2 : 2 * n2 = (2 * R2 + 1) * d2) by nia.
  assert (ER : R1 = R2 + 1) by nia.
  (* both are ties between R2 and R2 + 1 *)
  assert (F1 : f1 = R2 /\ 2 * r1 = d1).
  { assert (2 * r1 - d1 = 2 * d1 * (R2 - f1)) by nia.
    assert (R2 - f1 = 0) by nia. lia. }
  assert (F2 : f2 = R2 /\ 2 * r2 = d2).
  { assert (2 * r2 - d2 = 2 * d2 * (R2 - f2)) by nia.
    assert (R2 - f2 = 0) by nia. lia. }
  destruct F1 as [-> F1], F2 as [-> F2].
  destruct C1 as [?|[?|[(_ & Ev1 & ?)|(_ & Ev1 & ?)]]]; try lia.
  destruct C2 as [?|[?|[(_ & Ev2 & ?)|(_ & Ev2 & ?)]]]; try lia.
  congruence.
Qed.

Lemma round_half_even_monotone q1 q2 :
  Qle q1 q2 -> round_half_even q1 <= round_half_even q2.
Proof.
  intros Hle. unfold Qle in Hle.
  eapply (rounds_to_monotone (Qnum q1) (Z.pos (Qden q1)) _ (Qnum q2) (Z.pos (Qden q2)));
    [lia | lia | exact Hle | apply round_half_even_spec | apply round_half_even_spec].
Qed.

(** ** The float product, rounded to binary64 *)

Lemma pow2_pos e : (0 < 2 ^ e)%Q.
Proof. apply Qpower_0_lt. reflexivity. Qed.

Lemma pow2_add a b : (2 ^ (a + b) == 2 ^ a * 2 ^ b)%Q.
Proof. apply Qpower_plus. discriminate. Qed.

Lemma pow2_inject a : 0 <= a -> (inject_Z (2 ^ a) == 2 ^ a)%Q.
Proof. intros H. apply (Zpower_Qpower 2 a H). Qed.

Lemma Q_as_fraction q : (q * inject_Z (Z.pos (Qden q)) == inject_Z (Qnum q))%Q.
Proof. destruct q as [n d]. unfold Qeq, Qmult, inject_Z. cbn. lia. Qed.

Lemma binade_spec q :
  (0 < q)%Q -> (2 ^ binade q <= q)%Q /\ (q < 2 ^ (binade q + 1))%Q.
Proof.
  intros Hq.
  assert (Hn : 0 < Qnum q) by (unfold Qlt in Hq; cbn in Hq; lia).
  destruct (Z.log2_spec (Qnum q) Hn) as [Ha1 Ha2].
  destruct (Z.log2_spec (Z.pos (Qden q)) ltac:(lia)) as [Hb1 Hb2].
  pose proof (Z.log2_nonneg (Qnum q)) as Ha0.
  pose proof (Z.log2_nonneg (Z.pos (Qden q))) as Hb0.
  unfold binade.
  set (a := Z.log2 (Qnum q)) in *. set (b := Z.log2 (Z.pos (Qden q))) in *.
  pose proof (Q_as_fraction q) as Hf.
  assert (Qa1 : (2 ^ a <= inject_Z (Qnum q))%Q)
    by (rewrite <- pow2_inject by lia; rewrite <- Zle_Qle; exact Ha1).
  assert (Qa2 : (inject_Z (Qnum q) < 2 ^ (a + 1))%Q)
    by (rewrite <- pow2_inject by lia; rewrite <- Zlt_Qlt; exact Ha2).
  assert (Qb1 : (2 ^ b <= inject_Z (Z.pos (Qden q)))%Q)
    by (rewrite <- pow2_inject by lia; rewrite <- Zle_Qle; exact Hb1).
  assert (Qb2 : (inject_Z (Z.pos (Qden q)) < 2 ^ (b + 1))%Q)
    by (rewrite <- pow2_inject by lia; rewrite <- Zlt_Qlt; exact Hb2).
  assert (C2 : (q < 2 ^ (a - b + 1))%Q).
  { apply (Qmult_lt_r _ _ (2 ^ b)%Q); [apply pow2_pos|].
    rewrite <- pow2_add. replace (a - b + 1 + b) with (a + 1) by lia.
    pose proof (pow2_pos b). nra. }
  assert (C1 : (2 ^ (a - b - 1) <= q)%Q).
  { apply (Qmult_le_r _ _ (2 ^ (b + 1))%Q); [apply pow2_pos|].
    rewrite <- pow2_add. replace (a - b - 1 + (b + 1)) with a by lia.
    nra. }
  destruct (Qle_bool (2 ^ (a - b)) q) eqn:Hc.
  - apply Qle_bool_iff in Hc. split; assumption.
  - replace (a - b - 1 + 1) with (a - b) by lia. split; [exact C1|].
    apply Qnot_le_lt. intros H. apply Qle_bool_iff in H. congruence.
Qed.

Lemma round_half_even_inject n : round_half_even (inject_Z n) = n.
Proof.
  unfold round_half_even, inject_Z. cbn [Qnum Qden].
  rewrite Z.div_1_r, Z.mod_1_r. reflexivity.
Qed.

Lemma round_half_even_proper q1 q2 :
  Qeq q1 q2 -> round_half_even q1 = round_half_even q2.
Proof.
  intros H. apply Z.le_antisymm; apply round_half_even_monotone; rewrite H; apply Qle_refl.
Qed.

(** The exponent of the last bit of the significand. *)
Lemma double_exponent_spec q :
  (0 < q)%Q ->
  let e := Z.max (binade q - 52) (-1074) in
  (q < 2 ^ (e + 53))%Q /\ (-1074 < e -> (2 ^ (e + 52) <= q)%Q).
Proof.
  intros Hq e. destruct (binade_spec q Hq) as [Hlo Hhi]. split.
  - eapply Qlt_le_trans; [exact Hhi|].
    apply Qpower_le_compat_l; [subst e; lia | discriminate].
  - intros He. replace (e + 52) with (binade q) by (subst e; lia). exact Hlo.
Qed.

Lemma double_round_pos_bounds q :
  (0 < q)%Q ->
  let e := Z.max (binade q - 52) (-1074) in
  (0 <= double_round_pos q)%Q /\
  (double_round_pos q <= 2 ^ (e + 53))%Q /\
  (-1074 < e -> (2 ^ (e + 52) <= double_round_pos q)%Q).
Proof.
  intros Hq e. destruct (double_exponent_spec q Hq) as [Hhi Hlo]. fold e in Hhi, Hlo.
  unfold double_round_pos. fold e.
  pose proof (pow2_pos e) as Pe. pose proof (pow2_pos (- e)) as Pne.
  assert (Hc : (2 ^ (- e) * 2 ^ e == 1)%Q)
    by (rewrite <- pow2_add; replace (- e + e) with 0 by lia; reflexivity).
  set (m := round_half_even (q * 2 ^ (- e))).
  split; [|split].
  - assert (0 <= m).
    { change 0 with (round_half_even 0). apply round_half_even_monotone. nra. }
    assert (0 <= inject_Z m)%Q by (change 0%Q with (inject_Z 0); rewrite <- Zle_Qle; lia).
    nra.
  - assert (Hm : m <= 2 ^ 53).
    { rewrite <- (round_half_even_inject (2 ^ 53)). apply round_half_even_monotone.
      rewrite pow2_inject by lia.
      apply (Qmult_le_r _ _ (2 ^ e)%Q); [exact Pe|].
      rewrite <- pow2_add. replace (53 + e) with (e + 53) by lia.
      rewrite <- Qmult_assoc, Hc. nra. }
    rewrite Zle_Qle in Hm. rewrite pow2_inject in Hm by lia.
    rewrite Z.add_comm, pow2_add. nra.
  - intros He. specialize (Hlo He).
    assert (Hm : 2 ^ 52 <= m).
    { rewrite <- (round_half_even_inject (2 ^ 52)). apply round_half_even_monotone.
      rewrite pow2_inject by lia.
      apply (Qmult_le_r _ _ (2 ^ e)%Q); [exact Pe|].
      rewrite <- pow2_add. replace (52 + e) with (e + 52) by lia.
      rewrite <- Qmult_assoc, Hc. nra. }
    rewrite Zle_Qle in Hm. rewrite pow2_inject in Hm by lia.
    rewrite Z.add_comm, pow2_add. nra.
Qed.

Lemma double_round_pos_monotone x y :
  (0 < x)%Q -> (x <= y)%Q -> (double_round_pos x <= double_round_pos y)%Q.
Proof.
  intros Hx Hxy. assert (Hy : (0 < y)%Q) by lra.
  destruct (double_exponent_spec x Hx) as [Xhi Xlo].
  destruct (double_exponent_spec y Hy) as [Yhi Ylo].
  destruct (double_round_pos_bounds x Hx) as (_ & Xup & _).
  destruct (double_round_pos_bounds y Hy) as (_ & _ & Ydn).
  unfold double_round_pos.
  set (ex := Z.max (binade x - 52) (-1074)) in *.
  set (ey := Z.max (binade y - 52) (-1074)) in *.
  destruct (Z.lt_trichotomy ex ey) as [Hlt|[Heq|Hgt]].
  - fold (double_round_pos x) in *. fold (double_round_pos y) in *.
    unfold double_round_pos in Xup, Ydn. fold ex in Xup. fold ey in Ydn.
    eapply Qle_trans; [exact Xup|]. eapply Qle_trans; [|apply Ydn; subst ex; lia].
    apply Qpower_le_compat_l; [lia | discriminate].
  - rewrite Heq. pose proof (pow2_pos ey). pose proof (pow2_pos (- ey)).
    assert (H1 : round_half_even (x * 2 ^ (- ey)) <= round_half_even (y * 2 ^ (- ey)))
      by (apply round_half_even_monotone; nra).
    rewrite Zle_Qle in H1. nra.
  - exfalso. assert (He : -1074 < ex) by (subst ey; lia). specialize (Xlo He).
    assert (Hp : (2 ^ (ex + 52) < 2 ^ (ey + 53))%Q) by lra.
    apply Qpower_lt_compat_l_inv in Hp; [lia | reflexivity].
Qed.

Lemma double_round_monotone x y :
  (x <= y)%Q -> (double_round x <= double_round y)%Q.
Proof.
  intros Hxy. unfold double_round.
  destruct x as [nx dx], y as [ny dy]. cbn [Qnum].
  destruct nx as [|px|px], ny as [|py|py];
    try (exfalso; unfold Qle in Hxy; cbn in Hxy; lia).
  - apply Qle_refl.
  - apply double_round_pos_bounds. reflexivity.
  - apply double_round_pos_monotone; [reflexivity | exact Hxy].
  - assert (H : (0 < - (Z.neg px # dx))%Q) by reflexivity.
    destruct (double_round_pos_bounds _ H) as (H0 & _). lra.
  - assert (H : (0 < - (Z.neg px # dx))%Q) by reflexivity.
    assert (H' : (0 < Z.pos py # dy)%Q) by reflexivity.
    destruct (double_round_pos_bounds _ H) as (H0 & _).
    destruct (double_round_pos_bounds _ H') as (H0' & _). lra.
  - assert (H : (0 < - (Z.neg py # dy))%Q) by reflexivity.
    assert (Hle : (- (Z.neg py # dy) <= - (Z.neg px # dx))%Q) by lra.
    pose proof (double_round_pos_monotone _ _ H Hle). lra.
Qed.

(** [modf]: the integral and the fractional part have the sign of the
    value. *)
Lemma modf_spec t :
  let i := Z.quot (Qnum t) (Z.pos (Qden t)) in
  let f := Qmake (Z.rem (Qnum t) (Z.pos (Qden t))) (Qden t) in
  (t == inject_Z i + f)%Q /\ (-1 < f)%Q /\ (f < 1)%Q /\
  (0 <= Qnum t -> (0 <= f)%Q /\ 0 <= i) /\
  (Qnum t <= 0 -> (f <= 0)%Q /\ i <= 0).
Proof.
  destruct t as [n d]. intros i f. subst i f. cbn [Qnum Qden].
  unfold Qeq, Qlt, Qle, Qplus, inject_Z. cbn [Qnum Qden].
  pose proof (Z.quot_rem' n (Z.pos d)) as E.
  assert (B : Z.abs (Z.rem n (Z.pos d)) < Z.pos d)
    by (pose proof (Z.rem_bound_abs n (Z.pos d) ltac:(lia)); lia).
  assert (S1 : 0 <= n -> 0 <= Z.rem n (Z.pos d) /\ 0 <= Z.quot n (Z.pos d)).
  { intros H. split; [apply Z.rem_nonneg; lia | apply Z.quot_pos; lia]. }
  assert (S2 : n <= 0 -> Z.rem n (Z.pos d) <= 0 /\ Z.quot n (Z.pos d) <= 0).
  { intros H. split; [apply Z.rem_nonpos; lia|].
    rewrite <- (Z.opp_involutive n), Z.quot_opp_l by lia.
    pose proof (Z.quot_pos (- n) (Z.pos d) ltac:(lia) ltac:(lia)). lia. }
  set (r := Z.rem n (Z.pos d)) in *. set (q := Z.quot n (Z.pos d)) in *.
  clearbody r q.
  repeat split; try nia; try (apply S1 || apply S2; lia).
Qed.

Lemma timestamp_us_monotone f1 f2 :
  (f1 <= f2)%Q ->
  round_half_even (double_round (f1 * inject_Z US_PER_SECOND))
  <= round_half_even (double_round (f2 * inject_Z US_PER_SECOND)).
Proof.
  intros H. apply round_half_even_monotone, double_round_monotone.
  apply Qmult_le_compat_r; [exact H | discriminate].
Qed.

Lemma timestamp_us_bounds f :
  (-1 < f)%Q -> (f < 1)%Q ->
  let us := round_half_even (double_round (f * inject_Z US_PER_SECOND)) in
  - US_PER_SECOND <= us <= US_PER_SECOND /\
  ((0 <= f)%Q -> 0 <= us) /\ ((f <= 0)%Q -> us <= 0).
Proof.
  intros Hlo Hhi us.
  assert (E1 : round_half_even (double_round (1 * inject_Z US_PER_SECOND)) = US_PER_SECOND)
    by (vm_compute; reflexivity).
  assert (E2 : round_half_even (double_round (-1 * inject_Z US_PER_SECOND)) = - US_PER_SECOND)
    by (vm_compute; reflexivity).
  assert (E0 : round_half_even (double_round (0 * inject_Z US_PER_SECOND)) = 0)
    by (vm_compute; reflexivity).
  assert (U : us <= US_PER_SECOND)
    by (rewrite <- E1; apply timestamp_us_monotone; lra).
  assert (L : - US_PER_SECOND <= us)
    by (rewrite <- E2; apply timestamp_us_monotone; lra).
  split; [lia|]. split; intros H.
  - rewrite <- E0. apply timestamp_us_monotone. exact H.
  - rewrite <- E0. apply timestamp_us_monotone. exact H.
Qed.

Lemma timestamp_micros_monotone t1 t2 :
  Qle t1 t2 -> timestamp_micros t1 <= timestamp_micros t2.
Proof.
  intros Hle. unfold timestamp_micros.
  destruct (modf_spec t1) as (E1 & L1 & H1 & P1 & N1).
  destruct (modf_spec t2) as (E2 & L2 & H2 & P2 & N2).
  set (i1 := Z.quot (Qnum t1) (Z.pos (Qden t1))) in *.
  set (i2 := Z.quot (Qnum t2) (Z.pos (Qden t2))) in *.
  set (f1 := Qmake (Z.rem (Qnum t1) (Z.pos (Qden t1))) (Qden t1)) in *.
  set (f2 := Qmake (Z.rem (Qnum t2) (Z.pos (Qden t2))) (Qden t2)) in *.
  destruct (timestamp_us_bounds f1 L1 H1) as (B1 & Z1 & M1).
  destruct (timestamp_us_bounds f2 L2 H2) as (B2 & Z2 & M2).
  pose proof (timestamp_us_monotone f1 f2) as Hmono.
  set (u1 := round_half_even (double_round (f1 * inject_Z US_PER_SECOND))) in *.
  set (u2 := round_half_even (double_round (f2 * inject_Z US_PER_SECOND))) in *.
  assert (S1 : 0 <= Qnum t1 \/ Qnum t1 <= 0) by lia.
  assert (S2 : 0 <= Qnum t2 \/ Qnum t2 <= 0) by lia.
  unfold US_PER_SECOND in *.
  destruct (Z.lt_trichotomy i1 i2) as [Hlt|[Heq|Hgt]].
  - destruct S1 as [S1|S1], S2 as [S2|S2];
      try (destruct (P1 S1) as [F1 I1]); try (destruct (N1 S1) as [F1 I1]);
      try (destruct (P2 S2) as [F2 I2]); try (destruct (N2 S2) as [F2 I2]);
      try specialize (Z1 F1); try specialize (M1 F1);
      try specialize (Z2 F2); try specialize (M2 F2); lia.
  - assert (F : (f1 <= f2)%Q) by (rewrite Heq in E1; lra).
    specialize (Hmono F). lia.
  - exfalso.
    assert (Hq : (inject_Z i2 + 1 <= inject_Z i1)%Q).
    { change 1%Q with (inject_Z 1). rewrite <- inject_Z_plus, <- Zle_Qle. lia. }
    destruct S1 as [S1|S1], S2 as [S2|S2];
      try (destruct (P1 S1) as [F1 I1]); try (destruct (N1 S1) as [F1 I1]);
      try (destruct (P2 S2) as [F2 I2]); try (destruct (N2 S2) as [F2 I2]);
      try lia; lra.
Qed.






(** The reading of [utcfromtimestamp(t)] is the microsecond count of
    [t], counted from the epoch; later timestamps give later (or equal)
    readings. *)
Lemma utcfromtimestamp_reading t d :
  utcfromtimestamp t = Ok d ->
  wall_micros d = timestamp_micros t + EPOCH_ORDINAL * US_PER_DAY /\
  tzinfo d = None /\ datetime_valid d = true.
Proof.
  unfold utcfromtimestamp.
  destruct (of_wall_micros _ None) as [r|x] eqn:Hr; cbn; [|discriminate].
  intros [= <-]. apply wall_micros_of_wall_micros in Hr as (Hw & Hv & Ht). auto.
Qed.

Lemma utcfromtimestamp_monotone t1 t2 d1 d2 :
  utcfromtimestamp t1 = Ok d1 -> utcfromtimestamp t2 = Ok d2 ->
  Qle t1 t2 -> wall_micros d1 <= wall_micros d2.
Proof.
  intros H1 H2 Hle.
  apply utcfromtimestamp_reading in H1 as (-> & _ & _).
  apply utcfromtimestamp_reading in H2 as (-> & _ & _).
  apply Z.add_le_mono_r, timestamp_micros_monotone. exact Hle.
Qed.

(** ** C2: the failures of the range extractors *)

(** C2: both range extractors fail with [MissingParameter] for the key
    "start" when it is absent, and for the key "end" when "start" is
    there and "end" is absent (whatever "start" holds); an endpoint
    that is present but does not validate (not parseable, or not
    localizable) fails with [InvalidParameter] for its key, "start"
    before "end". The exceptions of distinct failure kinds are
    distinct. *)
Theorem range_extraction_failures E (parameters : gmap string pyvalue)
    (input_timezone : option timezone) :
  (parameters !! "start" = None ->
   extract_times E parameters input_timezone
   = Raise (raised (MissingParameter EndpointStart)) /\
   extract_dates E parameters = Raise (raised (MissingParameter EndpointStart))) /\
  (forall s, parameters !! "start" = Some s -> parameters !! "end" = None ->
   extract_times E parameters input_timezone
   = Raise (raised (MissingParameter EndpointEnd)) /\
   extract_dates E parameters = Raise (raised (MissingParameter EndpointEnd))) /\
  (forall s e, parameters !! "start" = Some s -> parameters !! "end" = Some e ->
   (forall x, validate_timestamp E input_timezone s = Raise x ->
    extract_times E parameters input_timezone
    = Raise (raised (InvalidParameter EndpointStart))) /\
   (forall x, extract_date E s = Raise x ->
    extract_dates E parameters = Raise (raised (InvalidParameter EndpointStart))) /\
   (forall a x, validate_timestamp E input_timezone s = Ok a ->
    validate_timestamp E input_timezone e = Raise x ->
    extract_times E parameters input_timezone
    = Raise (raised (InvalidParameter EndpointEnd))) /\
   (forall a x, extract_date E s = Ok a -> extract_date E e = Raise x ->
    extract_dates E parameters = Raise (raised (InvalidParameter EndpointEnd)))) /\
  key_name EndpointStart = "start" /\ key_name EndpointEnd = "end" /\
  (forall f g, raised f = raised g -> f = g).
Proof.
  rewrite extract_times_chain, extract_dates_chain. unfold validation_chain.
  split; [|split; [|split; [|split; [|split]]]].
  - intros ->. split; reflexivity.
  - intros s -> ->. split; reflexivity.
  - intros s e -> ->. split; [|split; [|split]].
    + intros x ->. reflexivity.
    + intros x ->. reflexivity.
    + intros a x -> ->. reflexivity.
    + intros a x -> ->. reflexivity.
  - reflexivity.
  - reflexivity.
  - apply raised_inj.
Qed.

(** The failures on concrete requests. *)
Example range_extraction_failures_examples :
  extract_times env_utc ∅ None = Raise (raised (MissingParameter EndpointStart)) /\
  extract_dates env_utc (<["end" := VStr "2024-01-05"]> ∅)
  = Raise (raised (MissingParameter EndpointStart)) /\
  extract_times env_utc (<["start" := VStr "soon"]> ∅) None
  = Raise (raised (MissingParameter EndpointEnd)) /\
  extract_times env_utc (request "soon" "later") None
  = Raise (raised (InvalidParameter EndpointStart)) /\
  extract_dates env_utc (request "2024-01-05" "2024-02-30")
  = Raise (raised (InvalidParameter EndpointEnd)) /\
  extract_dates env_utc (request "2024-01-05" "2024-01-04")
  = Raise (raised InvertedRange).
Proof. repeat split; vm_compute; reflexivity. Qed.

(** ** C1: the numeric timestamp range *)

(** C1, as the code has it: when both timestamps are there, convert and
    localize, the outcome is decided by the two LOCALIZED instants:
    [InvertedRange] if the end instant is strictly earlier than the
    start instant, and otherwise the pair, with start <= end. The
    returned values keep the readings of the timestamps and carry the
    offsets of the timezone. When the timezone gives both readings the
    same offset, end_ts >= start_ts is enough for the pair to be
    returned. *)
Theorem extract_times_orders_localized_instants E (parameters : gmap string pyvalue)
    input_timezone s e ts te ds de start end_ :
  parameters !! "start" = Some s -> parameters !! "end" = Some e ->
  py_float E s = Ok ts -> py_float E e = Ok te ->
  utcfromtimestamp ts = Ok ds -> utcfromtimestamp te = Ok de ->
  localize E ds input_timezone = Ok start ->
  localize E de input_timezone = Ok end_ ->
  (exists os oe, start = with_tzinfo ds (Some os) /\ end_ = with_tzinfo de (Some oe)) /\
  (instant end_ < instant start ->
   extract_times E parameters input_timezone = Raise (raised InvertedRange)) /\
  (instant start <= instant end_ ->
   extract_times E parameters input_timezone = Ok (start, end_) /\
   datetime_le start end_ = Ok true) /\
  (tzinfo start = tzinfo end_ -> Qle ts te ->
   extract_times E parameters input_timezone = Ok (start, end_)).
Proof.
  intros Hs He Fs Fe Us Ue Ls Le.
  destruct (localize_ok _ _ _ _ Ls) as (os & Ts & _ & Es).
  destruct (localize_ok _ _ _ _ Le) as (oe & Te & _ & Ee).
  assert (Hchain : extract_times E parameters input_timezone =
                   if instant end_ <? instant start
                   then Raise (raised InvertedRange) else Ok (start, end_)).
  { rewrite extract_times_chain.
    apply (validation_chain_ordered _ _ s e start end_ os oe); try assumption.
    - unfold validate_timestamp. rewrite Fs. cbn [bind]. rewrite Us. exact Ls.
    - unfold validate_timestamp. rewrite Fe. cbn [bind]. rewrite Ue. exact Le. }
  split; [exists os, oe; auto|]. split; [|split].
  - intros Hlt. rewrite Hchain.
    destruct (Z.ltb_spec (instant end_) (instant start)); [reflexivity | lia].
  - intros Hle. split.
    + rewrite Hchain.
      destruct (Z.ltb_spec (instant end_) (instant start)); [lia | reflexivity].
    + unfold datetime_le. unfold instant in Hle. rewrite Ts, Te in Hle |- *.
      f_equal. apply Z.leb_le. exact Hle.
  - intros Hsame Hq. rewrite Hchain.
    pose proof (utcfromtimestamp_monotone _ _ _ _ Us Ue Hq) as Hmono.
    destruct (Z.ltb_spec (instant end_) (instant start)) as [Hlt|]; [|reflexivity].
    exfalso. unfold instant, utc_micros in Hlt. rewrite Ts, Te in Hlt, Hsame.
    injection Hsame as ->. rewrite Es, Ee, !wall_micros_with_tzinfo in Hlt. lia.
Qed.

(** The theorem at the timestamps 1710037800 and 1710039600 (02:30 and
    03:00 of March 10th 2024) in UTC, where the pair is returned. *)
Lemma extract_times_orders_localized_instants_witness :
  extract_times env_utc (request "1710037800" "1710039600") None
  = Ok (mkdatetime 2024 3 10 2 30 0 0 (Some 0), mkdatetime 2024 3 10 3 0 0 0 (Some 0)).
Proof.
  refine (proj1 (proj1 (proj2 (proj2
    (extract_times_orders_localized_instants env_utc
       (request "1710037800" "1710039600") None
       (VStr "1710037800") (VStr "1710039600")
       (inject_Z 1710037800) (inject_Z 1710039600)
       (mkdatetime 2024 3 10 2 30 0 0 None) (mkdatetime 2024 3 10 3 0 0 0 None)
       (mkdatetime 2024 3 10 2 30 0 0 (Some 0)) (mkdatetime 2024 3 10 3 0 0 0 (Some 0))
       eq_refl eq_refl eq_refl eq_refl eq_refl eq_refl eq_refl eq_refl))) _)).
  vm_compute. discriminate.
Defined.

(** The same two timestamps with New York as the timezone: end_ts is
    greater than start_ts, but 02:30 does not exist on that day and is
    localized with the offset -05:00 (07:30 UTC), while 03:00 gets
    -04:00 (07:00 UTC); the extraction fails with [InvertedRange]. *)
Lemma extract_times_inverted_in_dst_gap :
  py_float env_new_york (VStr "1710037800") = Ok (inject_Z 1710037800) /\
  py_float env_new_york (VStr "1710039600") = Ok (inject_Z 1710039600) /\
  Qle (inject_Z 1710037800) (inject_Z 1710039600) /\
  validate_timestamp env_new_york None (VStr "1710037800")
  = Ok (mkdatetime 2024 3 10 2 30 0 0 (Some EST)) /\
  validate_timestamp env_new_york None (VStr "1710039600")
  = Ok (mkdatetime 2024 3 10 3 0 0 0 (Some EDT)) /\
  extract_times env_new_york (request "1710037800" "1710039600") None
  = Raise (raised InvertedRange).
Proof.
  split; [reflexivity|]. split; [reflexivity|].
  split; [vm_compute; discriminate|].
  split; [reflexivity|]. split; reflexivity.
Qed.

(** ** C4: the list of months *)




Lemma mapM_Forall2 {A B : Type} (f : A -> result B) (l : list A) l' :
  mapM f l = Ok l' -> Forall2 (fun x y => f x = Ok y) l l'.
Proof.
  revert l'. induction l as [|x l IH]; intros l' H; cbn [mapM] in H.
  - injection H as <-. constructor.
  - apply bind_ok_inv in H as (y & Hy & H). apply bind_ok_inv in H as (ys & Hys & H).
    injection H as <-. constructor; [exact Hy | apply IH, Hys].
Qed.




(** ** C7: the calendar-date range *)

Lemma list_ascii_of_string_app a b :
  list_ascii_of_string (a +:+ b)
  = (list_ascii_of_string a ++ list_ascii_of_string b)%list.
Proof.
  induction a as [|c a IH]; [reflexivity|].
  change (list_ascii_of_string (String c a +:+ b))
    with (c :: list_ascii_of_string (a +:+ b)).
  rewrite IH. reflexivity.
Qed.

Lemma pad4_reads_all : forallb pad4_reads (seqZ 1 9999) = true.
Proof. vm_compute. reflexivity. Qed.

Lemma month_day_reads_all :
  forallb (fun m => forallb (month_day_reads m) (seqZ 1 31)) (seqZ 1 12) = true.
Proof. vm_compute. reflexivity. Qed.

Lemma forallb_seqZ (f : Z -> bool) lo n x :
  forallb f (seqZ lo n) = true -> lo <= x < lo + n -> f x = true.
Proof.
  intros H Hx. rewrite forallb_forall in H. apply H.
  apply list_elem_of_In, elem_of_seqZ. exact Hx.
Qed.

(** The text YYYY-MM-DD of a date is read as that date. *)
Lemma strptime_iso_date y m d :
  date_valid y m d = true ->
  strptime_ymd (iso_date y m d) = Ok (mkdatetime y m d 0 0 0 0 None).
Proof.
  intros Hv. pose proof Hv as Hv'. apply date_valid_spec in Hv' as (Hy & Hm & Hd).
  pose proof (days_in_month_bounds y m Hm) as Hdim.
  pose proof (forallb_seqZ _ 1 9999 y pad4_reads_all ltac:(lia)) as Py.
  pose proof (forallb_seqZ _ 1 12 m month_day_reads_all ltac:(lia)) as Pm.
  pose proof (forallb_seqZ _ 1 31 d Pm ltac:(lia)) as Pmd. clear Pm.
  unfold strptime_ymd, iso_date.
  rewrite list_ascii_of_string_app, (list_ascii_of_string_app "-").
  change (list_ascii_of_string "-") with ["-"%char].
  unfold pad4_reads in Py.
  destruct (list_ascii_of_string (pad4 y)) as [|a [|b [|c [|e [|? ?]]]]]; try discriminate Py.
  apply andb_true_iff in Py as [Py Ey]. apply Z.eqb_eq in Ey.
  cbn [app]. rewrite Py, Ey.
  change (code "-" =? 45) with true. cbn [andb].
  unfold month_day_reads in Pmd.
  destruct (first_month _) as [[[m' d'] [|? ?]]|]; try discriminate Pmd.
  apply andb_true_iff in Pmd as [Em Ed]. apply Z.eqb_eq in Em, Ed. subst m' d'.
  unfold datetime_new. rewrite Hv. reflexivity.
Qed.

(** Whatever text is accepted is read as midnight of a date that exists. *)
Lemma strptime_ymd_ok s r :
  strptime_ymd s = Ok r ->
  date_valid (year r) (month r) (day r) = true /\
  hour r = 0 /\ minute r = 0 /\ second r = 0 /\ microsecond r = 0 /\ tzinfo r = None.
Proof.
  unfold strptime_ymd.
  destruct (list_ascii_of_string s) as [|y1 [|y2 [|y3 [|y4 [|c rest]]]]]; try discriminate.
  destruct (_ && _); [|discriminate].
  destruct (first_month _) as [[[m d] [|? ?]]|]; try discriminate.
  unfold datetime_new.
  destruct (date_valid _ m d) eqn:Hv; cbn [andb]; [|discriminate].
  change (time_valid 0 0 0 0) with true. cbv iota.
  intros [= <-]. cbn [year month day hour minute second microsecond tzinfo].
  split; [exact Hv|]. repeat split; reflexivity.
Qed.


















(** What the date extractor accepts and refuses. *)
Example extract_dates_examples :
  extract_dates env_new_york (request "2024-03-10" "2024-11-03")
  = Ok (mkdatetime 2024 3 10 0 0 0 0 (Some EST), mkdatetime 2024 11 3 0 0 0 0 (Some EDT)) /\
  extract_date env_utc (VStr "1710037800") = Raise ValueError /\
  extract_date env_utc (VStr "2024-01-05 10:00") = Raise ValueError /\
  extract_date env_utc (VStr "2024-01-05 ") = Raise ValueError /\
  extract_date env_utc (VStr " 2024-01-05") = Raise ValueError /\
  extract_date env_utc (VStr "2024-01- 15") = Raise ValueError /\
  extract_date env_utc (VStr "January 5, 2024") = Raise ValueError /\
  extract_date env_utc (VStr "2024-02-30") = Raise ValueError /\
  extract_date env_utc (VInt 20240105) = Raise TypeError.
Proof. repeat split; vm_compute; reflexivity. Qed.

(** * Further properties of the module *)

(** ** The range extractors: failures and results *)

Lemma validate_timestamp_aware E tz v r :
  validate_timestamp E tz v = Ok r -> exists o, tzinfo r = Some o.
Proof.
  unfold validate_timestamp. intros H.
  apply bind_ok_inv in H as (t & _ & H). apply bind_ok_inv in H as (d & _ & H).
  apply localize_ok in H as (o & Ho & _). eauto.
Qed.

Lemma extract_date_aware E v r :
  extract_date E v = Ok r -> exists o, tzinfo r = Some o.
Proof.
  unfold extract_date. intros H. apply bind_ok_inv in H as (d & _ & H).
  apply localize_ok in H as (o & Ho & _). eauto.
Qed.

(** What the chain does, for a validation whose results are aware. *)
Lemma validation_chain_cases validate (parameters : gmap string pyvalue) :
  (forall v r, validate v = Ok r -> exists o, tzinfo r = Some o) ->
  (exists f, validation_chain validate parameters = Raise (raised f)) \/
  (exists s e start end_,
     parameters !! "start" = Some s /\ parameters !! "end" = Some e /\
     validate s = Ok start /\ validate e = Ok end_ /\
     instant start <= instant end_ /\
     validation_chain validate parameters = Ok (start, end_)).
Proof.
  intros Haware. unfold validation_chain.
  destruct (parameters !! "start") as [s|]; [|left; eauto].
  destruct (parameters !! "end") as [e|]; [|left; eauto].
  destruct (validate s) as [start|x] eqn:Vs; [|left; eauto].
  destruct (validate e) as [end_|x] eqn:Ve; [|left; eauto].
  destruct (Haware _ _ Vs) as (os & Ts). destruct (Haware _ _ Ve) as (oe & Te).
  unfold datetime_lt, instant. rewrite Ts, Te. cbn [bind].
  destruct (Z.ltb_spec (utc_micros end_ oe) (utc_micros start os)); [left; eauto|].
  right. exists s, e, start, end_. rewrite ?Ts, ?Te.
  repeat split; try reflexivity; assumption.
Qed.

(** X1: whatever the request, a failure of either range extractor is
    one of the five failures of the chain: no [KeyError], [ValueError]
    or [TypeError] of a conversion reaches the caller. *)
Theorem range_extraction_raises_only_its_failures E
    (parameters : gmap string pyvalue) input_timezone :
  (forall x, extract_times E parameters input_timezone = Raise x ->
             exists f, x = raised f) /\
  (forall x, extract_dates E parameters = Raise x -> exists f, x = raised f).
Proof.
  rewrite extract_times_chain, extract_dates_chain. split; intros x Hx.
  - destruct (validation_chain_cases (validate_timestamp E input_timezone) parameters
                (validate_timestamp_aware E input_timezone))
      as [(f & Hf)|(s & e & a & b & _ & _ & _ & _ & _ & Hok)].
    + rewrite Hf in Hx. injection Hx as <-. eauto.
    + rewrite Hok in Hx. discriminate Hx.
  - destruct (validation_chain_cases (extract_date E) parameters (extract_date_aware E))
      as [(f & Hf)|(s & e & a & b & _ & _ & _ & _ & _ & Hok)].
    + rewrite Hf in Hx. injection Hx as <-. eauto.
    + rewrite Hok in Hx. discriminate Hx.
Qed.

(** X2: a range returned by either extractor has both keys in the
    request, two aware endpoints, and a start that is not after the
    end. *)
Theorem extracted_range_is_ordered E (parameters : gmap string pyvalue) input_timezone :
  (forall start end_,
     extract_times E parameters input_timezone = Ok (start, end_) ->
     is_Some (parameters !! "start") /\ is_Some (parameters !! "end") /\
     is_Some (tzinfo start) /\ is_Some (tzinfo end_) /\
     instant start <= instant end_ /\ datetime_le start end_ = Ok true) /\
  (forall start end_,
     extract_dates E parameters = Ok (start, end_) ->
     is_Some (parameters !! "start") /\ is_Some (parameters !! "end") /\
     is_Some (tzinfo start) /\ is_Some (tzinfo end_) /\
     instant start <= instant end_ /\ datetime_le start end_ = Ok true).
Proof.
  rewrite extract_times_chain, extract_dates_chain.
  assert (Hgen : forall validate,
    (forall v r, validate v = Ok r -> exists o, tzinfo r = Some o) ->
    forall start end_,
      validation_chain validate parameters = Ok (start, end_) ->
      is_Some (parameters !! "start") /\ is_Some (parameters !! "end") /\
      is_Some (tzinfo start) /\ is_Some (tzinfo end_) /\
      instant start <= instant end_ /\ datetime_le start end_ = Ok true).
  { intros validate Haware start end_ Hok.
    destruct (validation_chain_cases validate parameters Haware)
      as [(f & Hf)|(s & e & a & b & Hs & He & Vs & Ve & Hle & Hab)].
    - rewrite Hf in Hok. discriminate Hok.
    - rewrite Hab in Hok. injection Hok as <- <-.
      destruct (Haware _ _ Vs) as (os & Ts). destruct (Haware _ _ Ve) as (oe & Te).
      rewrite Hs, He, Ts, Te.
      repeat (split; [eexists; reflexivity|]). split; [exact Hle|].
      unfold datetime_le. unfold instant in Hle. rewrite Ts, Te in Hle |- *.
      f_equal. apply Z.leb_le. exact Hle. }
  split.
  - apply Hgen, validate_timestamp_aware.
  - apply Hgen, extract_date_aware.
Qed.

(** X3: a range whose two endpoints hold the same value is accepted by
    both extractors whenever the value validates: only an end strictly
    before the start is refused. *)
Theorem range_of_equal_endpoints (E : env) (parameters : gmap string pyvalue)
    input_timezone v :
  parameters !! "start" = Some v -> parameters !! "end" = Some v ->
  (forall r, validate_timestamp E input_timezone v = Ok r ->
             extract_times E parameters input_timezone = Ok (r, r)) /\
  (forall r, extract_date E v = Ok r -> extract_dates E parameters = Ok (r, r)).
Proof.
  intros Hs He. rewrite extract_times_chain, extract_dates_chain.
  split; intros r Hr.
  - destruct (validate_timestamp_aware _ _ _ _ Hr) as (o & To).
    rewrite (validation_chain_ordered _ _ v v r r o o Hs He Hr Hr To To).
    rewrite Z.ltb_irrefl. reflexivity.
  - destruct (extract_date_aware _ _ _ Hr) as (o & To).
    rewrite (validation_chain_ordered _ _ v v r r o o Hs He Hr Hr To To).
    rewrite Z.ltb_irrefl. reflexivity.
Qed.

Lemma range_of_equal_endpoints_witness :
  extract_times env_new_york (request "1710037800" "1710037800") None
  = Ok (mkdatetime 2024 3 10 2 30 0 0 (Some EST), mkdatetime 2024 3 10 2 30 0 0 (Some EST)) /\
  extract_dates env_new_york (request "2024-03-10" "2024-03-10")
  = Ok (mkdatetime 2024 3 10 0 0 0 0 (Some EST), mkdatetime 2024 3 10 0 0 0 0 (Some EST)).
Proof.
  pose proof (range_of_equal_endpoints env_new_york (request "1710037800" "1710037800")
                None (VStr "1710037800") eq_refl eq_refl) as [Ht _].
  pose proof (range_of_equal_endpoints env_new_york (request "2024-03-10" "2024-03-10")
                None (VStr "2024-03-10") eq_refl eq_refl) as [_ Hd].
  exact (conj (Ht _ eq_refl) (Hd _ eq_refl)).
Defined.

(** X4: other keys of the request play no part: two requests that
    agree on "start" and on "end" get the same answer from each
    extractor. *)
Theorem range_extraction_reads_two_keys E (p q : gmap string pyvalue) input_timezone :
  p !! "start" = q !! "start" -> p !! "end" = q !! "end" ->
  extract_times E p input_timezone = extract_times E q input_timezone /\
  extract_dates E p = extract_dates E q.
Proof.
  intros Hs He. rewrite !extract_times_chain, !extract_dates_chain.
  unfold validation_chain. rewrite Hs, He. split; reflexivity.
Qed.

Lemma range_extraction_reads_two_keys_witness :
  extract_dates env_utc (<["page" := VInt 3]> (request "2024-01-01" "2024-01-05"))
  = extract_dates env_utc (request "2024-01-01" "2024-01-05").
Proof.
  refine (proj2 (range_extraction_reads_two_keys env_utc _ _ None _ _)); reflexivity.
Defined.



(** The float nearest to 2.5e-06: its exact value is above two and a
    half microseconds (rounding it exactly would give 3), but its
    product with 1e6 is the float 2.5, which rounds to the even 2. *)
Example extract_times_near_a_tie :
  validate_timestamp env_utc None (VFloat (5902958103587057 # 2361183241434822606848))
  = Ok (mkdatetime 1970 1 1 0 0 0 2 (Some 0)) /\
  round_half_even (Qmult (5902958103587057 # 2361183241434822606848)
                         (inject_Z US_PER_SECOND)) = 3.
Proof. split; vm_compute; reflexivity. Qed.

(** ** Calendar dates in order *)

Lemma days_before_year_mono y1 y2 :
  1 <= y1 <= y2 -> days_before_year y1 <= days_before_year y2.
Proof. intros H. unfold days_before_year. euclid. Qed.

Lemma days_before_month_next y m :
  1 <= m < 12 -> days_before_month y m + days_in_month y m = days_before_month y (m + 1).
Proof.
  intros Hm. unfold days_before_month. rewrite days_in_month_alt.
  assert (Hc : m = 1 \/ m = 2 \/ m = 3 \/ m = 4 \/ m = 5 \/ m = 6 \/
               m = 7 \/ m = 8 \/ m = 9 \/ m = 10 \/ m = 11) by lia.
  destruct Hc as [->|[->|[->|[->|[->|[->|[->|[->|[->|[->| ->]]]]]]]]]];
    destruct (is_leap y); reflexivity.
Qed.

Lemma days_before_month_mono y m1 m2 :
  1 <= m1 <= m2 -> m2 <= 12 -> days_before_month y m1 <= days_before_month y m2.
Proof.
  intros H1 H2. unfold days_before_month.
  assert (Hc1 : m1 = 1 \/ m1 = 2 \/ m1 = 3 \/ m1 = 4 \/ m1 = 5 \/ m1 = 6 \/
                m1 = 7 \/ m1 = 8 \/ m1 = 9 \/ m1 = 10 \/ m1 = 11 \/ m1 = 12) by lia.
  assert (Hc2 : m2 = 1 \/ m2 = 2 \/ m2 = 3 \/ m2 = 4 \/ m2 = 5 \/ m2 = 6 \/
                m2 = 7 \/ m2 = 8 \/ m2 = 9 \/ m2 = 10 \/ m2 = 11 \/ m2 = 12) by lia.
  destruct (is_leap y);
    destruct Hc1 as [->|[->|[->|[->|[->|[->|[->|[->|[->|[->|[->| ->]]]]]]]]]]];
    destruct Hc2 as [->|[->|[->|[->|[->|[->|[->|[->|[->|[->|[->| ->]]]]]]]]]]];
    cbn; lia.
Qed.

(** An earlier date has a smaller ordinal. *)
Lemma ymd2ord_date_before y1 m1 d1 y2 m2 d2 :
  date_valid y1 m1 d1 = true -> date_valid y2 m2 d2 = true ->
  date_before y1 m1 d1 y2 m2 d2 = true ->
  ymd2ord y1 m1 d1 < ymd2ord y2 m2 d2.
Proof.
  intros V1 V2 Hb.
  apply date_valid_spec in V1 as (Hy1 & Hm1 & Hd1).
  apply date_valid_spec in V2 as (Hy2 & Hm2 & Hd2).
  pose proof (days_before_month_bounds y1 m1 d1 Hm1 Hd1) as B1.
  pose proof (days_before_month_bounds y2 m2 d2 Hm2 Hd2) as B2.
  unfold date_before in Hb. unfold ymd2ord.
  destruct (Z.ltb_spec y1 y2) as [Hy|Hy].
  - pose proof (days_before_year_succ y1 ltac:(lia)) as Hs.
    pose proof (days_before_year_mono (y1 + 1) y2 ltac:(lia)). lia.
  - cbn [orb] in Hb. apply andb_true_iff in Hb as [Ey Hb].
    apply Z.eqb_eq in Ey. subst y2.
    destruct (Z.ltb_spec m1 m2) as [Hm|Hm].
    + pose proof (days_before_month_next y1 m1 ltac:(lia)) as Hn.
      pose proof (days_before_month_mono y1 (m1 + 1) m2 ltac:(lia) ltac:(lia)). lia.
    + cbn [orb] in Hb. apply andb_true_iff in Hb as [Em Hd].
      apply Z.eqb_eq in Em. apply Z.ltb_lt in Hd. subst m2. lia.
Qed.

Lemma date_before_total y1 m1 d1 y2 m2 d2 :
  date_before y1 m1 d1 y2 m2 d2 = false ->
  (y1, m1, d1) = (y2, m2, d2) \/ date_before y2 m2 d2 y1 m1 d1 = true.
Proof.
  unfold date_before.
  destruct (Z.ltb_spec y1 y2), (Z.ltb_spec y2 y1), (Z.eqb_spec y1 y2),
    (Z.eqb_spec y2 y1), (Z.ltb_spec m1 m2), (Z.ltb_spec m2 m1), (Z.eqb_spec m1 m2),
    (Z.eqb_spec m2 m1), (Z.ltb_spec d1 d2), (Z.ltb_spec d2 d1);
    cbn; intros Hfalse; try discriminate Hfalse; try lia; auto.
  left. f_equal; [f_equal|]; lia.
Qed.

Lemma ymd2ord_lt_iff y1 m1 d1 y2 m2 d2 :
  date_valid y1 m1 d1 = true -> date_valid y2 m2 d2 = true ->
  (ymd2ord y1 m1 d1 <? ymd2ord y2 m2 d2) = date_before y1 m1 d1 y2 m2 d2.
Proof.
  intros V1 V2.
  destruct (date_before y1 m1 d1 y2 m2 d2) eqn:Hb.
  - apply Z.ltb_lt. apply ymd2ord_date_before; assumption.
  - apply Z.ltb_ge. apply date_before_total in Hb as [[= -> -> ->]|Hb]; [lia|].
    pose proof (ymd2ord_date_before _ _ _ _ _ _ V2 V1 Hb). lia.
Qed.

Lemma request_start s e : request s e !! "start" = Some (VStr s).
Proof. unfold request. apply lookup_insert_eq. Qed.

Lemma request_end s e : request s e !! "end" = Some (VStr e).
Proof.
  unfold request. rewrite lookup_insert_ne by discriminate. apply lookup_insert_eq.
Qed.

Lemma extract_date_iso E y m d o :
  date_valid y m d = true ->
  tz_offset (current_timezone E) (mkdatetime y m d 0 0 0 0 None) = Ok o ->
  extract_date E (VStr (iso_date y m d)) = Ok (mkdatetime y m d 0 0 0 0 (Some o)).
Proof.
  intros Hv Ho. unfold extract_date, strptime_value.
  rewrite strptime_iso_date by exact Hv. cbn [bind].
  unfold localize, tz_localize. cbn [tzinfo]. rewrite Ho. reflexivity.
Qed.

Lemma instant_of_midnight y m d o :
  instant (mkdatetime y m d 0 0 0 0 (Some o)) = ymd2ord y m d * US_PER_DAY - o * US_PER_SECOND.
Proof.
  unfold instant, utc_micros, wall_micros, toordinal, US_PER_DAY, US_PER_SECOND.
  cbn [year month day hour minute second microsecond tzinfo]. ring.
Qed.

(** X6: where the timezone gives both midnights the same offset,
    [extract_dates] decides by the calendar: the range of two dates
    written YYYY-MM-DD is refused with [InvertedRange] exactly when the
    end date is before the start date (by year, then month, then day),
    and is returned otherwise, the same day included. *)
Theorem extract_dates_follows_the_calendar E y1 m1 d1 y2 m2 d2 o :
  date_valid y1 m1 d1 = true -> date_valid y2 m2 d2 = true ->
  tz_offset (current_timezone E) (mkdatetime y1 m1 d1 0 0 0 0 None) = Ok o ->
  tz_offset (current_timezone E) (mkdatetime y2 m2 d2 0 0 0 0 None) = Ok o ->
  extract_dates E (request (iso_date y1 m1 d1) (iso_date y2 m2 d2))
  = if date_before y2 m2 d2 y1 m1 d1
    then Raise (raised InvertedRange)
    else Ok (mkdatetime y1 m1 d1 0 0 0 0 (Some o), mkdatetime y2 m2 d2 0 0 0 0 (Some o)).
Proof.
  intros V1 V2 O1 O2. rewrite extract_dates_chain.
  rewrite (validation_chain_ordered (extract_date E) _ _ _ _ _ o o
             (request_start _ _) (request_end _ _)
             (extract_date_iso E _ _ _ o V1 O1) (extract_date_iso E _ _ _ o V2 O2)
             eq_refl eq_refl).
  rewrite !instant_of_midnight, <- (ymd2ord_lt_iff _ _ _ _ _ _ V2 V1).
  assert (HD : 0 < US_PER_DAY) by (unfold US_PER_DAY; lia).
  destruct (Z.ltb_spec (ymd2ord y2 m2 d2) (ymd2ord y1 m1 d1)) as [Hlt|Hge].
  - destruct (Z.ltb_spec (ymd2ord y2 m2 d2 * US_PER_DAY - o * US_PER_SECOND)
                         (ymd2ord y1 m1 d1 * US_PER_DAY - o * US_PER_SECOND));
      [reflexivity | nia].
  - destruct (Z.ltb_spec (ymd2ord y2 m2 d2 * US_PER_DAY - o * US_PER_SECOND)
                         (ymd2ord y1 m1 d1 * US_PER_DAY - o * US_PER_SECOND));
      [nia | reflexivity].
Qed.

(** The theorem in UTC for a range over the end of February 2024, and
    for the same range turned round. *)
Lemma extract_dates_follows_the_calendar_witness :
  extract_dates env_utc (request "2024-02-29" "2024-03-01")
  = Ok (mkdatetime 2024 2 29 0 0 0 0 (Some 0), mkdatetime 2024 3 1 0 0 0 0 (Some 0)) /\
  extract_dates env_utc (request "2024-03-01" "2024-02-29") = Raise (raised InvertedRange).
Proof.
  split.
  - exact (extract_dates_follows_the_calendar env_utc 2024 2 29 2024 3 1 0
             eq_refl eq_refl eq_refl eq_refl).
  - exact (extract_dates_follows_the_calendar env_utc 2024 3 1 2024 2 29 0
             eq_refl eq_refl eq_refl eq_refl).
Defined.

(** ** Months and days written without padding *)

Lemma short_month_day_reads_all :
  forallb (fun m => forallb (short_month_day_reads m) (seqZ 1 31)) (seqZ 1 12) = true.
Proof. vm_compute. reflexivity. Qed.

Lemma strptime_short_date y m d :
  date_valid y m d = true ->
  strptime_ymd (short_date y m d) = Ok (mkdatetime y m d 0 0 0 0 None).
Proof.
  intros Hv. pose proof Hv as Hv'. apply date_valid_spec in Hv' as (Hy & Hm & Hd).
  pose proof (days_in_month_bounds y m Hm) as Hdim.
  pose proof (forallb_seqZ _ 1 9999 y pad4_reads_all ltac:(lia)) as Py.
  pose proof (forallb_seqZ _ 1 12 m short_month_day_reads_all ltac:(lia)) as Pm.
  pose proof (forallb_seqZ _ 1 31 d Pm ltac:(lia)) as Pmd. clear Pm.
  unfold strptime_ymd, short_date.
  rewrite list_ascii_of_string_app, (list_ascii_of_string_app "-").
  change (list_ascii_of_string "-") with ["-"%char].
  unfold pad4_reads in Py.
  destruct (list_ascii_of_string (pad4 y)) as [|a [|b [|c [|e [|? ?]]]]]; try discriminate Py.
  apply andb_true_iff in Py as [Py Ey]. apply Z.eqb_eq in Ey.
  cbn [app]. rewrite Py, Ey.
  change (code "-" =? 45) with true. cbn [andb].
  unfold short_month_day_reads in Pmd.
  destruct (first_month _) as [[[m' d'] [|? ?]]|]; try discriminate Pmd.
  apply andb_true_iff in Pmd as [Em Ed]. apply Z.eqb_eq in Em, Ed. subst m' d'.
  unfold datetime_new. rewrite Hv. reflexivity.
Qed.

(** X7: the date extractor also accepts a month and a day written
    without their leading zero, as [strptime] does: for every date,
    the text Y-M-D (as in 2024-1-5) is read as the same midnight as
    the text YYYY-MM-DD, whatever the timezone does with it. *)
Theorem extract_date_accepts_unpadded E y m d :
  date_valid y m d = true ->
  extract_date E (VStr (short_date y m d)) = extract_date E (VStr (iso_date y m d)) /\
  strptime_ymd (short_date y m d) = Ok (mkdatetime y m d 0 0 0 0 None).
Proof.
  intros Hv. unfold extract_date, strptime_value.
  rewrite strptime_short_date, strptime_iso_date by exact Hv. split; reflexivity.
Qed.

Lemma extract_date_accepts_unpadded_witness :
  extract_date env_utc (VStr "2024-1-5") = extract_date env_utc (VStr "2024-01-05") /\
  strptime_ymd "2024-1-5" = Ok (mkdatetime 2024 1 5 0 0 0 0 None).
Proof.
  exact (extract_date_accepts_unpadded env_utc 2024 1 5 eq_refl).
Defined.

(** ** The string parameter: trimmed and stable *)

(** X8: the string that [parse_parameter_string] returns for a key
    holding a string has no whitespace at either end and is not longer
    than the value; with [raise_on_error=True] it is returned only if it
    is not longer than [maximum_length], and raises otherwise. *)
Theorem parse_parameter_string_is_trimmed (d : gmap string pyvalue) key
    maximum_length default raw :
  d !! key = Some (VStr raw) ->
  exists s,
    parse_parameter_string d key maximum_length false default = Ok (VStr s) /\
    trimmed (list_ascii_of_string s) /\
    str_len s <= str_len raw /\
    (str_len s <= maximum_length ->
     parse_parameter_string d key maximum_length true default = Ok (VStr s)) /\
    (forall r, parse_parameter_string d key maximum_length true default = Ok r ->
               r = VStr s /\ str_len s <= maximum_length).
Proof.
  intros Hk. exists (str_strip raw).
  unfold parse_parameter_string, dict_getitem. rewrite Hk.
  cbn [bind py_strip try_except andb].
  split; [reflexivity|]. split; [|split; [|split]].
  - rewrite str_strip_list. apply strip_list_trimmed.
  - rewrite !str_len_list, str_strip_list. unfold strip_list.
    pose proof (rstrip_with_length is_space (lstrip_with is_space (list_ascii_of_string raw))).
    pose proof (lstrip_with_length is_space (list_ascii_of_string raw)). lia.
  - intros Hle.
    destruct (Z.ltb_spec maximum_length (str_len (str_strip raw))); [lia | reflexivity].
  - intros r.
    destruct (Z.ltb_spec maximum_length (str_len (str_strip raw))); cbn [bind try_except].
    + destruct (too_long_message key (str_len (str_strip raw)) maximum_length);
        discriminate.
    + intros [= <-]. split; [reflexivity | assumption].
Qed.

Lemma parse_parameter_string_is_trimmed_witness :
  exists s,
    parse_parameter_string (<["q" := VStr "  two words "]> ∅) "q" 9 false VNone
    = Ok (VStr s) /\ s = "two words" /\
    parse_parameter_string (<["q" := VStr "  two words "]> ∅) "q" 9 true VNone
    = Ok (VStr s).
Proof.
  assert (Hk : (<["q" := VStr "  two words "]> ∅ : gmap string pyvalue) !! "q"
               = Some (VStr "  two words ")) by reflexivity.
  destruct (parse_parameter_string_is_trimmed _ "q" 9 VNone "  two words " Hk)
    as (s & Hs & _ & _ & Hok & _).
  exists s. split; [exact Hs|].
  assert (Es : s = "two words") by (vm_compute in Hs; injection Hs as <-; reflexivity).
  split; [exact Es|]. apply Hok. rewrite Es. vm_compute. discriminate.
Defined.

(** X9: parsing is stable: the string returned for a key holding a
    string, put back under a key and parsed again with the same
    settings, is returned as it is. *)
Theorem parse_parameter_string_is_stable (d d' : gmap string pyvalue) key key'
    maximum_length default default' raise_on_error raw s :
  d !! key = Some (VStr raw) ->
  parse_parameter_string d key maximum_length raise_on_error default = Ok (VStr s) ->
  parse_parameter_string (<[key' := VStr s]> d') key' maximum_length raise_on_error default'
  = Ok (VStr s).
Proof.
  intros Hv Hp.
  unfold parse_parameter_string, dict_getitem in Hp. rewrite Hv in Hp.
  cbn [bind py_strip] in Hp.
  destruct (raise_on_error && (maximum_length <? str_len (str_strip raw))) eqn:Hc;
    [destruct raise_on_error; [|discriminate Hc];
     destruct (too_long_message key (str_len (str_strip raw)) maximum_length);
     discriminate Hp|].
  cbn [try_except] in Hp.
  injection Hp as <-.
  unfold parse_parameter_string, dict_getitem. rewrite lookup_insert_eq.
  cbn [bind py_strip]. rewrite str_strip_idempotent, Hc. reflexivity.
Qed.

Lemma parse_parameter_string_is_stable_witness :
  parse_parameter_string (<["name" := VStr "two words"]> ∅) "name" 20 true VNone
  = Ok (VStr "two words").
Proof.
  refine (parse_parameter_string_is_stable (<["q" := VStr "  two words "]> ∅) ∅
            "q" "name" 20 (VStr "") VNone true "  two words " "two words" _ _);
    reflexivity.
Defined.

(** ** Reading back the decimal text of an integer *)

Lemma int_digits_uint u : forall acc,
  int_digits acc (list_ascii_of_string (NilEmpty.string_of_uint u))
  = (decimal_value u acc, []).
Proof.
  induction u as [|u IH|u IH|u IH|u IH|u IH|u IH|u IH|u IH|u IH|u IH]; intros acc;
    [reflexivity | ..];
    cbn [NilEmpty.string_of_uint list_ascii_of_string int_digits decimal_value];
    match goal with
    | |- context [digit_of ?c] =>
        let v := eval vm_compute in (digit_of c) in change (digit_of c) with v
    end; cbv iota; apply IH.
Qed.

Lemma decimal_value_pos u : forall p,
  decimal_value u (Z.pos p) = Z.pos (Pos.of_uint_acc u p).
Proof.
  induction u as [|u IH|u IH|u IH|u IH|u IH|u IH|u IH|u IH|u IH|u IH]; intros p;
    [reflexivity | ..];
    cbn [decimal_value Pos.of_uint_acc]; rewrite <- IH; f_equal; lia.
Qed.

Lemma decimal_value_zero u : decimal_value u 0 = Z.of_N (Pos.of_uint u).
Proof.
  induction u as [|u IH|u IH|u IH|u IH|u IH|u IH|u IH|u IH|u IH|u IH];
    [reflexivity | exact IH | ..];
    cbn [decimal_value Pos.of_uint Z.of_N]; rewrite <- decimal_value_pos; reflexivity.
Qed.

Lemma digit_count_uint u :
  digit_count (list_ascii_of_string (NilEmpty.string_of_uint u))
  = str_len (NilEmpty.string_of_uint u).
Proof.
  unfold str_len.
  induction u as [|u IH|u IH|u IH|u IH|u IH|u IH|u IH|u IH|u IH|u IH];
    [reflexivity | ..];
    cbn [NilEmpty.string_of_uint list_ascii_of_string digit_count String.length];
    rewrite IH, Nat2Z.inj_succ;
    match goal with
    | |- context [digit_of ?c] =>
        let v := eval vm_compute in (digit_of c) in change (digit_of c) with v
    end; cbv iota; lia.
Qed.

Lemma int_of_string_uint u :
  u <> Decimal.Nil ->
  int_of_string (NilEmpty.string_of_uint u)
  = (if int_max_str_digits <? str_len (NilEmpty.string_of_uint u)
     then Raise ValueError else Ok (decimal_value u 0)) /\
  int_of_string (String "-" (NilEmpty.string_of_uint u))
  = (if int_max_str_digits <? str_len (NilEmpty.string_of_uint u)
     then Raise ValueError else Ok (- decimal_value u 0)).
Proof.
  intros Hn. rewrite <- digit_count_uint.
  destruct u as [|u|u|u|u|u|u|u|u|u|u]; [contradiction | ..];
    unfold int_of_string;
    cbn [NilEmpty.string_of_uint list_ascii_of_string decimal_value];
    cbv - [int_digits list_ascii_of_string NilEmpty.string_of_uint decimal_value
           Z.add Z.mul Z.opp digit_count Z.ltb int_max_str_digits];
    rewrite int_digits_uint; split; reflexivity.
Qed.

Lemma int_of_string_str_of_int n :
  int_of_string (str_of_int n)
  = if int_max_str_digits <? str_len (str_of_int (Z.abs n))
    then Raise ValueError else Ok n.
Proof.
  unfold str_of_int. destruct n as [|p|p]; [reflexivity | |].
  - change (Z.abs (Z.pos p)) with (Z.pos p).
    change (Z.to_int (Z.pos p)) with (Decimal.Pos (Pos.to_uint p)).
    cbn [NilZero.string_of_int].
    pose proof (DecimalPos.Unsigned.to_uint_nonnil p) as Hn.
    pose proof (DecimalPos.Unsigned.of_to p) as Hof.
    destruct (int_of_string_uint (Pos.to_uint p) Hn) as [H _].
    replace (NilZero.string_of_uint (Pos.to_uint p))
      with (NilEmpty.string_of_uint (Pos.to_uint p))
      by (destruct (Pos.to_uint p); [contradiction | reflexivity ..]).
    rewrite H, decimal_value_zero, Hof. reflexivity.
  - change (Z.abs (Z.neg p)) with (Z.pos p).
    change (Z.to_int (Z.pos p)) with (Decimal.Pos (Pos.to_uint p)).
    change (Z.to_int (Z.neg p)) with (Decimal.Neg (Pos.to_uint p)).
    cbn [NilZero.string_of_int].
    pose proof (DecimalPos.Unsigned.to_uint_nonnil p) as Hn.
    pose proof (DecimalPos.Unsigned.of_to p) as Hof.
    destruct (int_of_string_uint (Pos.to_uint p) Hn) as [_ H].
    replace (NilZero.string_of_uint (Pos.to_uint p))
      with (NilEmpty.string_of_uint (Pos.to_uint p))
      by (destruct (Pos.to_uint p); [contradiction | reflexivity ..]).
    rewrite H, decimal_value_zero, Hof. reflexivity.
Qed.

(** X10: [quiet_int] reads back the decimal text of an integer, negative,
    zero or positive, as long as the text has no more digits than
    [int()] converts (4300): quiet_int(text of n, default) is n then,
    and the default when the text has more digits, the refusal of
    [int()] being silenced like any other error. *)
Theorem quiet_int_reads_back_str :
  forall n default,
    quiet_int (VStr (str_of_int n)) default
    = Ok (if int_max_str_digits <? str_len (str_of_int (Z.abs n))
          then default else VInt n).
Proof.
  intros n default. unfold quiet_int, py_int.
  rewrite int_of_string_str_of_int.
  destruct (int_max_str_digits <? str_len (str_of_int (Z.abs n))); reflexivity.
Qed.

(** The text of -1710037800 is read back; a text of 4301 digits is not
    converted, and the default is returned. *)
Example quiet_int_reads_back_str_examples :
  quiet_int (VStr (str_of_int (-1710037800))) VNone = Ok (VInt (-1710037800)) /\
  str_len (str_of_int (10 ^ 4300)) = 4301 /\
  quiet_int (VStr (str_of_int (10 ^ 4300))) (VInt 7) = Ok (VInt 7).
Proof.
  refine (conj _ (conj _ _)); vm_compute; reflexivity.
Qed.
(** ** The list of months, for any start *)

Lemma rrule_monthly_from_no_count steps y m dtstart count :
  count <= 0 -> rrule_monthly_from steps y m dtstart count = [].
Proof.
  intros Hc. destruct steps as [|k]; [reflexivity|]. cbn [rrule_monthly_from].
  destruct (Z.leb_spec count 0); [reflexivity | lia].
Qed.

(** X11: for a start in a month after the current month, [month_list]
    is the empty list. *)
Theorem month_list_of_a_future_start E since :
  year (now E) * 12 + month (now E) < year since * 12 + month since ->
  month_list E since = Ok [].
Proof.
  intros Hlt. unfold month_list, rrule_monthly.
  rewrite rrule_monthly_from_no_count by lia. reflexivity.
Qed.

Lemma month_list_of_a_future_start_witness :
  month_list env_new_york (mkdatetime 2024 4 1 0 0 0 0 None) = Ok [].
Proof.
  apply month_list_of_a_future_start. cbn. lia.
Defined.




(** What the rule yields for any start: occurrences on the day of the
    start, in months that have that day, no more than [count]. *)
Lemma rrule_monthly_from_days steps : forall y m dtstart count,
  Forall (fun d => day d = day dtstart /\
                   day dtstart <= days_in_month (year d) (month d) /\
                   hour d = hour dtstart /\ minute d = minute dtstart /\
                   second d = second dtstart /\ microsecond d = 0 /\
                   tzinfo d = tzinfo dtstart)
         (rrule_monthly_from steps y m dtstart count) /\
  Z.of_nat (length (rrule_monthly_from steps y m dtstart count)) <= Z.max 0 count.
Proof.
  induction steps as [|k IH]; intros y m dtstart count; cbn [rrule_monthly_from].
  - split; [constructor | cbn; lia].
  - destruct (Z.leb_spec count 0); [split; [constructor | cbn; lia]|].
    destruct (next_month y m) as [y' m'].
    destruct (Z.leb_spec (day dtstart) (days_in_month y m)).
    + destruct (IH y' m' dtstart (count - 1)) as [HF HL]. split.
      * constructor; [cbn; repeat split; auto | exact HF].
      * cbn [length]. lia.
    + destruct (IH y' m' dtstart count) as [HF HL]. split; [exact HF | lia].
Qed.

(** X13: whatever the start, every value of a list returned by
    [month_list] is on the day of the month of the start, in a month
    that has that day (a month without it is passed over, not moved to
    its last day), at the time of day of the start, aware; and the list
    has no more than the number of months counted from the start to the
    current month. *)
Theorem month_list_keeps_the_day E since l :
  month_list E since = Ok l ->
  Forall (fun d => day d = day since /\
                   day since <= days_in_month (year d) (month d) /\
                   hour d = hour since /\ minute d = minute since /\
                   second d = second since /\ microsecond d = 0 /\
                   is_Some (tzinfo d)) l /\
  Z.of_nat (length l)
  <= Z.max 0 ((year (now E) - year since) * 12 + (month (now E) - month since) + 1).
Proof.
  unfold month_list, localize_list, rrule_monthly. intros H.
  apply bind_ok_inv in H as (l' & Hl' & H). injection H as <-.
  apply mapM_Forall2 in Hl'.
  match type of Hl' with Forall2 _ (rrule_monthly_from ?s ?y ?m ?d ?c) _ =>
    destruct (rrule_monthly_from_days s y m d c) as [HF HL] end.
  split.
  - apply Forall_rev.
    clear HL. induction Hl' as [|x r xs rs Hx _ IH]; [constructor|].
    apply Forall_cons in HF as [Hd HF]. constructor; [|apply IH, HF].
    apply tz_localize_ok in Hx as (o & _ & _ & ->).
    destruct Hd as (? & ? & ? & ? & ? & ? & ?). cbn. repeat split; eauto.
  - rewrite length_rev, <- (Forall2_length _ _ _ Hl'). exact HL.
Qed.

(** The theorem for a start on January 31st 2024 read on March 15th
    2024: three months are counted; February has no 31st, so the three
    values are the 31st of January, March and May. *)
Lemma month_list_keeps_the_day_witness :
  month_list env_utc (mkdatetime 2024 1 31 0 0 0 0 None)
  = Ok [mkdatetime 2024 5 31 0 0 0 0 (Some 0); mkdatetime 2024 3 31 0 0 0 0 (Some 0);
        mkdatetime 2024 1 31 0 0 0 0 (Some 0)] /\
  Forall (fun d => day d = 31 /\ 31 <= days_in_month (year d) (month d))
    [mkdatetime 2024 5 31 0 0 0 0 (Some 0); mkdatetime 2024 3 31 0 0 0 0 (Some 0);
     mkdatetime 2024 1 31 0 0 0 0 (Some 0)].
Proof.
  assert (H : month_list env_utc (mkdatetime 2024 1 31 0 0 0 0 None)
              = Ok [mkdatetime 2024 5 31 0 0 0 0 (Some 0);
                    mkdatetime 2024 3 31 0 0 0 0 (Some 0);
                    mkdatetime 2024 1 31 0 0 0 0 (Some 0)]) by reflexivity.
  split; [exact H|].
  destruct (month_list_keeps_the_day _ _ _ H) as [HF _].
  eapply Forall_impl; [exact HF|].
  intros d (Hd & Hm & _). cbn in Hd, Hm. split; assumption.
Defined.

(** ** The month of a date: what the range depends on and what it holds *)

(** X14: the month timeframe depends on the year and the month of the
    date only: two texts parsed to dates of the same month give the same
    range, whatever their day and time of day; and an empty text is
    treated as no text, giving the range of the current month. *)
Theorem get_month_timeframe_depends_on_the_month E t1 t2 d1 d2 :
  t1 <> "" -> t2 <> "" ->
  dateutil_parse E t1 = Ok d1 -> dateutil_parse E t2 = Ok d2 ->
  year d1 = year d2 -> month d1 = month d2 ->
  get_month_timeframe E (Some t1) = get_month_timeframe E (Some t2) /\
  get_month_timeframe E (Some "") = get_month_timeframe E None /\
  (year d1 = year (now E) -> month d1 = month (now E) ->
   get_month_timeframe E (Some t1) = get_month_timeframe E None).
Proof.
  intros N1 N2 P1 P2 Hy Hm. unfold get_month_timeframe.
  destruct t1 as [|c1 t1]; [contradiction|]. destruct t2 as [|c2 t2]; [contradiction|].
  rewrite P1, P2. cbn [bind]. rewrite Hy, Hm.
  split; [reflexivity|]. split; [reflexivity|].
  intros Hyn Hmn. rewrite Hyn, Hmn. reflexivity.
Qed.

Lemma get_month_timeframe_depends_on_the_month_witness :
  get_month_timeframe env_utc (Some "2024-03-01") = get_month_timeframe env_utc (Some "2024-03-31") /\
  get_month_timeframe env_utc (Some "") = get_month_timeframe env_utc None /\
  get_month_timeframe env_utc (Some "2024-03-01") = get_month_timeframe env_utc None.
Proof.
  assert (N1 : "2024-03-01" <> "") by discriminate.
  assert (N2 : "2024-03-31" <> "") by discriminate.
  destruct (get_month_timeframe_depends_on_the_month env_utc "2024-03-01" "2024-03-31"
              (mkdatetime 2024 3 1 0 0 0 0 None) (mkdatetime 2024 3 31 0 0 0 0 None)
              N1 N2 eq_refl eq_refl eq_refl eq_refl) as (H1 & H2 & H3).
  exact (conj H1 (conj H2 (H3 eq_refl eq_refl))).
Defined.

Lemma wall_micros_fields y m d h mi s us tz :
  wall_micros (mkdatetime y m d h mi s us tz)
  = ymd2ord y m d * US_PER_DAY + ((h * 3600 + mi * 60 + s) * US_PER_SECOND + us).
Proof. apply wall_micros_split. Qed.

Lemma instant_fields y m d h mi s us o :
  instant (mkdatetime y m d h mi s us (Some o))
  = ymd2ord y m d * US_PER_DAY + ((h * 3600 + mi * 60 + s) * US_PER_SECOND + us)
    - o * US_PER_SECOND.
Proof.
  unfold instant, utc_micros. cbn [tzinfo]. rewrite wall_micros_fields. reflexivity.
Qed.

(** X15: the range of the month of a date runs from the reading
    00:00:00 of the 1st to the reading 23:59:59.000000 of the last day,
    each with the offset the timezone gives it. The reading of the date
    is not before the first reading and less than one second after the
    last. The two readings are the days of the month less one second
    apart; the two instants are that far apart LESS the change of
    offset between the two ends, so the range lasts the days of the
    month less one second only where both ends get the same offset. *)
Theorem get_month_timeframe_holds_the_date E text ds o1 o2 :
  text <> "" ->
  dateutil_parse E text = Ok ds ->
  datetime_valid ds = true ->
  tz_offset (current_timezone E) (mkdatetime (year ds) (month ds) 1 0 0 0 0 None) = Ok o1 ->
  tz_offset (current_timezone E)
    (mkdatetime (year ds) (month ds) (days_in_month (year ds) (month ds)) 23 59 59 0 None)
  = Ok o2 ->
  exists first last,
    get_month_timeframe E (Some text) = Ok (first, last) /\
    tzinfo first = Some o1 /\ tzinfo last = Some o2 /\
    wall_micros first <= wall_micros ds /\
    wall_micros ds < wall_micros last + US_PER_SECOND /\
    wall_micros last - wall_micros first
    = days_in_month (year ds) (month ds) * US_PER_DAY - US_PER_SECOND /\
    instant last - instant first
    = days_in_month (year ds) (month ds) * US_PER_DAY - US_PER_SECOND
      - (o2 - o1) * US_PER_SECOND /\
    (o1 = o2 ->
     instant last - instant first
     = days_in_month (year ds) (month ds) * US_PER_DAY - US_PER_SECOND).
Proof.
  intros Hne Hp Hv Ho1 Ho2.
  apply datetime_valid_spec in Hv as [(Hy & Hm & Hd) (Hh & Hmi & Hs & Hus)].
  pose proof (days_in_month_bounds (year ds) (month ds) Hm) as Hdim.
  exists (mkdatetime (year ds) (month ds) 1 0 0 0 0 (Some o1)),
         (mkdatetime (year ds) (month ds) (days_in_month (year ds) (month ds))
                     23 59 59 0 (Some o2)).
  split; [|split; [reflexivity|split; [reflexivity|]]].
  - unfold get_month_timeframe.
    destruct text as [|c text']; [contradiction|].
    rewrite Hp. cbn [bind]. unfold datetime_new.
    replace (date_valid (year ds) (month ds) 1) with true
      by (symmetry; apply date_valid_spec; lia).
    change (time_valid 0 0 0 0) with true. cbn [andb bind].
    unfold localize, tz_localize. cbn [tzinfo]. rewrite Ho1. cbn [bind with_tzinfo].
    unfold monthrange.
    replace ((1 <=? month ds) && (month ds <=? 12)) with true
      by (symmetry; apply andb_true_iff; rewrite !Z.leb_le; lia).
    replace ((MINYEAR <=? year ds) && (year ds <=? MAXYEAR)) with true
      by (symmetry; apply andb_true_iff; unfold MINYEAR, MAXYEAR; rewrite !Z.leb_le; lia).
    cbn [bind snd]. rewrite <- days_in_month_alt.
    replace (date_valid (year ds) (month ds) (days_in_month (year ds) (month ds))) with true
      by (symmetry; apply date_valid_spec; lia).
    change (time_valid 23 59 59 0) with true.
    cbn [andb bind tzinfo]. rewrite Ho2. reflexivity.
  - rewrite !instant_fields, !wall_micros_fields, (wall_micros_split ds).
    unfold toordinal, ymd2ord.
    generalize (days_before_year (year ds) + days_before_month (year ds) (month ds)).
    intros base. unfold US_PER_DAY, US_PER_SECOND. repeat split; lia.
Qed.

(** The theorem for the text "2024-03-15" in New York: March has 31
    days and the clocks go forward on the 10th, so the range lasts 31
    days less one second less one hour. *)
Lemma get_month_timeframe_holds_the_date_witness :
  exists first last,
    get_month_timeframe env_new_york (Some "2024-03-15") = Ok (first, last) /\
    first = mkdatetime 2024 3 1 0 0 0 0 (Some EST) /\
    last = mkdatetime 2024 3 31 23 59 59 0 (Some EDT) /\
    wall_micros last - wall_micros first = 31 * US_PER_DAY - US_PER_SECOND /\
    instant last - instant first = 31 * US_PER_DAY - US_PER_SECOND - 3600 * US_PER_SECOND.
Proof.
  assert (Hne : "2024-03-15" <> "") by discriminate.
  destruct (get_month_timeframe_holds_the_date env_new_york "2024-03-15"
              (mkdatetime 2024 3 15 0 0 0 0 None) EST EDT
              Hne eq_refl eq_refl eq_refl eq_refl)
    as (first & last & Hr & _ & _ & _ & _ & Hlen & Hinst & _).
  exists first, last. split; [exact Hr|].
  assert (Ef : first = mkdatetime 2024 3 1 0 0 0 0 (Some EST))
    by (vm_compute in Hr; injection Hr as <- _; reflexivity).
  assert (El : last = mkdatetime 2024 3 31 23 59 59 0 (Some EDT))
    by (vm_compute in Hr; injection Hr as _ <-; reflexivity).
  split; [exact Ef|]. split; [exact El|]. split; [exact Hlen | exact Hinst].
Defined.

(** ** The two ends of a day *)

(** X16: the beginning and the end of the day of a reading are on its
    calendar day and hold it between them; they are one day less one
    microsecond apart. With [in_local_timezone] they are these two
    readings localized to the process timezone. *)
Theorem day_boundaries_hold_the_reading E t :
  0 <= hour t < 24 -> 0 <= minute t < 60 -> 0 <= second t < 60 ->
  0 <= microsecond t < 1000000 ->
  let b := replace_time t 0 0 0 0 in
  let e := replace_time t 23 59 59 999999 in
  beginning_of_the_day E t false = Ok b /\
  end_of_the_day E t false = Ok e /\
  (year b, month b, day b) = (year t, month t, day t) /\
  (year e, month e, day e) = (year t, month t, day t) /\
  wall_micros b <= wall_micros t <= wall_micros e /\
  wall_micros e - wall_micros b = US_PER_DAY - 1 /\
  (forall ob oe,
     tz_offset (current_timezone E) b = Ok ob ->
     tz_offset (current_timezone E) e = Ok oe ->
     beginning_of_the_day E t true = Ok (with_tzinfo b (Some ob)) /\
     end_of_the_day E t true = Ok (with_tzinfo e (Some oe))).
Proof.
  intros Hh Hmi Hs Hus b e. subst b e.
  split; [reflexivity|]. split; [reflexivity|].
  split; [reflexivity|]. split; [reflexivity|].
  split; [|split].
  - rewrite (wall_micros_split t). unfold replace_time. rewrite !wall_micros_fields.
    unfold toordinal, US_PER_DAY, US_PER_SECOND. lia.
  - unfold replace_time. rewrite !wall_micros_fields.
    unfold US_PER_DAY, US_PER_SECOND. lia.
  - intros ob oe Hb He.
    unfold beginning_of_the_day, end_of_the_day, localize, tz_localize.
    change (tzinfo (replace_time t 0 0 0 0)) with (@None Z).
    change (tzinfo (replace_time t 23 59 59 999999)) with (@None Z).
    cbv iota. rewrite Hb, He. split; reflexivity.
Qed.

Lemma day_boundaries_hold_the_reading_witness :
  beginning_of_the_day env_new_york (mkdatetime 2024 3 10 15 45 10 7 (Some 0)) true
  = Ok (mkdatetime 2024 3 10 0 0 0 0 (Some EST)) /\
  end_of_the_day env_new_york (mkdatetime 2024 3 10 15 45 10 7 (Some 0)) true
  = Ok (mkdatetime 2024 3 10 23 59 59 999999 (Some EDT)).
Proof.
  assert (H1 : 0 <= 15 < 24) by lia. assert (H2 : 0 <= 45 < 60) by lia.
  assert (H3 : 0 <= 10 < 60) by lia. assert (H4 : 0 <= 7 < 1000000) by lia.
  destruct (day_boundaries_hold_the_reading env_new_york
              (mkdatetime 2024 3 10 15 45 10 7 (Some 0)) H1 H2 H3 H4)
    as (_ & _ & _ & _ & _ & _ & Hloc).
  exact (Hloc EST EDT eq_refl eq_refl).
Defined.

(** X17: a day boundary of a day boundary: the beginning (or the end)
    of the day of a result of [beginning_of_the_day] or
    [end_of_the_day] is the beginning (or the end) of the day of the
    value they were given; in particular both operations return their
    own results unchanged. *)
Theorem day_boundaries_compose E t flag r :
  beginning_of_the_day E t flag = Ok r \/ end_of_the_day E t flag = Ok r ->
  beginning_of_the_day E r flag = beginning_of_the_day E t flag /\
  end_of_the_day E r flag = end_of_the_day E t flag.
Proof.
  intros H.
  assert (Hd : (year r, month r, day r) = (year t, month t, day t)).
  { destruct H as [H|H]; unfold beginning_of_the_day, end_of_the_day in H;
      destruct flag.
    - apply localize_ok in H as (o & _ & _ & ->). reflexivity.
    - injection H as <-. reflexivity.
    - apply localize_ok in H as (o & _ & _ & ->). reflexivity.
    - injection H as <-. reflexivity. }
  injection Hd as Hy Hm Hday.
  unfold beginning_of_the_day, end_of_the_day, replace_time.
  rewrite Hy, Hm, Hday. split; reflexivity.
Qed.

Lemma day_boundaries_compose_witness :
  beginning_of_the_day env_new_york (mkdatetime 2024 3 10 23 59 59 999999 (Some EDT)) true
  = Ok (mkdatetime 2024 3 10 0 0 0 0 (Some EST)) /\
  end_of_the_day env_new_york (mkdatetime 2024 3 10 23 59 59 999999 (Some EDT)) true
  = Ok (mkdatetime 2024 3 10 23 59 59 999999 (Some EDT)).
Proof.
  exact (day_boundaries_compose env_new_york (mkdatetime 2024 3 10 15 45 10 7 (Some 0)) true
           (mkdatetime 2024 3 10 23 59 59 999999 (Some EDT)) (or_intror eq_refl)).
Defined.

(** ** The clock in the formatted text *)

Lemma str_lstrip_zero_hour h rest :
  1 <= h <= 12 -> str_lstrip_zero (pad2 h +:+ rest) = str_of_int h +:+ rest.
Proof.
  intros Hh.
  assert (Hc : h = 1 \/ h = 2 \/ h = 3 \/ h = 4 \/ h = 5 \/ h = 6 \/
               h = 7 \/ h = 8 \/ h = 9 \/ h = 10 \/ h = 11 \/ h = 12) by lia.
  unfold str_lstrip_zero. rewrite list_ascii_of_string_app.
  destruct Hc as [->|[->|[->|[->|[->|[->|[->|[->|[->|[->|[->| ->]]]]]]]]]]];
    match goal with
    | |- context [list_ascii_of_string (pad2 ?k)] =>
        let v := eval vm_compute in (list_ascii_of_string (pad2 k)) in
        change (list_ascii_of_string (pad2 k)) with v
    end;
    match goal with
    | |- context [str_of_int ?k] =>
        let v := eval vm_compute in (str_of_int k) in change (str_of_int k) with v
    end;
    cbn [app lstrip_with];
    repeat match goal with
    | |- context [code ?c =? 48] =>
        let v := eval vm_compute in (code c =? 48) in change (code c =? 48) with v
    end; cbv iota; cbn [string_of_list_ascii];
    rewrite string_of_list_ascii_of_string; reflexivity.
Qed.

(** X18: the time of day in the formatted text is on the 12-hour
    clock: the hour from 1 to 12 without a leading zero (12 for the
    hours 0 and 12), the minutes in two digits, then AM before noon and
    PM from noon on. Only the zero of the hour is stripped. *)
Theorem format_datetime_twelve_hour_clock E universal_time local_time :
  astimezone universal_time (current_timezone E) = Ok local_time ->
  let h := (hour local_time + 11) mod 12 + 1 in
  1 <= h <= 12 /\
  format_datetime E universal_time
  = Ok (strftime_A_B local_time +:+ str_of_int (day local_time)
        +:+ english_ordinal_suffix (day local_time) +:+ strftime_Y local_time
        +:+ str_of_int h +:+ ":" +:+ pad2 (minute local_time) +:+ " "
        +:+ (if hour local_time <? 12 then "AM" else "PM")).
Proof.
  intros Ha h.
  assert (Hv : datetime_valid local_time = true).
  { unfold astimezone in Ha. destruct (tzinfo universal_time) as [o|]; [|discriminate].
    apply wall_micros_of_wall_micros in Ha as (_ & Hv & _). exact Hv. }
  apply datetime_valid_spec in Hv as [(_ & Hm & Hday) (Hh & _)].
  pose proof (days_in_month_bounds (year local_time) _ Hm) as Hdim.
  assert (Hd : 1 <= day local_time <= 31) by lia.
  assert (Hh12 : 1 <= h <= 12) by (subst h; euclid).
  split; [exact Hh12|].
  unfold format_datetime. rewrite Ha. cbn [bind].
  rewrite int_of_strftime_d by exact Hd. cbn [bind].
  rewrite day_suffix_english by exact Hd. cbn [bind].
  do 5 f_equal. unfold strftime_I_M_p.
  replace (if hour local_time mod 12 =? 0 then 12 else hour local_time mod 12) with h
    by (subst h; destruct (Z.eqb_spec (hour local_time mod 12) 0); euclid).
  apply str_lstrip_zero_hour, Hh12.
Qed.

(** The theorem at midnight, at 09:05, at noon and at 21:05 UTC. *)
Lemma format_datetime_twelve_hour_clock_witness :
  format_datetime env_utc (mkdatetime 2024 1 2 0 0 0 0 (Some 0))
  = Ok "Tuesday, January 2nd, 2024 @ 12:00 AM" /\
  format_datetime env_utc (mkdatetime 2024 1 2 9 5 0 0 (Some 0))
  = Ok "Tuesday, January 2nd, 2024 @ 9:05 AM" /\
  format_datetime env_utc (mkdatetime 2024 1 2 12 0 0 0 (Some 0))
  = Ok "Tuesday, January 2nd, 2024 @ 12:00 PM" /\
  format_datetime env_utc (mkdatetime 2024 1 2 21 5 0 0 (Some 0))
  = Ok "Tuesday, January 2nd, 2024 @ 9:05 PM".
Proof.
  pose proof (fun t => format_datetime_twelve_hour_clock env_utc t) as F.
  refine (conj _ (conj _ (conj _ _))).
  - exact (proj2 (F (mkdatetime 2024 1 2 0 0 0 0 (Some 0)) _ eq_refl)).
  - exact (proj2 (F (mkdatetime 2024 1 2 9 5 0 0 (Some 0)) _ eq_refl)).
  - exact (proj2 (F (mkdatetime 2024 1 2 12 0 0 0 (Some 0)) _ eq_refl)).
  - exact (proj2 (F (mkdatetime 2024 1 2 21 5 0 0 (Some 0)) _ eq_refl)).
Defined.

(** ** The naive local reading of the clock *)

(** X19: [naive_local_current_datetime] is a naive value whose reading
    is the current instant moved by the offset in force in the process
    timezone at that instant; localizing it gives the current instant
    back whenever the timezone picks that offset for the reading (as it
    does outside the hour repeated at the end of summer time). *)
Theorem naive_local_current_datetime_reads_now E r :
  naive_local_current_datetime E = Ok r ->
  let u := instant (now E) in
  let o := tz_offset_at_utc (current_timezone E) u in
  tzinfo r = None /\ datetime_valid r = true /\
  wall_micros r = u + o * US_PER_SECOND /\
  (tz_offset (current_timezone E) r = Ok o ->
   exists a, localize E r None = Ok a /\ instant a = u).
Proof.
  intros H u o. unfold naive_local_current_datetime, localtime, astimezone in H.
  apply bind_ok_inv in H as (t & Ht & H). injection H as <-.
  destruct (tzinfo (now E)) as [o0|] eqn:Hn; [|discriminate].
  apply wall_micros_of_wall_micros in Ht as (Hw & Hv & _).
  assert (Eu : u = utc_micros (now E) o0) by (subst u; unfold instant; rewrite Hn; reflexivity).
  rewrite <- Eu in Hw. fold o in Hw.
  split; [reflexivity|]. split; [exact Hv|]. split; [exact Hw|].
  intros Ho. exists (with_tzinfo t (Some o)). split.
  - unfold localize, tz_localize. cbn [tzinfo with_tzinfo].
    change (mkdatetime (year t) (month t) (day t) (hour t) (minute t) (second t)
                       (microsecond t) None) with (with_tzinfo t None).
    rewrite Ho. reflexivity.
  - unfold instant, utc_micros. cbn [tzinfo with_tzinfo].
    rewrite wall_micros_with_tzinfo, Hw.
    generalize (o * US_PER_SECOND). intros k. lia.
Qed.

(** The theorem at noon UTC of March 15th 2024 in New York: 08:00. *)
Lemma naive_local_current_datetime_reads_now_witness :
  naive_local_current_datetime env_new_york = Ok (mkdatetime 2024 3 15 8 0 0 0 None) /\
  exists a, localize env_new_york (mkdatetime 2024 3 15 8 0 0 0 None) None = Ok a /\
            instant a = instant (now env_new_york).
Proof.
  assert (H : naive_local_current_datetime env_new_york
              = Ok (mkdatetime 2024 3 15 8 0 0 0 None)) by reflexivity.
  split; [exact H|].
  destruct (naive_local_current_datetime_reads_now env_new_york _ H) as (_ & _ & _ & Hback).
  exact (Hback eq_refl).
Defined.

(** ** The free-text range: whole days, and failures *)

(** X20: for two texts parsed as days (readings at 00:00:00.000000)
    that the timezone makes aware with the same offset, the range
    returned runs from the first instant of the start day to 23:59:59
    of the end day: it lasts the number of days from the start day to
    the end day, both included, less one second; and it is in order
    exactly when the end day is not before the start day. *)
Theorem parse_start_and_end_date_whole_days E start end_ ds de a b :
  dateutil_parse E start = Ok ds -> dateutil_parse E end_ = Ok de ->
  make_aware ds (current_timezone E) = Ok a ->
  make_aware de (current_timezone E) = Ok b ->
  datetime_valid de = true ->
  hour ds = 0 /\ minute ds = 0 /\ second ds = 0 /\ microsecond ds = 0 ->
  hour de = 0 /\ minute de = 0 /\ second de = 0 /\ microsecond de = 0 ->
  tzinfo a = tzinfo b ->
  exists r,
    parse_start_and_end_date E start end_ = Ok (a, r) /\
    (year r, month r, day r) = (year de, month de, day de) /\
    (hour r, minute r, second r, microsecond r) = (23, 59, 59, 0) /\
    instant r - instant a
    = (toordinal de - toordinal ds + 1) * US_PER_DAY - US_PER_SECOND /\
    (instant a <= instant r <-> toordinal ds <= toordinal de).
Proof.
  intros Ps Pe Ma Mb Hv (Hsh & Hsm & Hss & Hsu) (Heh & Hem & Hes & Heu) Htz.
  destruct (make_aware_ok _ _ _ Ma) as (oa & _ & _ & Ea).
  destruct (make_aware_ok _ _ _ Mb) as (ob & _ & _ & Eb).
  assert (Eo : oa = ob) by (rewrite Ea, Eb in Htz; cbn in Htz; congruence). subst ob.
  exists (mkdatetime (year de) (month de) (day de) 23 59 59 0 (Some oa)).
  assert (Hadd : datetime_add b (timedelta 1 (-1) 0)
                 = Ok (mkdatetime (year de) (month de) (day de) 23 59 59 0 (Some oa))).
  { rewrite add_day_minus_second_midnight by (rewrite ?Eb; assumption).
    rewrite Eb. cbn [year month day microsecond tzinfo with_tzinfo]. rewrite Heu. reflexivity. }
  assert (Hdiff : instant (mkdatetime (year de) (month de) (day de) 23 59 59 0 (Some oa))
                  - instant a
                  = (toordinal de - toordinal ds + 1) * US_PER_DAY - US_PER_SECOND).
  { rewrite Ea. unfold with_tzinfo. rewrite !instant_fields, Hsh, Hsm, Hss, Hsu.
    unfold toordinal, US_PER_DAY, US_PER_SECOND. ring. }
  split; [|split; [reflexivity|split; [reflexivity|split; [exact Hdiff|]]]].
  - unfold parse_start_and_end_date. rewrite Ps, Pe. cbn [bind].
    rewrite Ma, Mb. cbn [bind]. rewrite Hadd. reflexivity.
  - unfold US_PER_DAY, US_PER_SECOND in Hdiff. lia.
Qed.

(** The theorem for the first five days of January 2024, in New York. *)
Lemma parse_start_and_end_date_whole_days_witness :
  exists r,
    parse_start_and_end_date env_new_york "2024-01-01" "2024-01-05"
    = Ok (mkdatetime 2024 1 1 0 0 0 0 (Some EST), r) /\
    r = mkdatetime 2024 1 5 23 59 59 0 (Some EST) /\
    instant r - instant (mkdatetime 2024 1 1 0 0 0 0 (Some EST))
    = 5 * US_PER_DAY - US_PER_SECOND.
Proof.
  destruct (parse_start_and_end_date_whole_days env_new_york "2024-01-01" "2024-01-05"
              (mkdatetime 2024 1 1 0 0 0 0 None) (mkdatetime 2024 1 5 0 0 0 0 None)
              (mkdatetime 2024 1 1 0 0 0 0 (Some EST)) (mkdatetime 2024 1 5 0 0 0 0 (Some EST))
              eq_refl eq_refl eq_refl eq_refl eq_refl
              (conj eq_refl (conj eq_refl (conj eq_refl eq_refl)))
              (conj eq_refl (conj eq_refl (conj eq_refl eq_refl))) eq_refl)
    as (r & Hr & _ & _ & Hd & _).
  exists r. split; [exact Hr|].
  assert (Er : r = mkdatetime 2024 1 5 23 59 59 0 (Some EST))
    by (vm_compute in Hr; injection Hr as <-; reflexivity).
  split; [exact Er | exact Hd].
Defined.

(** X21: [parse_start_and_end_date] raises what its steps raise,
    unchanged and in the order of the code: the parse of the start,
    then making the start aware, then the parse of the end, then making
    the end aware; a text that the parser reads with a timezone of its
    own (an aware value) is refused with [ValueError]. *)
Theorem parse_start_and_end_date_failures E start end_ :
  (forall x, dateutil_parse E start = Raise x ->
             parse_start_and_end_date E start end_ = Raise x) /\
  (forall ds x, dateutil_parse E start = Ok ds ->
                make_aware ds (current_timezone E) = Raise x ->
                parse_start_and_end_date E start end_ = Raise x) /\
  (forall ds a x, dateutil_parse E start = Ok ds ->
                  make_aware ds (current_timezone E) = Ok a ->
                  dateutil_parse E end_ = Raise x ->
                  parse_start_and_end_date E start end_ = Raise x) /\
  (forall ds a de x, dateutil_parse E start = Ok ds ->
                     make_aware ds (current_timezone E) = Ok a ->
                     dateutil_parse E end_ = Ok de ->
                     make_aware de (current_timezone E) = Raise x ->
                     parse_start_and_end_date E start end_ = Raise x) /\
  (forall ds, dateutil_parse E start = Ok ds -> is_Some (tzinfo ds) ->
              parse_start_and_end_date E start end_ = Raise ValueError).
Proof.
  unfold parse_start_and_end_date. repeat split.
  - intros x ->. reflexivity.
  - intros ds x -> Hm. cbn [bind]. rewrite Hm. reflexivity.
  - intros ds a x -> Hm ->. cbn [bind]. rewrite Hm. reflexivity.
  - intros ds a de x -> Hm -> Hm'. cbn [bind]. rewrite Hm. cbn [bind]. rewrite Hm'. reflexivity.
  - intros ds -> [o Ho]. cbn [bind]. unfold make_aware. rewrite Ho. reflexivity.
Qed.

(** ** The colours *)

(** X22: [bootstrap_primary_color] gives a colour to exactly the four
    names success, info, warning and danger (as written, in lower
    case), and to no other value; two names never share a colour. *)
Theorem bootstrap_primary_color_names :
  (forall v c, bootstrap_primary_color v = Some c <->
     (v = VStr "success" /\ c = "#5cb85c") \/ (v = VStr "info" /\ c = "#5bc0de") \/
     (v = VStr "warning" /\ c = "#f0ad4e") \/ (v = VStr "danger" /\ c = "#d9534f")) /\
  (forall v w c, bootstrap_primary_color v = Some c ->
                 bootstrap_primary_color w = Some c -> v = w) /\
  bootstrap_primary_color (VStr "Success") = None /\
  bootstrap_primary_color (VStr "") = None /\
  bootstrap_primary_color VNone = None.
Proof.
  assert (Hiff : forall v c, bootstrap_primary_color v = Some c <->
     (v = VStr "success" /\ c = "#5cb85c") \/ (v = VStr "info" /\ c = "#5bc0de") \/
     (v = VStr "warning" /\ c = "#f0ad4e") \/ (v = VStr "danger" /\ c = "#d9534f")).
  { intros v c. split.
    - destruct v as [| n | q | s]; cbn; try discriminate.
      destruct (String.eqb_spec s "success") as [->|_]; [intros [= <-]; auto|].
      destruct (String.eqb_spec s "info") as [->|_]; [intros [= <-]; auto|].
      destruct (String.eqb_spec s "warning") as [->|_]; [intros [= <-]; auto 6|].
      destruct (String.eqb_spec s "danger") as [->|_]; [intros [= <-]; auto 6|].
      discriminate.
    - intros [[-> ->]|[[-> ->]|[[-> ->]|[-> ->]]]]; reflexivity. }
  split; [exact Hiff|]. split; [|repeat split; reflexivity].
  intros v w c Hv Hw. apply Hiff in Hv, Hw.
  destruct Hv as [[-> ->]|[[-> ->]|[[-> ->]|[-> ->]]]];
    destruct Hw as [[-> Hc]|[[-> Hc]|[[-> Hc]|[-> Hc]]]];
    first [reflexivity | discriminate Hc].
Qed.

(** ** The current month is the month of the UTC clock *)

(** X23: with no date, the month timeframe is the month of the fields
    of [timezone.now()] as they are, that is of the clock read in UTC,
    localized to the process timezone: in the hours when the process
    timezone is still in the previous month (or already in the next),
    the range is not the month of the local date (see the example
    below the theorem). *)
Theorem get_month_timeframe_of_now E o1 o2 :
  datetime_valid (now E) = true ->
  let y := year (now E) in
  let m := month (now E) in
  tz_offset (current_timezone E) (mkdatetime y m 1 0 0 0 0 None) = Ok o1 ->
  tz_offset (current_timezone E) (mkdatetime y m (days_in_month y m) 23 59 59 0 None)
  = Ok o2 ->
  get_month_timeframe E None
  = Ok (mkdatetime y m 1 0 0 0 0 (Some o1),
        mkdatetime y m (days_in_month y m) 23 59 59 0 (Some o2)).
Proof.
  intros Hv y m Ho1 Ho2. subst y m.
  apply datetime_valid_spec in Hv as [(Hy & Hm & Hd) _].
  pose proof (days_in_month_bounds (year (now E)) (month (now E)) Hm) as Hdim.
  unfold get_month_timeframe. cbn [bind]. unfold datetime_new.
    replace (date_valid (year (now E)) (month (now E)) 1) with true
      by (symmetry; apply date_valid_spec; lia).
    change (time_valid 0 0 0 0) with true. cbn [andb bind].
    unfold localize, tz_localize. cbn [tzinfo]. rewrite Ho1. cbn [bind with_tzinfo].
    unfold monthrange.
    replace ((1 <=? month (now E)) && (month (now E) <=? 12)) with true
      by (symmetry; apply andb_true_iff; rewrite !Z.leb_le; lia).
    replace ((MINYEAR <=? year (now E)) && (year (now E) <=? MAXYEAR)) with true
      by (symmetry; apply andb_true_iff; unfold MINYEAR, MAXYEAR; rewrite !Z.leb_le; lia).
    cbn [bind snd]. rewrite <- days_in_month_alt.
    replace (date_valid (year (now E)) (month (now E))
                        (days_in_month (year (now E)) (month (now E)))) with true
      by (symmetry; apply date_valid_spec; lia).
    change (time_valid 23 59 59 0) with true.
    cbn [andb bind tzinfo]. rewrite Ho2. reflexivity.
Qed.

(** The theorem at 02:00 UTC of March 1st 2024 with New York as the
    process timezone: the local date is still February 29th, and the
    range is March. *)
Lemma get_month_timeframe_of_now_witness :
  naive_local_current_datetime
    (mkenv new_york_2024 (mkdatetime 2024 3 1 2 0 0 0 (Some 0)) float_of_integer strptime_ymd)
  = Ok (mkdatetime 2024 2 29 21 0 0 0 None) /\
  get_month_timeframe
    (mkenv new_york_2024 (mkdatetime 2024 3 1 2 0 0 0 (Some 0)) float_of_integer strptime_ymd)
    None
  = Ok (mkdatetime 2024 3 1 0 0 0 0 (Some EST), mkdatetime 2024 3 31 23 59 59 0 (Some EDT)).
Proof.
  split; [reflexivity|].
  exact (get_month_timeframe_of_now
           (mkenv new_york_2024 (mkdatetime 2024 3 1 2 0 0 0 (Some 0))
                  float_of_integer strptime_ymd)
           EST EDT eq_refl eq_refl eq_refl).
Defined.
